(** * Nutrition_Data: the two OpenFoodFacts clean-up scripts

    A shallow embedding of
    - [prepare_foods_csv_chunks_limited.py] (the strict variant: presence
      filter, de-duplication, completeness filter, [clean_numeric], all-zero
      drop), module [Strict];
    - [prepare_foods_csv_chunks.py] (the simple variant: one mapping per
      chunk, nothing filtered), module [Simple];
    together with the pandas and Python primitives both scripts call,
    module [Py].

    Conventions of the embedding.
    - A Python [str] is a [string] of 8-bit characters; [strip], [lower] and
      the regex classes are the ASCII ones. They are Python's on a text of
      ASCII characters; on other characters Python follows Unicode, and the
      statements whose conclusion depends on it take the text cells of the
      input to be ASCII ([Whole.ascii_rows], [Whole.ascii_cell]).
    - A float64 is [NaN], an infinity or an exact rational: rounding,
      overflow and underflow of binary floating point are not modelled.
    - A Series is the list of its cells in row order; a DataFrame is the list
      of its rows, each with the row label pandas gives it.
    - A Python exception is an explicit [Raise] result. *)

From Stdlib Require Import ZArith QArith String Ascii List Bool Lia.
From Stdlib Require Import DecimalString DecimalPos.
From stdpp Require Import base gmap strings list.

Local Open Scope string_scope.
Local Open Scope list_scope.

(* ===================================================================== *)
(** * Python and pandas primitives *)
(* ===================================================================== *)

Module Py.

(** ** Text *)

(** [str.isspace] on one ASCII character: TAB, LF, VT, FF, CR, the four
    separators FS, GS, RS, US and the blank. *)
Definition is_space (c : ascii) : bool :=
  let n := nat_of_ascii c in
  ((9 <=? n) && (n <=? 13) || (28 <=? n) && (n <=? 32))%nat.

Definition is_digit (c : ascii) : bool :=
  let n := nat_of_ascii c in ((48 <=? n) && (n <=? 57))%nat.

Definition lower_char (c : ascii) : ascii :=
  let n := nat_of_ascii c in
  if ((65 <=? n) && (n <=? 90))%nat then ascii_of_nat (n + 32) else c.

Fixpoint lower (s : string) : string :=
  match s with
  | EmptyString => EmptyString
  | String c r => String (lower_char c) (lower r)
  end.

Fixpoint lstrip (s : string) : string :=
  match s with
  | EmptyString => EmptyString
  | String c r => if is_space c then lstrip r else s
  end.

Fixpoint rstrip (s : string) : string :=
  match s with
  | EmptyString => EmptyString
  | String c r =>
      match rstrip r with
      | EmptyString => if is_space c then EmptyString else String c EmptyString
      | r' => String c r'
      end
  end.

(** [s.strip()] *)
Definition strip (s : string) : string := rstrip (lstrip s).

(** [s.replace(old, new)] for a one-character [old] (the only use the
    scripts make of it, with [regex=False]). *)
Fixpoint replace (old : ascii) (new : string) (s : string) : string :=
  match s with
  | EmptyString => EmptyString
  | String c r =>
      if Ascii.eqb c old then String.append new (replace old new r)
      else String c (replace old new r)
  end.

Definition dquote : ascii := "034"%char.
Definition squote : ascii := "039"%char.

(** ** Numbers *)

(** A float64 value. *)
Inductive fval : Type :=
| NaN
| Inf (neg : bool)
| Fin (q : Q).

Definition isna (x : fval) : bool :=
  match x with NaN => true | _ => false end.

(** Python comparisons of a float with a finite constant; every comparison
    with [NaN] is false. *)
Definition f_lt (x : fval) (b : Q) : bool :=
  match x with
  | NaN => false
  | Inf neg => neg
  | Fin q => negb (Qle_bool b q)
  end.

Definition f_gt (x : fval) (b : Q) : bool :=
  match x with
  | NaN => false
  | Inf neg => negb neg
  | Fin q => negb (Qle_bool q b)
  end.

Definition f_le (x : fval) (b : Q) : bool :=
  match x with
  | NaN => false
  | Inf neg => neg
  | Fin q => Qle_bool q b
  end.

Definition f_ge (x : fval) (b : Q) : bool :=
  match x with
  | NaN => false
  | Inf neg => negb neg
  | Fin q => Qle_bool b q
  end.

(** [x == 0] *)
Definition f_is_zero (x : fval) : bool :=
  match x with
  | Fin q => Qeq_bool q 0
  | _ => false
  end.

(** [Series.fillna(v)] on one float. *)
Definition fillna (v : Q) (x : fval) : fval :=
  match x with NaN => Fin v | _ => x end.

(** [Series.clip(lo, hi)] on one float: [NaN] stays, anything below [lo]
    becomes [lo], anything above [hi] becomes [hi]. *)
Definition clip (lo hi : Q) (x : fval) : fval :=
  match x with
  | NaN => NaN
  | _ => if f_lt x lo then Fin lo else if f_gt x hi then Fin hi else x
  end.

(** The value is a finite number between [lo] and [hi]. *)
Definition in_range (lo hi : Q) (x : fval) : Prop :=
  match x with
  | Fin q => (lo <= q /\ q <= hi)%Q
  | _ => False
  end.

(** The value is a finite number in the half-open interval (lo, hi]. *)
Definition in_range_oc (lo hi : Q) (x : fval) : Prop :=
  match x with
  | Fin q => (lo < q /\ q <= hi)%Q
  | _ => False
  end.

(** ** Cells *)

(** What [read_csv] puts in a DataFrame cell: a float (float64 column, or
    the [NaN] that marks a missing value in any column), an integer (int64
    column) or a text (object column). *)
Inductive cell : Type :=
| CFloat (x : fval)
| CInt (z : Z)
| CStr (s : string).

Definition missing : cell := CFloat NaN.

(** [pd.isna(c)] / [Series.notna()] *)
Definition cell_isna (c : cell) : bool :=
  match c with CFloat NaN => true | _ => false end.

(** ** Decimal numerals *)

Definition digit_val (c : ascii) : Z := Z.of_nat (nat_of_ascii c) - 48.

(** The longest prefix of decimal digits, and what follows it. *)
Fixpoint span_digits (s : string) : string * string :=
  match s with
  | EmptyString => (EmptyString, EmptyString)
  | String c r =>
      if is_digit c
      then let '(d, t) := span_digits r in (String c d, t)
      else (EmptyString, s)
  end.

Fixpoint digits_val (acc : Z) (ds : string) : Z :=
  match ds with
  | EmptyString => acc
  | String c r => digits_val (10 * acc + digit_val c) r
  end.

(** [m * 10 ^ e] as a reduced rational. *)
Definition scale10 (m e : Z) : Q :=
  if (0 <=? e)%Z then inject_Z (m * 10 ^ e)
  else Qred (Qmake m (Z.to_pos (10 ^ (- e)))).

Definition all_space (s : string) : bool :=
  match lstrip s with EmptyString => true | _ => false end.

(** An optional sign in front of a numeral. *)
Definition split_sign (s : string) : bool * string :=
  match s with
  | String "-" r => (true, r)
  | String "+" r => (false, r)
  | _ => (false, s)
  end.

(** The exponent part of a numeral: [e] or [E], an optional sign, digits.
    Without a digit the [e] is not consumed. *)
Definition parse_exponent (s : string) : Z * string :=
  match s with
  | String c r =>
      if (Ascii.eqb c "e" || Ascii.eqb c "E")%bool then
        let '(neg, r1) := split_sign r in
        let '(ds, r2) := span_digits r1 in
        match ds with
        | EmptyString => (0%Z, s)
        | _ => ((if neg then - digits_val 0 ds else digits_val 0 ds)%Z, r2)
        end
      else (0%Z, s)
  | EmptyString => (0%Z, s)
  end.

(** The fraction part of a numeral: a point and the digits after it. *)
Definition split_fraction (s : string) : string * string :=
  match s with
  | String c r => if Ascii.eqb c "." then span_digits r else (EmptyString, s)
  | EmptyString => (EmptyString, s)
  end.

(** pandas' text-to-double conversion: blanks, a sign, digits with an
    optional point (at least one digit in all), an optional exponent,
    blanks, and nothing else. *)
Definition to_double (s : string) : option Q :=
  let '(neg, s2) := split_sign (lstrip s) in
  let '(ip, s3) := span_digits s2 in
  let '(fp, s4) := split_fraction s3 in
  match String.append ip fp with
  | EmptyString => None
  | ds =>
      let '(ex, s5) := parse_exponent s4 in
      if all_space s5 then
        let m := digits_val 0 ds in
        Some (scale10 (if neg then - m else m) (ex - Z.of_nat (String.length fp)))
      else None
  end.

(** The words pandas accepts besides numerals, compared without case. *)
Definition special_float (s : string) : option fval :=
  let w := lower s in
  if (String.eqb w "nan" || String.eqb w "+nan" || String.eqb w "-nan")%bool then Some NaN
  else if (String.eqb w "inf" || String.eqb w "+inf"
           || String.eqb w "infinity" || String.eqb w "+infinity")%bool then Some (Inf false)
  else if (String.eqb w "-inf" || String.eqb w "-infinity")%bool then Some (Inf true)
  else None.

(** [pd.to_numeric(text, errors="coerce")] on one text. *)
Definition str_to_numeric (s : string) : fval :=
  match to_double s with
  | Some q => Fin q
  | None =>
      match special_float s with
      | Some x => x
      | None => NaN
      end
  end.

(** A plain decimal numeral: digits with at most one point among them, and
    nothing else. *)
Definition plain_numeral (s : string) : bool :=
  let '(ip, r) := span_digits s in
  match r with
  | EmptyString => negb (String.eqb ip "")
  | String c r' =>
      let '(fp, r'') := span_digits r' in
      Ascii.eqb c "." && String.eqb r'' "" && negb (String.eqb (String.append ip fp) "")
  end.

Fixpoint all_digits (s : string) : bool :=
  match s with
  | EmptyString => true
  | String c r => is_digit c && all_digits r
  end.

(** The text does not start with a digit. *)
Definition no_digit_head (t : string) : bool :=
  match t with
  | EmptyString => true
  | String c _ => negb (is_digit c)
  end.

(** [pd.to_numeric(col, errors="coerce")] on one cell of a column. *)
Definition to_numeric (c : cell) : fval :=
  match c with
  | CFloat x => x
  | CInt z => Fin (inject_Z z)
  | CStr s => str_to_numeric s
  end.

(** ** Text of a number: [str(x)] and [Series.astype(str)] *)

(** Number of decimal digits of a positive integer. *)
Definition ndigits (n : Z) : Z :=
  Z.of_nat (String.length (NilEmpty.string_of_uint (N.to_uint (Z.to_N n)))).

Fixpoint zeros (n : nat) : string :=
  match n with O => EmptyString | S k => String "0" (zeros k) end.

(** Trailing zeros of a digit string removed. *)
Fixpoint strip_zeros (s : string) : string :=
  match s with
  | EmptyString => EmptyString
  | String c r =>
      match strip_zeros r with
      | EmptyString => if Ascii.eqb c "0" then EmptyString else String c EmptyString
      | r' => String c r'
      end
  end.

Fixpoint take (n : nat) (s : string) : string :=
  match n, s with
  | S k, String c r => String c (take k r)
  | _, _ => EmptyString
  end.

Fixpoint drop (n : nat) (s : string) : string :=
  match n, s with
  | S k, String _ r => drop k r
  | _, _ => s
  end.

(** The significant digits of a positive rational [a/d] and the position
    [decpt] of the decimal point: [a/d = 0.d1d2... * 10 ^ decpt]. [repr]
    prints the shortest digits that read back as the same float, 17 at
    most; here the value is rounded to 17 significant digits, which is the
    same for a value that has a short decimal writing. *)
Definition sig_digits (a d : Z) : string * Z :=
  let c0 := (ndigits a - ndigits d)%Z in
  let above := if (0 <=? c0)%Z then (d * 10 ^ c0 <=? a)%Z
               else (d <=? a * 10 ^ (- c0))%Z in
  let decpt := if above then (c0 + 1)%Z else c0 in
  let sh := (17 - decpt)%Z in
  let n := if (0 <=? sh)%Z then ((2 * a * 10 ^ sh + d) / (2 * d))%Z
           else ((2 * a + d * 10 ^ (- sh)) / (2 * d * 10 ^ (- sh)))%Z in
  let '(n, decpt) := if (10 ^ 17 <=? n)%Z then (10 ^ 16, decpt + 1)%Z else (n, decpt) in
  (strip_zeros (NilEmpty.string_of_uint (N.to_uint (Z.to_N n))), decpt).

(** The exponent of the scientific form: a sign and at least two digits. *)
Definition exp_str (e : Z) : string :=
  let ds := NilZero.string_of_uint (N.to_uint (Z.to_N (Z.abs e))) in
  String.append (if (e <? 0)%Z then "e-" else "e+")
                (if (String.length ds <? 2)%nat then String "0" ds else ds).

(** [repr] of a finite float, CPython's short form: scientific notation
    when [decpt <= -4] or [decpt > 16], positional otherwise, with [.0]
    added to an integral value. *)
Definition repr_finite (q : Q) : string :=
  if Qeq_bool q 0 then "0.0" else
  let '(ds, decpt) := sig_digits (Z.abs (Qnum q)) (Zpos (Qden q)) in
  let sign := if (Qnum q <? 0)%Z then "-" else "" in
  let n := Z.of_nat (String.length ds) in
  String.append sign
    (if ((decpt <=? -4) || (16 <? decpt))%Z%bool then
       String.append (take 1 ds)
         (String.append (match drop 1 ds with
                         | EmptyString => EmptyString
                         | r => String "." r
                         end)
                        (exp_str (decpt - 1)))
     else if (decpt <=? 0)%Z then
       String.append "0." (String.append (zeros (Z.to_nat (- decpt))) ds)
     else if (n <=? decpt)%Z then
       String.append ds (String.append (zeros (Z.to_nat (decpt - n))) ".0")
     else
       String.append (take (Z.to_nat decpt) ds)
                     (String "." (drop (Z.to_nat decpt) ds))).

Definition float_str (x : fval) : string :=
  match x with
  | NaN => "nan"
  | Inf false => "inf"
  | Inf true => "-inf"
  | Fin q => repr_finite q
  end.

(** [str(c)], which is also what [Series.astype(str)] puts in each cell. *)
Definition py_str (c : cell) : string :=
  match c with
  | CFloat x => float_str x
  | CInt z => NilZero.string_of_int (Z.to_int z)
  | CStr s => s
  end.

(** ** Regular expressions *)

(** The fragment of [re] the scripts use: character classes, sequence and
    the greedy [?], [*]; [r+] is [r r*]. *)
Inductive regex : Type :=
| Cls (p : ascii -> bool)
| Cat (r1 r2 : regex)
| Opt (r : regex)
| Star (r : regex).

Definition Plus (r : regex) : regex := Cat r (Star r).

(** The iterations of a greedy star whose body is matched by [m]: one more
    iteration first, the continuation [k] when that fails. An iteration
    that consumes nothing ends the loop, and [n] bounds the iterations. *)
Fixpoint star_loop (m : string -> (string -> option string) -> option string)
    (k : string -> option string) (n : nat) (s : string) : option string :=
  match n with
  | O => k s
  | S n' =>
      match m s (fun t => if (String.length t <? String.length s)%nat
                          then star_loop m k n' t else None) with
      | Some e => Some e
      | None => k s
      end
  end.

(** Backtracking matcher: [rx r s k] matches [r] at the start of [s] and
    hands what is left to [k]; the first success in [re]'s order of
    preference (greedy first) is returned. *)
Fixpoint rx (r : regex) (s : string) (k : string -> option string) : option string :=
  match r with
  | Cls p =>
      match s with
      | String c t => if p c then k t else None
      | EmptyString => None
      end
  | Cat a b => rx a s (fun t => rx b t k)
  | Opt a =>
      match rx a s k with
      | Some e => Some e
      | None => k s
      end
  | Star a => star_loop (rx a) k (String.length s) s
  end.

(** What a greedy star over digits comes to on the digits [ds] followed by
    [t]: the continuation is tried after all the digits first, then after
    one digit less, and so on. *)
Fixpoint backtrack (k : string -> option string) (ds t : string) : option string :=
  match ds with
  | EmptyString => k t
  | String c ds' =>
      match backtrack k ds' t with
      | Some e => Some e
      | None => k (String c (String.append ds' t))
      end
  end.

(** [re.search(r, s)]: the text of the leftmost match. *)
Fixpoint search (r : regex) (s : string) : option string :=
  match rx r s Some with
  | Some rest => Some (take (String.length s - String.length rest) s)
  | None =>
      match s with
      | EmptyString => None
      | String _ t => search r t
      end
  end.

(** ** Exceptions *)

Inductive exn : Type := AttributeError | TypeError.

Inductive result (A : Type) : Type :=
| Ok (a : A)
| Raise (e : exn).

Arguments Ok {A} a.
Arguments Raise {A} e.

Definition bind {A B : Type} (m : result A) (k : A -> result B) : result B :=
  match m with
  | Ok a => k a
  | Raise e => Raise e
  end.

(** Calling a method on the result of [df.get(..)]: [None] has none. *)
Definition method_of {A : Type} (o : option A) : result A :=
  match o with
  | Some a => Ok a
  | None => Raise AttributeError
  end.

(** ** DataFrames *)

(** A row as [read_csv] delivers it: the cell of each column, by column
    name. A column the row has no entry for holds a missing value. *)
Definition row_cell (r : gmap string cell) (c : string) : cell :=
  default missing (r !! c).

(** A DataFrame: its column names, and its rows in order, each with its
    index label. *)
Record frame : Type := Frame {
  columns : list string;
  rows : list (Z * gmap string cell)
}.

(** [df[c]] for a column that is there. *)
Definition df_col (c : string) (df : frame) : list cell :=
  map (fun lr => row_cell lr.2 c) (rows df).

(** [df.get(c)]: [None] when [df] has no column [c]. *)
Definition df_get (c : string) (df : frame) : option (list cell) :=
  if bool_decide (c ∈ columns df) then Some (df_col c df) else None.

(** [df.empty] *)
Definition is_empty_list {A : Type} (l : list A) : bool :=
  match l with [] => true | _ => false end.

(** [df[mask]]: the rows whose mask entry is [True]. *)
Fixpoint select {A : Type} (mask : list bool) (l : list A) : list A :=
  match mask, l with
  | b :: mask', x :: l' => if b then x :: select mask' l' else select mask' l'
  | _, _ => []
  end.

(** The entry of a Series for the row at position [i] when a DataFrame is
    built from Series. Every Series computed from [df] carries [df]'s index,
    so aligning on labels is aligning on positions; a Series without entry
    for the row (the empty Series) leaves the fill value there. *)
Definition at_row {A : Type} (fill : A) (s : list A) (i : nat) : A := nth i s fill.

(** ** The output file *)

(** A line of the CSV file. The index label of a data line is not written
    ([index=False]); it is kept to tell which input row a line comes from. *)
Inductive line (R : Type) : Type :=
| Header (cols : list string)
| Data (label : Z) (r : R).

Arguments Header {R} cols.
Arguments Data {R} label r.

Definition is_header {R : Type} (l : line R) : bool :=
  match l with Header _ => true | Data _ _ => false end.

Definition data_label {R : Type} (l : line R) : option Z :=
  match l with Header _ => None | Data i _ => Some i end.

(** [out.to_csv(path, header=h, index=False, mode="a")] *)
Definition to_csv {R : Type} (cols : list string) (h : bool)
    (out : list (Z * R)) (file : list (line R)) : list (line R) :=
  file ++ (if h then [Header cols] else []) ++ map (fun lr => Data lr.1 lr.2) out.

(** The value of column [c] in a row given as (column, value) pairs. *)
Fixpoint field (c : string) (r : list (string * fval)) : fval :=
  match r with
  | [] => NaN
  | (c', v) :: r' => if String.eqb c c' then v else field c r'
  end.

(** All the rows of a run's input, in input order. *)
Definition all_rows (chunks : list frame) : list (Z * gmap string cell) :=
  concat (map rows chunks).

(** The index labels of the data lines of a file, in file order. *)
Definition data_labels {R : Type} (file : list (line R)) : list Z :=
  omap data_label file.

End Py.


Notation "'let*' x ':=' m 'in' k" := (Py.bind m (fun x => k))
  (at level 10, x name, m at level 100, k at level 200).

(* ===================================================================== *)
(** * The strict variant: prepare_foods_csv_chunks_limited.py *)
(* ===================================================================== *)

Module Strict.
Import Py.

(** ** clean_numeric *)

(** The pattern [([-+]?\d*\.?\d+)]. *)
Definition numeral_re : regex :=
  Cat (Opt (Cls (fun c => Ascii.eqb c "-" || Ascii.eqb c "+")))
      (Cat (Star (Cls is_digit))
           (Cat (Opt (Cls (fun c => Ascii.eqb c ".")))
                (Plus (Cls is_digit)))).

(** The part of the pattern after the leading digits, [\.?\d+], as a
    continuation of the star over them. *)
Definition after_digits (t : string) : option string :=
  rx (Opt (Cls (fun c => Ascii.eqb c "."))) t
     (fun u => rx (Plus (Cls is_digit)) u Some).

(** [col.astype(str).str.replace(",", ".", regex=False)], one cell. *)
Definition numeric_text (c : cell) : string :=
  replace "," "." (py_str c).

(** [s.str.extract(numeral_re)[0]], one cell: the first numeral in the
    text, no value when there is none. *)
Definition extract_numeral (c : cell) : option string :=
  search numeral_re (numeric_text c).

(** The body of [clean_numeric] on one cell of a column that is there. *)
Definition clean_cell (c : cell) : fval :=
  let num := match extract_numeral c with
             | Some m => CStr m
             | None => missing
             end in
  clip 0 999999 (fillna 0 (to_numeric num)).

(** [clean_numeric(col)]: an empty Series for a column that is not there. *)
Definition clean_numeric (col : option (list cell)) : list fval :=
  match col with
  | None => []
  | Some cells => map clean_cell cells
  end.

(** ** Run state *)

(** A row of the cleaned extract [out]. The nutrient columns are kept as
    (column, value) pairs in the order of the dict. *)
Record out_row : Type := OutRow {
  name : string;
  brand : string;
  nutrients : list (string * fval);
  serving_size : string;
  servings : fval
}.

(** The module-level variables of the script and the output file. *)
Record state : Type := State {
  daCount : Z;
  daHeader : bool;
  seen_pairs : gset (string * string);
  csv : list (line out_row)
}.

Definition init : state :=
  {| daCount := 0; daHeader := true; seen_pairs := ∅; csv := [] |}.

(** ** 1) Drop empty names *)

Definition name_present (c : cell) : bool :=
  negb (cell_isna c) && negb (String.eqb (strip (py_str c)) "").

Definition drop_empty_names (df : frame) : result frame :=
  let* name_col := method_of (df_get "product_name" df) in
  Ok (Frame (columns df) (select (map name_present name_col) (rows df))).

(** ** 2) Deduplicate (name + brand) *)

Definition dedup_key (n b : cell) : string * string :=
  (lower (strip (py_str n)),
   if cell_isna b then "" else lower (strip (py_str b))).

(** The loop over [zip(df["product_name"], df.get("brands"))]. *)
Fixpoint unique_mask (seen : gset (string * string)) (names brands : list cell)
  : gset (string * string) * list bool :=
  match names, brands with
  | n :: names', b :: brands' =>
      let key := dedup_key n b in
      if bool_decide (key ∈ seen) then
        let '(seen', mask) := unique_mask seen names' brands' in
        (seen', false :: mask)
      else
        let '(seen', mask) := unique_mask ({[key]} ∪ seen) names' brands' in
        (seen', true :: mask)
  | _, _ => (seen, [])
  end.

(** [zip] with [None] as an argument raises [TypeError]. *)
Definition deduplicate (seen : gset (string * string)) (df : frame)
  : result (gset (string * string) * frame) :=
  match df_get "brands" df with
  | None => Raise TypeError
  | Some brands =>
      let '(seen', mask) := unique_mask seen (df_col "product_name" df) brands in
      Ok (seen', Frame (columns df) (select mask (rows df)))
  end.

(** ** 3) Drop low-completeness entries *)

Definition completeness_candidates : list string :=
  ["data_quality_info_score"; "data_quality_score"; "completeness"].

Definition completeness_col (df : frame) : option string :=
  find (fun cand => bool_decide (cand ∈ columns df)) completeness_candidates.

Definition complete_enough (c : cell) : bool :=
  f_ge (fillna 0 (to_numeric c)) 0.5.

Definition drop_low_completeness (df : frame) : frame :=
  match completeness_col df with
  | Some c => Frame (columns df) (select (map complete_enough (df_col c df)) (rows df))
  | None => df
  end.

(** ** 4) Build cleaned extract *)

(** The nutrient entries of the dict: output column and source column. *)
Definition nutrient_map : list (string * string) :=
  [ ("calories", "energy-kcal_100g");
    ("total_carbs", "carbohydrates_100g");
    ("fiber", "fiber_100g");
    ("sugar", "sugars_100g");
    ("added_sugar", "added-sugars_100g");
    ("total_fats", "fat_100g");
    ("omega_3", "omega-3-fat_100g");
    ("omega_6", "omega-6-fat_100g");
    ("saturated_fats", "saturated-fat_100g");
    ("trans_fats", "trans-fat_100g");
    ("protein", "proteins_100g");
    ("vitamin_a", "vitamin-a_100g");
    ("vitamin_b6", "vitamin-b6_100g");
    ("vitamin_b12", "vitamin-b12_100g");
    ("vitamin_c", "vitamin-c_100g");
    ("vitamin_d", "vitamin-d_100g");
    ("vitamin_e", "vitamin-e_100g");
    ("vitamin_k", "vitamin-k_100g");
    ("thiamin", "vitamin-b1_100g");
    ("riboflavin", "vitamin-b2_100g");
    ("niacin", "vitamin-pp_100g");
    ("folate", "vitamin-b9_100g");
    ("pantothenic_acid", "pantothenic-acid_100g");
    ("biotin", "biotin_100g");
    ("choline", "choline_100g");
    ("calcium", "calcium_100g");
    ("chromium", "chromium_100g");
    ("copper", "copper_100g");
    ("fluoride", "fluoride_100g");
    ("iodine", "iodine_100g");
    ("iron", "iron_100g");
    ("magnesium", "magnesium_100g");
    ("manganese", "manganese_100g");
    ("molybdenum", "molybdenum_100g");
    ("phosphorus", "phosphorus_100g");
    ("selenium", "selenium_100g");
    ("zinc", "zinc_100g");
    ("potassium", "potassium_100g");
    ("sodium", "sodium_100g");
    ("chloride", "chloride_100g") ].

(** The columns of [out], in the order of the dict. *)
Definition out_columns : list string :=
  "name" :: "brand" :: map fst nutrient_map ++ ["serving_size"; "servings"].

(** [.fillna("").astype(str)] on one cell. *)
Definition text_or_empty (c : cell) : string :=
  if cell_isna c then "" else py_str c.

(** [lambda x: 1.0 if (pd.isna(x) or x <= 0 or x > 99) else x] *)
Definition servings_of (x : fval) : fval :=
  if isna x || f_le x 0 || f_gt x 99 then Fin 1 else x.

(** The DataFrame constructor on the dict of Series. The nutrient Series of
    a column that is not there is empty and leaves [NaN] in every row. *)
Definition build_out (df : frame) : result (list (Z * out_row)) :=
  let names := map py_str (df_col "product_name" df) in
  let* brand_col := method_of (df_get "brands" df) in
  let brands := map text_or_empty brand_col in
  let nutrient_series :=
    map (fun oc => (oc.1, clean_numeric (df_get oc.2 df))) nutrient_map in
  let* size_col := method_of (df_get "serving_size" df) in
  let sizes := map text_or_empty size_col in
  let* quantity_col := method_of (df_get "serving_quantity" df) in
  let quantities := map (fun c => servings_of (to_numeric c)) quantity_col in
  Ok (imap (fun i lr =>
              (lr.1,
               {| name := at_row "" names i;
                  brand := at_row "" brands i;
                  nutrients := map (fun os => (os.1, at_row NaN os.2 i)) nutrient_series;
                  serving_size := at_row "" sizes i;
                  servings := at_row NaN quantities i |}))
           (rows df)).

(** ** 5) Fix serving_size *)

Definition fix_serving_size (r : out_row) : out_row :=
  {| name := name r; brand := brand r; nutrients := nutrients r;
     serving_size := if negb (String.eqb (strip (serving_size r)) "")
                     then serving_size r else "100g?";
     servings := servings r |}.

(** ** 6) Remove quotes *)

Definition unquote (s : string) : string :=
  replace squote "" (replace dquote "" s).

(** The object columns of [out] are [name], [brand] and [serving_size]. *)
Definition remove_quotes (r : out_row) : out_row :=
  {| name := unquote (name r); brand := unquote (brand r);
     nutrients := nutrients r;
     serving_size := unquote (serving_size r);
     servings := servings r |}.

(** ** 7) Drop all-nutrient-zero rows *)

Definition nutrient_cols : list string :=
  [ "calories"; "total_carbs"; "fiber"; "sugar"; "added_sugar"; "total_fats";
    "omega_3"; "omega_6"; "saturated_fats"; "trans_fats"; "protein"; "vitamin_a";
    "vitamin_b6"; "vitamin_b12"; "vitamin_c"; "vitamin_d"; "vitamin_e"; "vitamin_k";
    "thiamin"; "riboflavin"; "niacin"; "folate"; "pantothenic_acid"; "biotin";
    "choline"; "calcium"; "chromium"; "copper"; "fluoride"; "iodine"; "iron";
    "magnesium"; "manganese"; "molybdenum"; "phosphorus"; "selenium"; "zinc";
    "potassium"; "sodium"; "chloride" ].

(** [(out[nutrient_cols] == 0).all(axis=1)], one row. *)
Definition all_zero (r : out_row) : bool :=
  forallb (fun c => f_is_zero (field c (nutrients r))) nutrient_cols.

Definition drop_all_zero (out : list (Z * out_row)) : list (Z * out_row) :=
  select (map (fun lr => negb (all_zero lr.2)) out) out.

(** ** The body of the loop *)

(** One iteration on the chunk [df]. [Ok] is the state after the
    iteration, whether it ran to the end or left through a [continue];
    [Raise] is an uncaught exception, which ends the script. *)
Definition process_chunk (st : state) (df : frame) : result state :=
  let* df1 := drop_empty_names df in
  if is_empty_list (rows df1) then Ok st else
  let* sd := deduplicate (seen_pairs st) df1 in
  let st2 := {| daCount := daCount st; daHeader := daHeader st;
                seen_pairs := sd.1; csv := csv st |} in
  let df2 := sd.2 in
  if is_empty_list (rows df2) then Ok st2 else
  let df3 := drop_low_completeness df2 in
  if is_empty_list (rows df3) then Ok st2 else
  let* out0 := build_out df3 in
  let out := drop_all_zero (map (fun lr => (lr.1, remove_quotes (fix_serving_size lr.2))) out0) in
  if is_empty_list out then Ok st2 else
  Ok {| daCount := daCount st + Z.of_nat (length out);
        daHeader := false;
        seen_pairs := sd.1;
        csv := to_csv out_columns (daHeader st) out (csv st) |}.

(** The [for] loop over the chunks [read_csv] yields. The script stops at
    the first exception; the state returned with it is the one before the
    failing chunk, whose output file is the file as the script leaves it. *)
Fixpoint run_from (st : state) (chunks : list frame) : state * option exn :=
  match chunks with
  | [] => (st, None)
  | df :: rest =>
      match process_chunk st df with
      | Ok st' => run_from st' rest
      | Raise e => (st, Some e)
      end
  end.

Definition run (chunks : list frame) : state * option exn := run_from init chunks.

(** The output file of a run. *)
Definition output (chunks : list frame) : list (line out_row) := csv (run chunks).1.

(** ** The loop body, row by row

    What the column-wise steps above do to one input row [raw] of a chunk
    with columns [cols]; the lemmas of section [StrictRun] relate the two. *)

Definition row_present (raw : gmap string cell) : bool :=
  name_present (row_cell raw "product_name").

Definition row_key (raw : gmap string cell) : string * string :=
  dedup_key (row_cell raw "product_name") (row_cell raw "brands").

Definition row_complete (df : frame) (raw : gmap string cell) : bool :=
  match completeness_col df with
  | Some c => complete_enough (row_cell raw c)
  | None => true
  end.

Definition nutrient_value (cols : list string) (raw : gmap string cell) (src : string) : fval :=
  if bool_decide (src ∈ cols) then clean_cell (row_cell raw src) else NaN.

Definition build_row (cols : list string) (raw : gmap string cell) : out_row :=
  {| name := py_str (row_cell raw "product_name");
     brand := text_or_empty (row_cell raw "brands");
     nutrients := map (fun oc => (oc.1, nutrient_value cols raw oc.2)) nutrient_map;
     serving_size := text_or_empty (row_cell raw "serving_size");
     servings := servings_of (to_numeric (row_cell raw "serving_quantity")) |}.

Definition final_row (cols : list string) (raw : gmap string cell) : out_row :=
  remove_quotes (fix_serving_size (build_row cols raw)).

(** The duplicate filter on rows: the rows kept and the keys seen. *)
Fixpoint dedup_rows (seen : gset (string * string)) (l : list (Z * gmap string cell))
  : gset (string * string) * list (Z * gmap string cell) :=
  match l with
  | [] => (seen, [])
  | x :: l' =>
      if bool_decide (row_key x.2 ∈ seen) then dedup_rows seen l'
      else let '(seen', kept) := dedup_rows ({[row_key x.2]} ∪ seen) l' in
           (seen', x :: kept)
  end.

(** The rows of a chunk that reach the output file. *)
Definition survivors (seen : gset (string * string)) (df : frame)
  : list (Z * gmap string cell) :=
  List.filter (fun lr => negb (all_zero (final_row (columns df) lr.2)))
    (List.filter (fun lr => row_complete df lr.2)
       (dedup_rows seen (List.filter (fun lr => row_present lr.2) (rows df))).2).

(** [x] is the first row of [l], among those with a name, that has its
    de-duplication key. *)
Definition first_of_key (l : list (Z * gmap string cell)) (x : Z * gmap string cell) : Prop :=
  exists l1 l2, l = l1 ++ x :: l2
    /\ row_present x.2 = true
    /\ forall y, y ∈ l1 -> row_present y.2 = true -> row_key y.2 <> row_key x.2.

(** Where a line of the output file comes from: a data line is the
    [final_row] of an input row that has a name, is the first with its key,
    passes the completeness filter and is not all zero. *)
Definition line_source (done : list frame) (l : line out_row) : Prop :=
  match l with
  | Header cols => cols = out_columns
  | Data i r =>
      exists df raw,
        df ∈ done /\ (i, raw) ∈ rows df
        /\ first_of_key (all_rows done) (i, raw)
        /\ r = final_row (columns df) raw
        /\ row_complete df raw = true
        /\ all_zero r = false
  end.

(** What holds between two iterations of the loop, [done] being the chunks
    processed so far. *)
Definition loop_inv (done : list frame) (st : state) : Prop :=
  (forall k, k ∈ seen_pairs st <->
             exists y, y ∈ all_rows done /\ row_present y.2 = true /\ row_key y.2 = k)
  /\ (forall l, l ∈ csv st -> line_source done l)
  /\ data_labels (csv st) `sublist_of` map fst (all_rows done)
  /\ ((daHeader st = true /\ csv st = [])
      \/ (daHeader st = false
          /\ exists body, csv st = Header out_columns :: body
                          /\ body <> []
                          /\ forall l, l ∈ body -> is_header l = false)).

End Strict.



(* ===================================================================== *)
(** * The simple variant: prepare_foods_csv_chunks.py *)
(* ===================================================================== *)

Module Simple.
Import Py.

Definition chunksize : Z := 10 ^ 4.

(** A row of [out]. The brand is the raw cell, or Python's [None] in every
    row when the input has no [brands] column. *)
Record out_row : Type := OutRow {
  name : cell;
  brand : option cell;
  nutrients : list (string * fval);
  serving_size : fval;
  servings : fval
}.

Record state : Type := State {
  daCount : Z;
  daHeader : bool;
  csv : list (line out_row)
}.

Definition init : state := {| daCount := 0; daHeader := true; csv := [] |}.

(** [.fillna("").replace(r"^\s*$", "Unknown Product", regex=True)], one
    cell: a text made of white space only (the pattern matches it whole) is
    replaced, any other cell is left as it is. *)
Definition name_of (c : cell) : cell :=
  match (if cell_isna c then CStr "" else c) with
  | CStr s => if all_space s then CStr "Unknown Product" else CStr s
  | other => other
  end.

(** [lambda x: 0.0 if (x > 999999 or x < 0) else x] *)
Definition zero_unless_in_range (x : fval) : fval :=
  if f_gt x 999999 || f_lt x 0 then Fin 0 else x.

(** [pd.to_numeric(col, errors="coerce").apply(lambda ...)], one cell: the
    handling of every nutrient column but [calories], and of
    [serving_size]. *)
Definition numeric_cell (c : cell) : fval :=
  zero_unless_in_range (to_numeric c).

(** [col.fillna(0).apply(lambda ...)], one cell of the [calories] column:
    no [to_numeric] here, and comparing a text with a number raises. *)
Definition calories_cell (c : cell) : result fval :=
  match c with
  | CFloat NaN => Ok (zero_unless_in_range (Fin 0))
  | CFloat x => Ok (zero_unless_in_range x)
  | CInt z => Ok (zero_unless_in_range (Fin (inject_Z z)))
  | CStr _ => Raise TypeError
  end.

(** [lambda x: 1.0 if (pd.isna(x) or x <= 0 or x > 99) else x] *)
Definition servings_of (x : fval) : fval :=
  if isna x || f_le x 0 || f_gt x 99 then Fin 1 else x.

(** A function that may raise, applied to the cells of a column in order. *)
Fixpoint apply_each {A B : Type} (f : A -> result B) (l : list A) : result (list B) :=
  match l with
  | [] => Ok []
  | x :: l' =>
      let* y := f x in
      let* ys := apply_each f l' in
      Ok (y :: ys)
  end.

(** The nutrient entries of the dict after [calories]. *)
Definition nutrient_map : list (string * string) :=
  [ ("total_carbs", "carbohydrates_100g");
    ("fiber", "fiber_100g");
    ("sugar", "sugars_100g");
    ("added_sugar", "added-sugars_100g");
    ("total_fats", "fat_100g");
    ("omega_3", "omega-3-fat_100g");
    ("omega_6", "omega-6-fat_100g");
    ("saturated_fats", "saturated-fat_100g");
    ("trans_fats", "trans-fat_100g");
    ("protein", "proteins_100g");
    ("vitamin_a", "vitamin-a_100g");
    ("vitamin_b6", "vitamin-b6_100g");
    ("vitamin_b12", "vitamin-b12_100g");
    ("vitamin_c", "vitamin-c_100g");
    ("vitamin_d", "vitamin-d_100g");
    ("vitamin_e", "vitamin-e_100g");
    ("vitamin_k", "vitamin-k_100g");
    ("thiamin", "vitamin-b1_100g");
    ("riboflavin", "vitamin-b2_100g");
    ("niacin", "vitamin-pp_100g");
    ("folate", "vitamin-b9_100g");
    ("pantothenic_acid", "pantothenic-acid_100g");
    ("biotin", "biotin_100g");
    ("choline", "choline_100g");
    ("calcium", "calcium_100g");
    ("chromium", "chromium_100g");
    ("copper", "copper_100g");
    ("fluoride", "fluoride_100g");
    ("iodine", "iodine_100g");
    ("iron", "iron_100g");
    ("magnesium", "magnesium_100g");
    ("manganese", "manganese_100g");
    ("molybdenum", "molybdenum_100g");
    ("phosphorus", "phosphorus_100g");
    ("selenium", "selenium_100g");
    ("zinc", "zinc_100g");
    ("potassium", "potassium_100g");
    ("sodium", "sodium_100g");
    ("chloride", "chloride_100g") ].

Definition out_columns : list string :=
  "name" :: "brand" :: "calories" :: map fst nutrient_map ++ ["serving_size"; "servings"].

(** [pd.to_numeric(df.get(c), errors="coerce").apply(f)]: without the
    column, [to_numeric(None)] is a bare float, which has no [apply]. *)
Definition numeric_column (f : fval -> fval) (c : string) (df : frame) : result (list fval) :=
  let* cells := method_of (df_get c df) in
  Ok (map (fun x => f (to_numeric x)) cells).

(** The DataFrame constructor on the dict, its entries evaluated in order. *)
Definition build_out (df : frame) : result (list (Z * out_row)) :=
  let* name_col := method_of (df_get "product_name" df) in
  let names := map name_of name_col in
  let brands := df_get "brands" df in
  let* calories_col := method_of (df_get "energy-kcal_100g" df) in
  let* calories := apply_each calories_cell calories_col in
  let* nutrient_series :=
    apply_each (fun oc => let* v := numeric_column zero_unless_in_range oc.2 df in
                          Ok (oc.1, v)) nutrient_map in
  let* sizes := numeric_column zero_unless_in_range "serving_size" df in
  let* quantities := numeric_column servings_of "serving_quantity" df in
  Ok (imap (fun i lr =>
              (lr.1,
               {| name := at_row missing names i;
                  brand := match brands with
                           | Some b => Some (at_row missing b i)
                           | None => None
                           end;
                  nutrients := ("calories", at_row NaN calories i)
                               :: map (fun os => (os.1, at_row NaN os.2 i)) nutrient_series;
                  serving_size := at_row NaN sizes i;
                  servings := at_row NaN quantities i |}))
           (rows df)).

(** The body of the loop: every row of the chunk is written. *)
Definition process_chunk (st : state) (df : frame) : result state :=
  let* out := build_out df in
  Ok {| daCount := daCount st + chunksize;
        daHeader := false;
        csv := to_csv out_columns (daHeader st) out (csv st) |}.

Fixpoint run_from (st : state) (chunks : list frame) : state * option exn :=
  match chunks with
  | [] => (st, None)
  | df :: rest =>
      match process_chunk st df with
      | Ok st' => run_from st' rest
      | Raise e => (st, Some e)
      end
  end.

Definition run (chunks : list frame) : state * option exn := run_from init chunks.

Definition output (chunks : list frame) : list (line out_row) := csv (run chunks).1.

(** ** The loop body, row by row *)

Definition build_row (cols : list string) (raw : gmap string cell) : out_row :=
  {| name := name_of (row_cell raw "product_name");
     brand := if bool_decide ("brands" ∈ cols) then Some (row_cell raw "brands") else None;
     nutrients :=
       ("calories", match calories_cell (row_cell raw "energy-kcal_100g") with
                    | Ok v => v
                    | Raise _ => NaN
                    end)
       :: map (fun oc => (oc.1, numeric_cell (row_cell raw oc.2))) nutrient_map;
     serving_size := numeric_cell (row_cell raw "serving_size");
     servings := servings_of (to_numeric (row_cell raw "serving_quantity")) |}.

(** The lines a chunk adds to the file, the header apart. *)
Definition chunk_lines (df : frame) : list (line out_row) :=
  map (fun lr => Data lr.1 (build_row (columns df) lr.2)) (rows df).

(** The file after the chunks [done]. *)
Definition file_of (done : list frame) : list (line out_row) :=
  match done with
  | [] => []
  | _ => Header out_columns :: concat (map chunk_lines done)
  end.

End Simple.



(* ===================================================================== *)
(** * The scripts on a whole input *)
(* ===================================================================== *)

Module Whole.
Import Py.

(** The frame has every column of [need]. *)
Definition has_columns (need : list string) (df : frame) : Prop :=
  forall c, c ∈ need -> c ∈ columns df.

(** The columns on which the strict script calls a method or iterates. *)
Definition strict_required : list string :=
  ["product_name"; "brands"; "serving_size"; "serving_quantity"].

(** The columns on which the simple script calls a method. *)
Definition simple_required : list string :=
  "product_name" :: "energy-kcal_100g"
  :: map snd Simple.nutrient_map ++ ["serving_size"; "serving_quantity"].

Definition is_text (c : cell) : bool :=
  match c with CStr _ => true | _ => false end.

(** No cell of the [energy-kcal_100g] column is a text. *)
Definition calories_numeric (df : frame) : Prop :=
  forall lr, lr ∈ rows df -> is_text (row_cell lr.2 "energy-kcal_100g") = false.

(** The file the strict script leaves when it has gone through the rows
    [all] of an input with columns [cols]. *)
Definition strict_file (cols : list string) (all : list (Z * gmap string cell))
  : list (line Strict.out_row) :=
  match Strict.survivors ∅ (Frame cols all) with
  | [] => []
  | kept => Header Strict.out_columns
            :: map (fun lr => Data lr.1 (Strict.final_row cols lr.2)) kept
  end.

(** The file the simple script leaves on the same. *)
Definition simple_file (cols : list string) (all : list (Z * gmap string cell))
  : list (line Simple.out_row) :=
  Header Simple.out_columns
  :: map (fun lr => Data lr.1 (Simple.build_row cols lr.2)) all.

(** The character occurs in the text. *)
Fixpoint has_char (c : ascii) (s : string) : bool :=
  match s with
  | EmptyString => false
  | String d r => Ascii.eqb d c || has_char c r
  end.

(** The text has a decimal digit somewhere. *)
Fixpoint has_digit (s : string) : bool :=
  match s with
  | EmptyString => false
  | String c r => is_digit c || has_digit r
  end.

(** A character of the ASCII range. On a text of such characters [strip],
    [lower], the blank test and the digit class of the embedding are the
    ones of Python, which on other characters follow Unicode. *)
Definition is_ascii (c : ascii) : bool := (nat_of_ascii c <? 128)%nat.

Fixpoint ascii_text (s : string) : bool :=
  match s with
  | EmptyString => true
  | String c r => is_ascii c && ascii_text r
  end.

(** A cell that is no text is a number or missing; its text is ASCII. *)
Definition ascii_cell (c : cell) : bool :=
  match c with CStr s => ascii_text s | _ => true end.

(** Every text cell of the rows is ASCII. *)
Definition ascii_rows (l : list (Z * gmap string cell)) : bool :=
  forallb (fun lr => forallb (fun kc => ascii_cell kc.2) (map_to_list lr.2)) l.

End Whole.

(* ===================================================================== *)
(** * Sample inputs *)
(* ===================================================================== *)

Module Examples.
Import Py.

(** The header of an export that has every column the scripts read. *)
Definition export_columns : list string :=
  "product_name" :: "brands" :: "completeness"
  :: map snd Strict.nutrient_map ++ ["serving_size"; "serving_quantity"].

Definition apple : gmap string cell :=
  {[ "product_name" := CStr "Apple"; "brands" := CStr "BrandX";
     "completeness" := CFloat (Fin 0.8);
     "energy-kcal_100g" := CFloat (Fin 52); "fiber_100g" := CStr "2,5 g";
     "serving_size" := CStr "1 'cup'"; "serving_quantity" := CStr "150" ]}.

(** The same product, written differently. *)
Definition apple_again : gmap string cell :=
  {[ "product_name" := CStr " apple"; "brands" := CStr "brandx ";
     "completeness" := CFloat (Fin 0.9);
     "energy-kcal_100g" := CFloat (Fin 52); "serving_quantity" := CInt 2 ]}.

(** The same product once more, with no nutrient filled in. *)
Definition apple_empty : gmap string cell :=
  {[ "product_name" := CStr "Apple"; "brands" := CStr "BrandX";
     "completeness" := CFloat (Fin 0.8);
     "energy-kcal_100g" := CFloat (Fin 0) ]}.

Definition nameless : gmap string cell :=
  {[ "product_name" := CStr "  "; "brands" := CStr "BrandY";
     "completeness" := CFloat (Fin 0.8);
     "energy-kcal_100g" := CFloat (Fin 10) ]}.

Definition water : gmap string cell :=
  {[ "product_name" := CStr "Water"; "completeness" := CFloat (Fin 1);
     "energy-kcal_100g" := CFloat (Fin 0); "sodium_100g" := CStr "0 mg" ]}.

(** A product with a vitamin content given in grams per 100 g. *)
Definition liver : gmap string cell :=
  {[ "product_name" := CStr "Liver"; "brands" := CStr "BrandZ";
     "completeness" := CFloat (Fin 0.7);
     "energy-kcal_100g" := CFloat (Fin 135);
     "vitamin-b12_100g" := CFloat (Fin 0.00001);
     "serving_size" := CStr "100 g"; "serving_quantity" := CFloat (Fin 100) ]}.

Definition menu : list frame :=
  [ Frame export_columns [(0%Z, apple); (1%Z, apple_again); (2%Z, nameless)];
    Frame export_columns [(3%Z, water); (4%Z, liver)] ].

(** A product seen first without nutrients, then with them. *)
Definition twice : list frame :=
  [ Frame export_columns [(0%Z, apple_empty)];
    Frame export_columns [(1%Z, apple_again)] ].

(** Nothing in the input has a name. *)
Definition anonymous : list frame :=
  [ Frame export_columns [(0%Z, nameless)] ].

(** An export without the [fiber_100g] column, and one without [brands]. *)
Definition no_fiber : list frame :=
  [ Frame (List.filter (fun c => negb (String.eqb c "fiber_100g")) export_columns)
          [(0%Z, apple)] ].

Definition no_brands : list frame :=
  [ Frame (List.filter (fun c => negb (String.eqb c "brands")) export_columns)
          [(0%Z, apple)] ].

(** A product whose every nutrient cell is the number zero. *)
Definition nothing : gmap string cell :=
  list_to_map (("product_name", CStr "Nothing") :: ("brands", CStr "BrandN")
               :: ("completeness", CFloat (Fin 1))
               :: map (fun oc => (oc.2, CFloat (Fin 0))) Strict.nutrient_map).

Definition empty_plate : list frame :=
  [ Frame export_columns [(0%Z, nothing)] ].

End Examples.

(* ===================================================================== *)
(** * More sample inputs *)
(* ===================================================================== *)

Module Samples.
Import Py.

(** An export without the [product_name] column. *)
Definition no_names : list frame :=
  [ Frame (List.filter (fun c => negb (String.eqb c "product_name")) Examples.export_columns)
          [(0%Z, Examples.apple)] ].

(** An export that has only the columns the strict script cannot do
    without. *)
Definition bare : list frame :=
  [ Frame Whole.strict_required [(0%Z, Examples.apple); (1%Z, Examples.nameless)] ].

(** A product whose every nutrient cell is the number zero, in an export
    without the [fiber_100g] column. *)
Definition no_fiber_columns : list string :=
  List.filter (fun c => negb (String.eqb c "fiber_100g")) Examples.export_columns.

Definition plate_no_fiber : list frame :=
  [ Frame no_fiber_columns [(0%Z, Examples.nothing)] ].

End Samples.

(* ===================================================================== *)
(** * Tactics for the sample inputs *)
(* ===================================================================== *)

(** Membership of a line in a file that evaluates to a literal list. *)
Ltac in_file :=
  apply list_elem_of_In; vm_compute;
  repeat (first [left; reflexivity | right]).

(** Membership of a row or a chunk in a sample input, the list being
    unfolded one element at a time. *)
Ltac in_rows :=
  match goal with
  | |- ?x ∈ ?l =>
      let l' := eval hnf in l in
      change (x ∈ l');
      first [apply list_elem_of_here | apply list_elem_of_further; in_rows]
  end.

(** The cases of a membership in a literal list. *)
Ltac cases_in H :=
  repeat (apply elem_of_cons in H as [-> | H]);
  try (apply elem_of_nil in H; destruct H).
(* ===================================================================== *)
(** * Numeric normalization *)
(* ===================================================================== *)

Section Numeric.
Import Py.

Lemma Qle_bool_false (a b : Q) : Qle_bool a b = false -> (b < a)%Q.
Proof.
  intros H. apply Qnot_le_lt. intros Hle.
  apply Qle_bool_iff in Hle. congruence.
Qed.

(** [clip] after [fillna] always lands between the bounds. *)
Lemma clip_fillna_in_range (lo hi v : Q) (x : fval) :
  (lo <= v)%Q -> (v <= hi)%Q ->
  in_range lo hi (clip lo hi (fillna v x)).
Proof.
  intros Hlo Hhi.
  assert (Hlh : (lo <= hi)%Q) by (eapply Qle_trans; eassumption).
  destruct x as [ | [|] | q]; simpl.
  - destruct (Qle_bool lo v) eqn:E1; simpl.
    + destruct (Qle_bool v hi) eqn:E2; simpl.
      * split; assumption.
      * split; [assumption | apply Qle_refl].
    + split; [apply Qle_refl | assumption].
  - split; [apply Qle_refl | assumption].
  - split; [assumption | apply Qle_refl].
  - destruct (Qle_bool lo q) eqn:E1; simpl.
    + destruct (Qle_bool q hi) eqn:E2; simpl.
      * split; apply Qle_bool_iff; assumption.
      * split; [assumption | apply Qle_refl].
    + split; [apply Qle_refl | assumption].
Qed.

Lemma clean_cell_in_range (c : cell) : in_range 0 999999 (Strict.clean_cell c).
Proof.
  unfold Strict.clean_cell. apply clip_fillna_in_range; discriminate.
Qed.

Lemma clean_cell_no_numeral (c : cell) :
  Strict.extract_numeral c = None -> Strict.clean_cell c = Fin 0.
Proof.
  intros H. unfold Strict.clean_cell. rewrite H. reflexivity.
Qed.

(** The simple variant's lambda lets [NaN] through and nothing else out of
    range. *)
Lemma zero_unless_in_range_cases (x : fval) :
  (x = NaN /\ Simple.zero_unless_in_range x = NaN)
  \/ in_range 0 999999 (Simple.zero_unless_in_range x).
Proof.
  unfold Simple.zero_unless_in_range.
  destruct x as [ | [|] | q]; simpl.
  - left. split; reflexivity.
  - right. split; discriminate.
  - right. split; discriminate.
  - right. destruct (Qle_bool q 999999) eqn:E1; simpl.
    + destruct (Qle_bool 0 q) eqn:E2; simpl.
      * split; apply Qle_bool_iff; assumption.
      * split; discriminate.
    + split; discriminate.
Qed.

Lemma zero_unless_in_range_nan (x : fval) :
  Simple.zero_unless_in_range x = NaN <-> x = NaN.
Proof.
  split.
  - intros H. destruct (zero_unless_in_range_cases x) as [[Hx _] | Hr]; [assumption|].
    rewrite H in Hr. destruct Hr.
  - intros ->. reflexivity.
Qed.

(** The [servings] lambda, which both scripts have: a value in (0, 99] is
    kept, anything else becomes 1.0. *)
Lemma servings_of_cases (x : fval) :
  in_range_oc 0 99 (Strict.servings_of x)
  /\ (in_range_oc 0 99 x -> Strict.servings_of x = x)
  /\ (~ in_range_oc 0 99 x -> Strict.servings_of x = Fin 1).
Proof.
  assert (H1 : in_range_oc 0 99 (Fin 1)) by (split; [reflexivity | discriminate]).
  unfold Strict.servings_of.
  destruct x as [ | neg | q]; simpl.
  - split; [exact H1|]. split; [intros []|reflexivity].
  - destruct neg; simpl; (split; [exact H1|]); (split; [intros []|reflexivity]).
  - destruct (Qle_bool q 0) eqn:E0; simpl.
    + split; [exact H1|]. split; [|reflexivity].
      intros [Hlt _]. apply Qle_bool_iff in E0.
      destruct (Qlt_not_le _ _ Hlt E0).
    + destruct (Qle_bool q 99) eqn:E1; simpl.
      * apply Qle_bool_false in E0. apply Qle_bool_iff in E1.
        split; [split; assumption|]. split; [reflexivity|].
        intros Hn. destruct Hn. split; assumption.
      * split; [exact H1|]. split; [|reflexivity].
        intros [_ Hle]. apply Qle_bool_iff in Hle. congruence.
Qed.

Lemma servings_of_same (x : fval) : Simple.servings_of x = Strict.servings_of x.
Proof. reflexivity. Qed.

End Numeric.

(* ===================================================================== *)
(** * Plain decimal numerals in a text cell *)
(* ===================================================================== *)

Section Numerals.
Import Py.

Lemma digit_char (c : ascii) :
  is_digit c = true ->
  is_space c = false /\ Ascii.eqb c "," = false /\ Ascii.eqb c "." = false
  /\ Ascii.eqb c "-" = false /\ Ascii.eqb c "+" = false.
Proof.
  destruct c as [[] [] [] [] [] [] [] []]; vm_compute; intros H;
    first [discriminate H | repeat split].
Qed.

Lemma split_sign_none (c : ascii) (r : string) :
  Ascii.eqb c "-" = false -> Ascii.eqb c "+" = false ->
  split_sign (String c r) = (false, String c r).
Proof.
  destruct c as [[] [] [] [] [] [] [] []]; vm_compute; intros H1 H2;
    first [discriminate H1 | discriminate H2 | reflexivity].
Qed.

Lemma append_cons (c : ascii) (s t : string) : String c s +:+ t = String c (s +:+ t).
Proof. reflexivity. Qed.

Lemma append_empty_l (t : string) : "" +:+ t = t.
Proof. reflexivity. Qed.

Lemma append_empty_r (s : string) : s +:+ "" = s.
Proof.
  induction s as [|c s IH]; [reflexivity|].
  change (String c (s +:+ "") = String c s). f_equal. exact IH.
Qed.

Lemma append_assoc (a b c : string) : (a +:+ b) +:+ c = a +:+ (b +:+ c).
Proof.
  induction a as [|x a IH]; [reflexivity|].
  change (String x ((a +:+ b) +:+ c) = String x (a +:+ (b +:+ c))). f_equal. exact IH.
Qed.

Lemma length_append (a b : string) :
  String.length (a +:+ b) = (String.length a + String.length b)%nat.
Proof.
  induction a as [|x a IH]; [reflexivity|].
  change (S (String.length (a +:+ b)) = S (String.length a + String.length b)).
  f_equal. exact IH.
Qed.

Lemma take_append (a b : string) : take (String.length a) (a +:+ b) = a.
Proof.
  induction a as [|x a IH]; [destruct b; reflexivity|].
  change (String x (take (String.length a) (a +:+ b)) = String x a). f_equal. exact IH.
Qed.

Lemma take_all (a : string) : take (String.length a - 0) a = a.
Proof.
  rewrite Nat.sub_0_r. induction a as [|x a IH]; simpl; [|rewrite IH]; reflexivity.
Qed.

Lemma span_digits_app (ds t : string) :
  all_digits ds = true -> no_digit_head t = true -> span_digits (ds +:+ t) = (ds, t).
Proof.
  intros Hd Ht. induction ds as [|c ds IH];
    rewrite ?append_cons, ?append_empty_l; simpl in *.
  - destruct t as [|c t]; [reflexivity|]. simpl in Ht.
    apply negb_true_iff in Ht. simpl. rewrite Ht. reflexivity.
  - apply andb_true_iff in Hd as [Hc Hd]. rewrite Hc, (IH Hd). reflexivity.
Qed.

Lemma span_digits_spec (s ds t : string) :
  span_digits s = (ds, t) ->
  s = ds +:+ t /\ all_digits ds = true /\ no_digit_head t = true.
Proof.
  revert ds t. induction s as [|c s IH]; intros ds t; simpl.
  - intros [= <- <-]. auto.
  - destruct (is_digit c) eqn:Ec.
    + destruct (span_digits s) as [d u]. intros [= <- <-].
      destruct (IH d u eq_refl) as (-> & Hd & Hu).
      rewrite append_cons. simpl. rewrite Ec, Hd. auto.
    + intros [= <- <-]. rewrite append_empty_l. simpl. rewrite Ec. auto.
Qed.

Lemma replace_digits (ds : string) :
  all_digits ds = true -> replace "," "." ds = ds.
Proof.
  induction ds as [|c ds IH]; simpl; [reflexivity|].
  intros H. apply andb_true_iff in H as [Hc Hd].
  destruct (digit_char c Hc) as (_ & -> & _). rewrite (IH Hd). reflexivity.
Qed.

Lemma replace_append (a b : string) :
  replace "," "." (a +:+ b) = replace "," "." a +:+ replace "," "." b.
Proof.
  induction a as [|c a IH]; [reflexivity|].
  rewrite append_cons. simpl. rewrite IH.
  destruct (Ascii.eqb c ","); reflexivity.
Qed.

(** ** The pattern on a plain numeral *)

Lemma star_digits (k : string -> option string) (ds t : string) (n : nat) :
  all_digits ds = true -> no_digit_head t = true ->
  (String.length (ds +:+ t) <= n)%nat ->
  star_loop (rx (Cls is_digit)) k n (ds +:+ t) = backtrack k ds t.
Proof.
  intros Hd Ht. revert n. induction ds as [|c ds IH]; intros n Hn;
    rewrite ?append_cons, ?append_empty_l in *; simpl in *.
  - destruct n as [|n]; simpl; [reflexivity|].
    destruct t as [|c t]; [reflexivity|]. simpl in Ht.
    apply negb_true_iff in Ht. rewrite Ht. reflexivity.
  - apply andb_true_iff in Hd as [Hc Hd].
    destruct n as [|n]; [lia|]. simpl. rewrite Hc.
    assert (Hlt : (String.length (ds +:+ t) <? S (String.length (ds +:+ t)))%nat = true)
      by (apply Nat.ltb_lt; lia).
    rewrite Hlt, (IH Hd n) by lia. reflexivity.
Qed.

Lemma backtrack_inner (k : string -> option string) (ds t e : string) :
  k t = Some e -> backtrack k ds t = Some e.
Proof.
  intros H. induction ds as [|c ds IH]; simpl; [exact H | rewrite IH; reflexivity].
Qed.

Lemma rx_cat (a b : regex) (s : string) (k : string -> option string) :
  rx (Cat a b) s k = rx a s (fun t => rx b t k).
Proof. reflexivity. Qed.

Lemma rx_opt (a : regex) (s : string) (k : string -> option string) :
  rx (Opt a) s k = match rx a s k with Some e => Some e | None => k s end.
Proof. reflexivity. Qed.

Lemma rx_cls (p : ascii -> bool) (c : ascii) (t : string) (k : string -> option string) :
  rx (Cls p) (String c t) k = if p c then k t else None.
Proof. reflexivity. Qed.

Lemma rx_cls_empty (p : ascii -> bool) (k : string -> option string) :
  rx (Cls p) "" k = None.
Proof. reflexivity. Qed.

Lemma rx_star (a : regex) (s : string) (k : string -> option string) :
  rx (Star a) s k = star_loop (rx a) k (String.length s) s.
Proof. reflexivity. Qed.

Lemma rx_numeral_re (ip t : string) (c : ascii) (r : string) :
  ip +:+ t = String c r ->
  Ascii.eqb c "-" = false -> Ascii.eqb c "+" = false ->
  all_digits ip = true -> no_digit_head t = true ->
  rx Strict.numeral_re (ip +:+ t) Some = backtrack Strict.after_digits ip t.
Proof.
  intros Hs Hm Hp Hd Ht.
  unfold Strict.numeral_re. rewrite rx_cat, rx_opt.
  match goal with
  | |- match rx ?a _ ?k with _ => _ end = _ =>
      assert (Hsign : rx a (ip +:+ t) k = None)
        by (rewrite Hs, rx_cls, Hm, Hp; reflexivity);
      rewrite Hsign
  end.
  rewrite rx_cat, rx_star. apply star_digits; auto.
Qed.

Lemma plus_digits_all (fp : string) :
  all_digits fp = true -> fp <> "" -> rx (Plus (Cls is_digit)) fp Some = Some "".
Proof.
  intros Hd Hne. destruct fp as [|c fp]; [congruence|]. simpl in Hd.
  apply andb_true_iff in Hd as [Hc Hd].
  unfold Plus. rewrite rx_cat, rx_cls, Hc, rx_star.
  rewrite <- (append_empty_r fp).
  rewrite star_digits by (rewrite ?append_empty_r; auto).
  apply backtrack_inner. reflexivity.
Qed.

Lemma after_digits_cons (c : ascii) (t : string) :
  Ascii.eqb c "." = false ->
  Strict.after_digits (String c t) = rx (Plus (Cls is_digit)) (String c t) Some.
Proof.
  intros Hc. unfold Strict.after_digits. rewrite rx_opt, rx_cls, Hc. reflexivity.
Qed.

(** Digits only: the match is the whole text. *)
Lemma backtrack_integer (ip : string) :
  all_digits ip = true -> ip <> "" -> backtrack Strict.after_digits ip "" = Some "".
Proof.
  induction ip as [|c ip IH]; [congruence|]. intros Hd _. simpl in Hd.
  apply andb_true_iff in Hd as [Hc Hd]. cbn [backtrack].
  destruct ip as [|c' ip].
  - cbn [backtrack]. rewrite append_empty_l.
    destruct (digit_char c Hc) as (_ & _ & Hdot & _).
    rewrite (after_digits_cons c "" Hdot).
    replace (Strict.after_digits "") with (@None string) by reflexivity.
    unfold Plus. rewrite rx_cat, rx_cls, Hc. reflexivity.
  - rewrite IH by (auto; discriminate). reflexivity.
Qed.

(** Digits, a point, digits: the match is the whole text. *)
Lemma backtrack_fraction (ip fp : string) :
  all_digits fp = true -> fp <> "" ->
  backtrack Strict.after_digits ip (String "." fp) = Some "".
Proof.
  intros Hd Hne. apply backtrack_inner.
  unfold Strict.after_digits. rewrite rx_opt, rx_cls.
  replace (Ascii.eqb "." ".") with true by reflexivity.
  rewrite (plus_digits_all fp Hd Hne). reflexivity.
Qed.

(** Digits and a point with nothing after it: the match stops before the
    point. *)
Lemma backtrack_trailing_point (ip : string) :
  all_digits ip = true -> ip <> "" -> backtrack Strict.after_digits ip "." = Some ".".
Proof.
  induction ip as [|c ip IH]; [congruence|]. intros Hd _. simpl in Hd.
  apply andb_true_iff in Hd as [Hc Hd]. cbn [backtrack].
  destruct ip as [|c' ip].
  - cbn [backtrack]. rewrite append_empty_l.
    destruct (digit_char c Hc) as (_ & _ & Hdot & _).
    rewrite (after_digits_cons c "." Hdot).
    replace (Strict.after_digits ".") with (@None string) by reflexivity.
    unfold Plus. rewrite rx_cat, rx_cls, Hc. reflexivity.
  - rewrite IH by (auto; discriminate). reflexivity.
Qed.

Lemma search_head (r : regex) (s rest : string) :
  rx r s Some = Some rest ->
  search r s = Some (take (String.length s - String.length rest) s).
Proof. intros H. destruct s; simpl; rewrite H; reflexivity. Qed.

(** ** The value of a plain numeral *)

Local Arguments is_space : simpl never.
Local Arguments is_digit : simpl never.

Lemma lstrip_nospace (c : ascii) (r : string) :
  is_space c = false -> lstrip (String c r) = String c r.
Proof. intros H. simpl. rewrite H. reflexivity. Qed.

Lemma span_digits_all (ds : string) :
  all_digits ds = true -> span_digits ds = (ds, "").
Proof.
  intros Hd. pose proof (span_digits_app ds "" Hd eq_refl) as H.
  rewrite append_empty_r in H. exact H.
Qed.

Lemma to_double_integer (ip : string) :
  all_digits ip = true -> ip <> "" ->
  to_double ip = Some (scale10 (digits_val 0 ip) 0).
Proof.
  intros Hd Hne. destruct ip as [|c ip]; [congruence|].
  pose proof Hd as Hd'. simpl in Hd'. apply andb_true_iff in Hd' as [Hc _].
  destruct (digit_char c Hc) as (Hsp & _ & _ & Hm & Hp).
  unfold to_double.
  rewrite (lstrip_nospace c ip Hsp), (split_sign_none c ip Hm Hp).
  rewrite (span_digits_all _ Hd). cbn [split_fraction].
  rewrite append_empty_r. reflexivity.
Qed.

Lemma to_double_fraction (ip fp : string) :
  all_digits ip = true -> all_digits fp = true -> ip +:+ fp <> "" ->
  to_double (ip +:+ String "." fp)
  = Some (scale10 (digits_val 0 (ip +:+ fp)) (0 - Z.of_nat (String.length fp))).
Proof.
  intros Hi Hf Hne.
  assert (Hhead : exists c r, ip +:+ String "." fp = String c r
                    /\ is_space c = false
                    /\ Ascii.eqb c "-" = false /\ Ascii.eqb c "+" = false).
  { destruct ip as [|c ip].
    - exists "."%char, fp. repeat split; reflexivity.
    - simpl in Hi. apply andb_true_iff in Hi as [Hc _].
      destruct (digit_char c Hc) as (Hsp & _ & _ & Hm & Hp).
      exists c, (ip +:+ String "." fp). auto. }
  destruct Hhead as (c & r & Hs & Hsp & Hm & Hp).
  unfold to_double.
  rewrite Hs, (lstrip_nospace c r Hsp), (split_sign_none c r Hm Hp), <- Hs.
  rewrite (span_digits_app ip (String "." fp) Hi eq_refl).
  cbn [split_fraction]. replace (Ascii.eqb "." ".") with true by reflexivity.
  rewrite (span_digits_all fp Hf).
  destruct (ip +:+ fp) as [|d ds] eqn:E; [congruence|]. reflexivity.
Qed.

Lemma plain_numeral_inv (s : string) :
  plain_numeral s = true ->
  exists ip fp, all_digits ip = true /\ all_digits fp = true
    /\ ((s = ip /\ ip <> "") \/ (s = ip +:+ String "." fp /\ ip +:+ fp <> "")).
Proof.
  unfold plain_numeral. destruct (span_digits s) as [ip r] eqn:E.
  apply span_digits_spec in E as (-> & Hip & Hr).
  destruct r as [|c r].
  - intros H. apply negb_true_iff in H. exists ip, "".
    split; [assumption|]. split; [reflexivity|]. left.
    rewrite append_empty_r. split; [reflexivity|].
    intros ->. discriminate.
  - destruct (span_digits r) as [fp r''] eqn:E2.
    apply span_digits_spec in E2 as (-> & Hfp & _).
    intros H. apply andb_true_iff in H as [H Hne]. apply andb_true_iff in H as [Hc Hr''].
    apply Ascii.eqb_eq in Hc. apply String.eqb_eq in Hr''. subst c r''.
    apply negb_true_iff in Hne. rewrite append_empty_r.
    exists ip, fp. split; [assumption|]. split; [assumption|]. right.
    split; [reflexivity|]. intros Heq. rewrite Heq in Hne. discriminate.
Qed.

(** A value in the range goes through both normalizers unchanged. *)
Lemma in_range_kept (x : fval) :
  in_range 0 999999 x ->
  clip 0 999999 (fillna 0 x) = x /\ Simple.zero_unless_in_range x = x.
Proof.
  destruct x as [ | neg | q]; simpl; [intros [] | intros [] |].
  intros [Hlo Hhi]. apply Qle_bool_iff in Hlo, Hhi.
  unfold Simple.zero_unless_in_range. simpl. rewrite Hlo, Hhi. auto.
Qed.

(** On a text cell that is a plain decimal numeral with a value in
    [0, 999999], [clean_numeric] and the simple variant's handling give the
    same value. *)
Lemma text_numeral_agree (s : string) :
  plain_numeral s = true -> in_range 0 999999 (str_to_numeric s) ->
  Strict.clean_cell (CStr s) = Simple.numeric_cell (CStr s).
Proof.
  intros Hplain Hrange.
  destruct (plain_numeral_inv s Hplain) as (ip & fp & Hi & Hf & [[-> Hne] | [-> Hne]]).
  - (* digits only *)
    assert (Hm : Strict.extract_numeral (CStr ip) = Some ip).
    { unfold Strict.extract_numeral, Strict.numeric_text. cbn [py_str].
      rewrite (replace_digits ip Hi).
      destruct ip as [|c r] eqn:Eip; [congruence|]. rewrite <- Eip in *.
      assert (Hc : is_digit c = true)
        by (rewrite Eip in Hi; simpl in Hi; apply andb_true_iff in Hi; tauto).
      destruct (digit_char c Hc) as (_ & _ & _ & Hmi & Hpl).
      pose proof (rx_numeral_re ip "" c r) as Hrx. rewrite append_empty_r in Hrx.
      specialize (Hrx Eip Hmi Hpl Hi eq_refl).
      rewrite (backtrack_integer ip Hi Hne) in Hrx.
      rewrite (search_head _ _ _ Hrx). cbn [String.length]. rewrite take_all. reflexivity. }
    unfold Strict.clean_cell, Simple.numeric_cell. rewrite Hm. cbn [to_numeric].
    destruct (in_range_kept _ Hrange) as [-> ->]. reflexivity.
  - destruct fp as [|d fp'] eqn:Efp.
    + (* digits and a point *)
      rewrite append_empty_r in Hne.
      assert (Hm : Strict.extract_numeral (CStr (ip +:+ ".")) = Some ip).
      { unfold Strict.extract_numeral, Strict.numeric_text. cbn [py_str].
        rewrite replace_append, (replace_digits ip Hi).
        replace (replace "," "." ".") with "." by reflexivity.
        destruct ip as [|c r] eqn:Eip; [congruence|]. rewrite <- Eip in *.
        assert (Hc : is_digit c = true)
          by (rewrite Eip in Hi; simpl in Hi; apply andb_true_iff in Hi; tauto).
        destruct (digit_char c Hc) as (_ & _ & _ & Hmi & Hpl).
        assert (Hs : ip +:+ "." = String c (r +:+ ".")) by (rewrite Eip; reflexivity).
        pose proof (rx_numeral_re ip "." c _ Hs Hmi Hpl Hi eq_refl) as Hrx.
        rewrite (backtrack_trailing_point ip Hi Hne) in Hrx.
        rewrite (search_head _ _ _ Hrx), length_append. cbn [String.length].
        replace (String.length ip + 1 - 1)%nat with (String.length ip) by lia.
        rewrite take_append. reflexivity. }
      assert (Hv : str_to_numeric (ip +:+ ".") = str_to_numeric ip).
      { unfold str_to_numeric.
        rewrite (to_double_fraction ip "" Hi eq_refl)
          by (rewrite append_empty_r; exact Hne).
        rewrite (to_double_integer ip Hi Hne), append_empty_r. reflexivity. }
      unfold Strict.clean_cell, Simple.numeric_cell. rewrite Hm. cbn [to_numeric].
      rewrite <- Hv. destruct (in_range_kept _ Hrange) as [-> ->]. reflexivity.
    + (* digits, a point, digits *)
      rewrite <- Efp in *.
      assert (Hfne : fp <> "") by (rewrite Efp; discriminate).
      assert (Hm : Strict.extract_numeral (CStr (ip +:+ String "." fp))
                   = Some (ip +:+ String "." fp)).
      { unfold Strict.extract_numeral, Strict.numeric_text. cbn [py_str].
        rewrite replace_append, (replace_digits ip Hi).
        replace (replace "," "." (String "." fp)) with (String "." (replace "," "." fp))
          by reflexivity.
        rewrite (replace_digits fp Hf).
        assert (Hhead : exists c r, ip +:+ String "." fp = String c r
                          /\ Ascii.eqb c "-" = false /\ Ascii.eqb c "+" = false).
        { destruct ip as [|c ip'].
          - exists "."%char, fp. repeat split; reflexivity.
          - simpl in Hi. apply andb_true_iff in Hi as [Hc _].
            destruct (digit_char c Hc) as (_ & _ & _ & Hmi & Hpl).
            exists c, (ip' +:+ String "." fp). auto. }
        destruct Hhead as (c & r & Hs & Hmi & Hpl).
        pose proof (rx_numeral_re ip (String "." fp) c r Hs Hmi Hpl Hi eq_refl) as Hrx.
        rewrite (backtrack_fraction ip fp Hf Hfne) in Hrx.
        rewrite (search_head _ _ _ Hrx). cbn [String.length]. rewrite take_all.
        reflexivity. }
      unfold Strict.clean_cell, Simple.numeric_cell. rewrite Hm. cbn [to_numeric].
      destruct (in_range_kept _ Hrange) as [-> ->]. reflexivity.
Qed.

End Numerals.

(* ===================================================================== *)
(** * Masks, columns and rows *)
(* ===================================================================== *)

Section Frames.
Import Py.

Lemma select_map {A : Type} (f : A -> bool) (l : list A) :
  select (map f l) l = List.filter f l.
Proof.
  induction l as [|x l IH]; simpl; [reflexivity|].
  rewrite IH. reflexivity.
Qed.

Lemma select_map_col {A B : Type} (g : A -> B) (f : B -> bool) (l : list A) :
  select (map f (map g l)) l = List.filter (fun x => f (g x)) l.
Proof.
  rewrite map_map. apply (select_map (fun x => f (g x))).
Qed.

Lemma elem_of_bfilter {A : Type} (f : A -> bool) (l : list A) (x : A) :
  x ∈ List.filter f l <-> x ∈ l /\ f x = true.
Proof.
  rewrite !list_elem_of_In. apply filter_In.
Qed.

Lemma bfilter_sublist {A : Type} (f : A -> bool) (l : list A) :
  List.filter f l `sublist_of` l.
Proof.
  induction l as [|x l IH]; simpl; [constructor|].
  destruct (f x); [apply sublist_skip | apply sublist_cons]; assumption.
Qed.

Lemma bfilter_nil_iff {A : Type} (f : A -> bool) (l : list A) :
  List.filter f l = [] <-> forall x, x ∈ l -> f x = false.
Proof.
  induction l as [|x l IH]; simpl.
  - split; [intros _ y Hy; inversion Hy | reflexivity].
  - destruct (f x) eqn:E; split.
    + discriminate.
    + intros H. specialize (H x (list_elem_of_here _ _)). congruence.
    + intros H y Hy. apply elem_of_cons in Hy as [-> | Hy]; [assumption|].
      apply IH; assumption.
    + intros H. apply IH. intros y Hy. apply H. apply list_elem_of_further, Hy.
Qed.

Lemma is_empty_true {A : Type} (l : list A) : is_empty_list l = true <-> l = [].
Proof. destruct l; simpl; split; congruence. Qed.

Lemma at_row_map {A B : Type} (g : A -> B) (d : B) (l : list A) (i : nat) (x : A) :
  l !! i = Some x -> at_row d (map g l) i = g x.
Proof.
  unfold at_row. revert i. induction l as [|y l IH]; intros [|i] H; simpl in *;
    try discriminate.
  - congruence.
  - apply IH, H.
Qed.

Lemma at_row_nil {A : Type} (d : A) (i : nat) : at_row d [] i = d.
Proof. unfold at_row. destruct i; reflexivity. Qed.

Lemma imap_rowwise {A B : Type} (F : nat -> A -> B) (G : A -> B) (l : list A) :
  (forall i x, l !! i = Some x -> F i x = G x) -> imap F l = map G l.
Proof.
  revert F. induction l as [|y l IH]; intros F H; simpl; [reflexivity|].
  rewrite (H 0%nat y eq_refl). f_equal.
  apply IH. intros i x Hi. apply (H (S i) x Hi).
Qed.

Lemma df_get_some (c : string) (df : frame) (col : list cell) :
  df_get c df = Some col -> c ∈ columns df /\ col = df_col c df.
Proof.
  unfold df_get. case_bool_decide as Hc; intros Hg; inversion Hg; subst; auto.
Qed.

Lemma data_labels_app {R : Type} (f1 f2 : list (line R)) :
  data_labels (f1 ++ f2) = data_labels f1 ++ data_labels f2.
Proof. apply omap_app. Qed.

Lemma data_labels_rows {R : Type} (out : list (Z * R)) :
  data_labels (map (fun lr => Data lr.1 lr.2) out) = map fst out.
Proof.
  induction out as [|[i r] out IH]; simpl; [reflexivity|].
  unfold data_labels in *. simpl. rewrite IH. reflexivity.
Qed.

Lemma elem_of_all_rows (chunks : list frame) (x : Z * gmap string cell) :
  x ∈ all_rows chunks <-> exists df, df ∈ chunks /\ x ∈ rows df.
Proof.
  unfold all_rows. induction chunks as [|d chunks IH]; simpl.
  - split; [intros H; inversion H | intros (df & H & _); inversion H].
  - rewrite elem_of_app, IH. split.
    + intros [H | (df & Hdf & Hx)].
      * exists d. split; [apply list_elem_of_here | assumption].
      * exists df. split; [apply list_elem_of_further, Hdf | assumption].
    + intros (df & Hdf & Hx). apply elem_of_cons in Hdf as [-> | Hdf]; eauto.
Qed.

Lemma all_rows_app (c1 c2 : list frame) :
  all_rows (c1 ++ c2) = all_rows c1 ++ all_rows c2.
Proof. unfold all_rows. rewrite map_app, concat_app. reflexivity. Qed.

(** ** Blank texts *)

Lemma lstrip_head (s : string) :
  lstrip s = "" \/ exists c r, lstrip s = String c r /\ is_space c = false.
Proof.
  induction s as [|c s IH]; simpl; [left; reflexivity|].
  destruct (is_space c) eqn:E; [exact IH|]. right. eauto.
Qed.

Lemma rstrip_nonspace (c : ascii) (r : string) :
  is_space c = false -> rstrip (String c r) <> "".
Proof.
  intros E. simpl. destruct (rstrip r); [rewrite E|]; discriminate.
Qed.

Lemma strip_blank (s : string) : strip s = "" <-> all_space s = true.
Proof.
  unfold strip, all_space.
  destruct (lstrip_head s) as [H | (c & r & H & Hc)]; rewrite H.
  - simpl. split; reflexivity.
  - split; [|discriminate]. intros Hr. destruct (rstrip_nonspace c r Hc Hr).
Qed.

End Frames.

(* ===================================================================== *)
(** * The strict loop, chunk by chunk *)
(* ===================================================================== *)

Section StrictRun.
Import Py Strict.

(** ** The duplicate filter *)

Lemma unique_mask_rows (seen : gset (string * string)) (l : list (Z * gmap string cell)) :
  dedup_rows seen l =
  ((unique_mask seen (map (fun lr => row_cell lr.2 "product_name") l)
                     (map (fun lr => row_cell lr.2 "brands") l)).1,
   select (unique_mask seen (map (fun lr => row_cell lr.2 "product_name") l)
                            (map (fun lr => row_cell lr.2 "brands") l)).2 l).
Proof.
  revert seen. induction l as [|x l IH]; intros seen; simpl; [reflexivity|].
  unfold row_key.
  destruct (bool_decide (dedup_key (row_cell x.2 "product_name")
                                   (row_cell x.2 "brands") ∈ seen)) eqn:Hk.
  - rewrite IH.
    destruct (unique_mask seen _ _) as [s m]. reflexivity.
  - rewrite IH.
    destruct (unique_mask _ _ _) as [s m]. reflexivity.
Qed.

Lemma dedup_rows_seen (seen : gset (string * string)) l k :
  k ∈ (dedup_rows seen l).1 <-> k ∈ seen \/ exists y, y ∈ l /\ row_key y.2 = k.
Proof.
  revert seen. induction l as [|x l IH]; intros seen; simpl.
  - split; [auto | intros [H | (y & Hy & _)]; [assumption | inversion Hy]].
  - case_bool_decide as Hk.
    + rewrite IH. split.
      * intros [H | (y & Hy & Hyk)]; [auto|].
        right. exists y. split; [apply list_elem_of_further, Hy | assumption].
      * intros [H | (y & Hy & Hyk)]; [auto|].
        apply elem_of_cons in Hy as [-> | Hy]; [left; congruence | right; eauto].
    + destruct (dedup_rows ({[row_key x.2]} ∪ seen) l) as [s kept] eqn:E.
      simpl. specialize (IH ({[row_key x.2]} ∪ seen)). rewrite E in IH. simpl in IH.
      rewrite IH. rewrite elem_of_union, elem_of_singleton. split.
      * intros [[H | H] | (y & Hy & Hyk)]; [| auto |].
        -- right. exists x. split; [apply list_elem_of_here | congruence].
        -- right. exists y. split; [apply list_elem_of_further, Hy | assumption].
      * intros [H | (y & Hy & Hyk)]; [auto|].
        apply elem_of_cons in Hy as [-> | Hy]; [left; left; congruence | right; eauto].
Qed.

Lemma dedup_rows_kept (seen : gset (string * string)) l x :
  x ∈ (dedup_rows seen l).2 ->
  exists l1 l2, l = l1 ++ x :: l2
    /\ ~ (row_key x.2 ∈ seen)
    /\ forall y, y ∈ l1 -> row_key y.2 <> row_key x.2.
Proof.
  revert seen. induction l as [|z l IH]; intros seen; simpl.
  - intros H. inversion H.
  - case_bool_decide as Hk.
    + intros H. destruct (IH _ H) as (l1 & l2 & -> & Hs & Hl1).
      exists (z :: l1), l2. split; [reflexivity|]. split; [assumption|].
      intros y Hy. apply elem_of_cons in Hy as [-> | Hy]; [|auto].
      intros Heq. apply Hs. rewrite <- Heq. assumption.
    + destruct (dedup_rows ({[row_key z.2]} ∪ seen) l) as [s kept] eqn:E.
      simpl. intros H. apply elem_of_cons in H as [-> | H].
      * exists [], l. split; [reflexivity|]. split; [assumption|].
        intros y Hy. inversion Hy.
      * specialize (IH ({[row_key z.2]} ∪ seen)). rewrite E in IH.
        destruct (IH H) as (l1 & l2 & -> & Hs & Hl1).
        exists (z :: l1), l2. split; [reflexivity|].
        split; [intros Hin; apply Hs, elem_of_union; right; exact Hin|].
        intros y Hy. apply elem_of_cons in Hy as [-> | Hy]; [|auto].
        intros Heq. apply Hs. rewrite <- Heq.
        apply elem_of_union. left. apply elem_of_singleton. reflexivity.
Qed.

Lemma dedup_rows_sublist (seen : gset (string * string)) l :
  (dedup_rows seen l).2 `sublist_of` l.
Proof.
  revert seen. induction l as [|z l IH]; intros seen; simpl; [constructor|].
  case_bool_decide as Hk.
  - apply sublist_cons, IH.
  - specialize (IH ({[row_key z.2]} ∪ seen)).
    destruct (dedup_rows ({[row_key z.2]} ∪ seen) l) as [s kept].
    apply sublist_skip, IH.
Qed.

Lemma bfilter_split {A : Type} (f : A -> bool) (l l1 l2 : list A) (x : A) :
  List.filter f l = l1 ++ x :: l2 ->
  exists m1 m2, l = m1 ++ x :: m2 /\ List.filter f m1 = l1 /\ f x = true.
Proof.
  revert l1. induction l as [|z l IH]; intros l1; simpl.
  - destruct l1; discriminate.
  - destruct (f z) eqn:E.
    + destruct l1 as [|w l1]; simpl; intros H; inversion H; subst.
      * exists [], l. auto.
      * destruct (IH l1 H2) as (m1 & m2 & -> & Hm & Hx).
        exists (w :: m1), m2. simpl. rewrite E, Hm. auto.
    + intros H. destruct (IH l1 H) as (m1 & m2 & -> & Hm & Hx).
      exists (z :: m1), m2. simpl. rewrite E. auto.
Qed.

(** ** The steps on a chunk *)

Lemma drop_empty_names_ok (df df1 : frame) :
  drop_empty_names df = Ok df1 ->
  df1 = Frame (columns df) (List.filter (fun lr => row_present lr.2) (rows df)).
Proof.
  unfold drop_empty_names, method_of, bind.
  destruct (df_get "product_name" df) as [col|] eqn:E; [|discriminate].
  apply df_get_some in E as [_ ->]. intros [= <-]. f_equal.
  unfold df_col.
  apply (select_map_col (fun lr : Z * gmap string cell => row_cell lr.2 "product_name")
                        name_present).
Qed.

Lemma deduplicate_ok (seen seen' : gset (string * string)) (df df2 : frame) :
  deduplicate seen df = Ok (seen', df2) ->
  columns df2 = columns df /\ dedup_rows seen (rows df) = (seen', rows df2).
Proof.
  unfold deduplicate.
  destruct (df_get "brands" df) as [col|] eqn:E; [|discriminate].
  apply df_get_some in E as [_ ->].
  rewrite unique_mask_rows. unfold df_col.
  destruct (unique_mask seen _ _) as [s m]. intros [= <- <-]. simpl. auto.
Qed.

Lemma completeness_col_columns (a b : frame) :
  columns a = columns b -> completeness_col a = completeness_col b.
Proof. unfold completeness_col. intros ->. reflexivity. Qed.

Lemma row_complete_columns (a b : frame) raw :
  columns a = columns b -> row_complete a raw = row_complete b raw.
Proof.
  intros H. unfold row_complete. rewrite (completeness_col_columns a b H). reflexivity.
Qed.

Lemma bfilter_all {A : Type} (l : list A) : List.filter (fun _ => true) l = l.
Proof. induction l as [|x l IH]; simpl; [|rewrite IH]; reflexivity. Qed.

Lemma drop_low_completeness_ok (df : frame) :
  drop_low_completeness df =
  Frame (columns df) (List.filter (fun lr => row_complete df lr.2) (rows df)).
Proof.
  unfold drop_low_completeness, row_complete.
  destruct (completeness_col df) as [c|].
  - f_equal. unfold df_col.
    apply (select_map_col (fun lr : Z * gmap string cell => row_cell lr.2 c)
                          complete_enough).
  - rewrite bfilter_all. destruct df; reflexivity.
Qed.

Local Opaque nutrient_map.

Lemma build_out_ok (df : frame) (out : list (Z * out_row)) :
  build_out df = Ok out ->
  out = map (fun lr => (lr.1, build_row (columns df) lr.2)) (rows df).
Proof.
  unfold build_out, method_of, bind.
  destruct (df_get "brands" df) as [bc|] eqn:Eb; [|discriminate].
  destruct (df_get "serving_size" df) as [sc|] eqn:Es; [|discriminate].
  destruct (df_get "serving_quantity" df) as [qc|] eqn:Eq; [|discriminate].
  apply df_get_some in Eb as [_ ->].
  apply df_get_some in Es as [_ ->].
  apply df_get_some in Eq as [_ ->].
  intros [= <-]. apply imap_rowwise. intros i x Hi.
  unfold build_row, df_col. rewrite !map_map.
  rewrite !(at_row_map _ _ _ _ _ Hi). f_equal. f_equal.
  apply map_ext. intros [o src]. simpl. f_equal.
  unfold nutrient_value, df_get, clean_numeric, df_col.
  case_bool_decide as Hc.
  - rewrite map_map.
    apply (at_row_map (fun y : Z * gmap string cell => clean_cell (row_cell y.2 src))
                      NaN _ _ _ Hi).
  - apply at_row_nil.
Qed.

Lemma drop_all_zero_ok (out : list (Z * out_row)) :
  drop_all_zero out = List.filter (fun lr => negb (all_zero lr.2)) out.
Proof. unfold drop_all_zero. apply (select_map (fun lr => negb (all_zero lr.2))). Qed.

Lemma bfilter_map {A B : Type} (g : A -> B) (p : B -> bool) (l : list A) :
  List.filter p (map g l) = map g (List.filter (fun x => p (g x)) l).
Proof.
  induction l as [|x l IH]; simpl; [reflexivity|].
  destruct (p (g x)); simpl; rewrite IH; reflexivity.
Qed.

Lemma is_empty_map {A B : Type} (g : A -> B) (l : list A) :
  is_empty_list (map g l) = is_empty_list l.
Proof. destruct l; reflexivity. Qed.

(** One iteration that does not raise, in terms of the rows that survive. *)
Lemma process_chunk_ok (st st' : state) (df : frame) :
  process_chunk st df = Ok st' ->
  seen_pairs st' =
    (dedup_rows (seen_pairs st) (List.filter (fun lr => row_present lr.2) (rows df))).1
  /\ daHeader st' =
       (if is_empty_list (survivors (seen_pairs st) df) then daHeader st else false)
  /\ csv st' =
       (if is_empty_list (survivors (seen_pairs st) df) then csv st
        else to_csv out_columns (daHeader st)
               (map (fun lr => (lr.1, final_row (columns df) lr.2))
                    (survivors (seen_pairs st) df))
               (csv st)).
Proof.
  unfold process_chunk, survivors.
  destruct (drop_empty_names df) as [df1|] eqn:E1; [|discriminate].
  apply drop_empty_names_ok in E1. subst df1. cbn [bind rows columns].
  set (pres := List.filter (fun lr => row_present lr.2) (rows df)).
  destruct (is_empty_list pres) eqn:Ep.
  { apply is_empty_true in Ep. rewrite Ep. intros [= <-]. simpl. auto. }
  destruct (deduplicate (seen_pairs st) (Frame (columns df) pres)) as [[s df2]|] eqn:E2;
    [|discriminate].
  apply deduplicate_ok in E2 as [Hc2 E2]. cbn [bind rows columns fst snd] in *.
  rewrite E2. cbn [fst snd].
  destruct (is_empty_list (rows df2)) eqn:Eu.
  { apply is_empty_true in Eu. rewrite Eu. intros [= <-]. simpl. auto. }
  rewrite drop_low_completeness_ok. cbn [rows columns].
  rewrite (List.filter_ext _ _ (fun lr => row_complete_columns df2 df lr.2 Hc2)).
  set (comp := List.filter (fun lr => row_complete df lr.2) (rows df2)).
  destruct (is_empty_list comp) eqn:Ec.
  { apply is_empty_true in Ec. rewrite Ec. intros [= <-]. simpl. auto. }
  destruct (build_out (Frame (columns df2) comp)) as [out0|] eqn:E4; [|discriminate].
  apply build_out_ok in E4. cbn [bind rows columns] in *. subst out0.
  rewrite Hc2, map_map. cbn [fst snd].
  rewrite drop_all_zero_ok.
  rewrite (bfilter_map (fun lr => (lr.1, remove_quotes (fix_serving_size (build_row (columns df) lr.2))))
                       (fun lr => negb (all_zero lr.2))).
  cbn [fst snd]. rewrite is_empty_map.
  unfold final_row.
  match goal with
  | |- (if ?b then _ else _) = _ -> _ => destruct b eqn:Ek
  end; intros [= <-]; simpl; auto.
Qed.

(** ** The loop invariant *)

Lemma first_of_key_app (l l' : list (Z * gmap string cell)) x :
  first_of_key l x -> first_of_key (l ++ l') x.
Proof.
  intros (l1 & l2 & -> & Hp & Hf). exists l1, (l2 ++ l').
  rewrite <- app_assoc. simpl. auto.
Qed.

Lemma line_source_app (done more : list frame) (l : line out_row) :
  line_source done l -> line_source (done ++ more) l.
Proof.
  destruct l as [cols | i r]; simpl; [auto|].
  intros (df & raw & Hdf & Hraw & Hfirst & Hr & Hc & Hz).
  exists df, raw. split; [apply elem_of_app; auto|]. split; [assumption|].
  split; [rewrite all_rows_app; apply first_of_key_app, Hfirst | auto].
Qed.

Lemma survivors_sublist (seen : gset (string * string)) (df : frame) :
  survivors seen df `sublist_of` rows df.
Proof.
  unfold survivors.
  etrans; [apply bfilter_sublist|].
  etrans; [apply bfilter_sublist|].
  etrans; [apply dedup_rows_sublist|].
  apply bfilter_sublist.
Qed.

Lemma survivor_source (done : list frame) (st : state) (df : frame) x :
  (forall k, k ∈ seen_pairs st <->
             exists y, y ∈ all_rows done /\ row_present y.2 = true /\ row_key y.2 = k) ->
  x ∈ survivors (seen_pairs st) df ->
  line_source (done ++ [df]) (Data x.1 (final_row (columns df) x.2)).
Proof.
  intros Hseen Hx. unfold survivors in Hx.
  apply elem_of_bfilter in Hx as [Hx Hz].
  apply elem_of_bfilter in Hx as [Hx Hc].
  apply dedup_rows_kept in Hx as (l1 & l2 & Hpres & Hnew & Hl1).
  apply bfilter_split in Hpres as (m1 & m2 & Hrows & Hm1 & Hp).
  simpl. exists df, x.2. rewrite <- surjective_pairing.
  split; [apply elem_of_app; right; apply list_elem_of_singleton; reflexivity|].
  split; [rewrite Hrows; apply elem_of_app; right; apply list_elem_of_here|].
  split; [|split; [reflexivity|split; [assumption|]]].
  - exists (all_rows done ++ m1), m2. split.
    + rewrite all_rows_app. unfold all_rows at 2. simpl.
      rewrite app_nil_r, Hrows, app_assoc. reflexivity.
    + split; [assumption|]. intros y Hy Hyp Heq.
      apply elem_of_app in Hy as [Hy | Hy].
      * apply Hnew. apply Hseen. exists y. auto.
      * apply (Hl1 y); [|assumption].
        rewrite <- Hm1. apply elem_of_bfilter. auto.
  - apply negb_true_iff. assumption.
Qed.

Lemma process_chunk_inv (done : list frame) (st st' : state) (df : frame) :
  loop_inv done st -> process_chunk st df = Ok st' -> loop_inv (done ++ [df]) st'.
Proof.
  intros (Hseen & Hlines & Hlabels & Hhead) Hstep.
  apply process_chunk_ok in Hstep as (Hs' & Hh' & Hc').
  assert (Hrows : all_rows (done ++ [df]) = all_rows done ++ rows df).
  { rewrite all_rows_app. unfold all_rows at 2. simpl. rewrite app_nil_r. reflexivity. }
  split; [|split; [|split]].
  - intros k. rewrite Hs', dedup_rows_seen, Hseen, Hrows. split.
    + intros [(y & Hy & Hp & Hk) | (y & Hy & Hk)].
      * exists y. split; [apply elem_of_app; auto | auto].
      * apply elem_of_bfilter in Hy as [Hy Hp].
        exists y. split; [apply elem_of_app; auto | auto].
    + intros (y & Hy & Hp & Hk). apply elem_of_app in Hy as [Hy | Hy].
      * left. eauto.
      * right. exists y. split; [apply elem_of_bfilter; auto | assumption].
  - intros l. rewrite Hc'.
    destruct (is_empty_list (survivors (seen_pairs st) df)).
    + intros Hl. apply line_source_app, Hlines, Hl.
    + unfold to_csv. rewrite !elem_of_app. intros [Hl | [Hl | Hl]].
      * apply line_source_app, Hlines, Hl.
      * destruct (daHeader st); [|inversion Hl].
        apply list_elem_of_singleton in Hl as ->. reflexivity.
      * apply list_elem_of_fmap in Hl as (y & -> & Hy).
        apply list_elem_of_fmap in Hy as (x & -> & Hx).
        apply (survivor_source done st df x Hseen Hx).
  - rewrite Hc', Hrows, map_app.
    destruct (is_empty_list (survivors (seen_pairs st) df)).
    + apply sublist_inserts_r, Hlabels.
    + unfold to_csv. rewrite !data_labels_app. apply sublist_app; [assumption|].
      replace (data_labels (if daHeader st then [Header out_columns] else []))
        with (@nil Z) by (destruct (daHeader st); reflexivity).
      simpl. rewrite data_labels_rows, map_map. simpl.
      apply (fmap_sublist fst), survivors_sublist.
  - rewrite Hh', Hc'.
    destruct (is_empty_list (survivors (seen_pairs st) df)) eqn:Ek; [assumption|].
    right. split; [reflexivity|].
    assert (Hne : survivors (seen_pairs st) df <> [])
      by (intros Hnil; rewrite Hnil in Ek; discriminate).
    unfold to_csv.
    destruct Hhead as [[Hh Hc] | (Hh & body & Hc & Hb & Hd)]; rewrite Hh, Hc.
    + eexists. split; [reflexivity|]. split.
      * destruct (survivors (seen_pairs st) df); [congruence | discriminate].
      * intros l Hl. apply list_elem_of_fmap in Hl as (y & -> & _). reflexivity.
    + exists (body ++ map (fun lr => Data lr.1 lr.2)
                       (map (fun lr => (lr.1, final_row (columns df) lr.2))
                            (survivors (seen_pairs st) df))).
      split; [reflexivity|]. split.
      * destruct body; [congruence | discriminate].
      * intros l Hl. apply elem_of_app in Hl as [Hl | Hl]; [auto|].
        apply list_elem_of_fmap in Hl as (y & -> & _). reflexivity.
Qed.

Lemma loop_inv_init : loop_inv [] init.
Proof.
  unfold loop_inv, all_rows. simpl. split; [|split; [|split]].
  - intros k. split.
    + intros H. apply not_elem_of_empty in H. destruct H.
    + intros (y & Hy & _). inversion Hy.
  - intros l Hl. inversion Hl.
  - constructor.
  - left. auto.
Qed.

Lemma run_from_inv (chunks done : list frame) (st : state) :
  loop_inv done st ->
  exists processed rest,
    chunks = processed ++ rest
    /\ loop_inv (done ++ processed) (run_from st chunks).1
    /\ ((run_from st chunks).2 = None -> rest = []).
Proof.
  revert done st. induction chunks as [|df chunks IH]; intros done st Hinv; simpl.
  - exists [], []. split; [reflexivity|]. split; [rewrite app_nil_r; exact Hinv | auto].
  - destruct (process_chunk st df) as [st'|e] eqn:E.
    + destruct (IH (done ++ [df]) st' (process_chunk_inv _ _ _ _ Hinv E))
        as (processed & rest & -> & Hinv' & Hrest).
      exists (df :: processed), rest. split; [reflexivity|].
      rewrite <- app_assoc in Hinv'. auto.
    + exists [], (df :: chunks). split; [reflexivity|].
      split; [rewrite app_nil_r; exact Hinv | discriminate].
Qed.

(** The invariant at the end of a run, over the chunks the script got
    through: all of them when no exception ended it. *)
Lemma run_inv (chunks : list frame) :
  exists processed rest,
    chunks = processed ++ rest
    /\ loop_inv processed (run chunks).1
    /\ ((run chunks).2 = None -> rest = []).
Proof. apply (run_from_inv chunks [] init loop_inv_init). Qed.

Lemma output_line_source (chunks : list frame) (l : line out_row) :
  l ∈ output chunks -> line_source chunks l.
Proof.
  destruct (run_inv chunks) as (processed & rest & -> & (_ & Hlines & _) & _).
  intros Hl. apply line_source_app, Hlines, Hl.
Qed.

Lemma output_labels_sublist (chunks : list frame) :
  data_labels (output chunks) `sublist_of` map fst (all_rows chunks).
Proof.
  destruct (run_inv chunks) as (processed & rest & -> & (_ & _ & Hlab & _) & _).
  rewrite all_rows_app, map_app. apply sublist_inserts_r, Hlab.
Qed.

Lemma output_header (chunks : list frame) :
  output chunks = []
  \/ exists body, output chunks = Header out_columns :: body
                  /\ body <> []
                  /\ forall l, l ∈ body -> is_header l = false.
Proof.
  destruct (run_inv chunks) as (processed & rest & _ & (_ & _ & _ & Hh) & _).
  destruct Hh as [[_ Hc] | [_ Hb]]; [left; exact Hc | right; exact Hb].
Qed.

(** ** Labels *)

Lemma label_unique {A : Type} (l : list (Z * A)) (i : Z) (a b : A) :
  NoDup (map fst l) -> (i, a) ∈ l -> (i, b) ∈ l -> a = b.
Proof.
  induction l as [|[j c] l IH]; simpl; intros Hnd Ha Hb; [inversion Ha|].
  apply NoDup_cons in Hnd as [Hj Hnd].
  assert (Hin : forall d, (j, d) ∈ l -> False).
  { intros d Hd. apply Hj. apply list_elem_of_fmap. exists (j, d). auto. }
  apply elem_of_cons in Ha as [Ha | Ha]; apply elem_of_cons in Hb as [Hb | Hb].
  - congruence.
  - inversion Ha; subst. destruct (Hin _ Hb).
  - inversion Hb; subst. destruct (Hin _ Ha).
  - apply IH; assumption.
Qed.

Lemma split_cases {A : Type} (l1 l1' l2 l2' : list A) (x y : A) :
  l1 ++ x :: l2 = l1' ++ y :: l2' ->
  (l1 = l1' /\ x = y) \/ x ∈ l1' \/ y ∈ l1.
Proof.
  revert l1'. induction l1 as [|a l1 IH]; intros [|b l1']; simpl; intros H;
    inversion H; subst.
  - left. auto.
  - right. left. apply list_elem_of_here.
  - right. right. apply list_elem_of_here.
  - destruct (IH l1' H2) as [[-> ->] | [Hx | Hy]].
    + left. auto.
    + right. left. apply list_elem_of_further, Hx.
    + right. right. apply list_elem_of_further, Hy.
Qed.

Lemma first_of_key_unique (l : list (Z * gmap string cell)) x y :
  first_of_key l x -> first_of_key l y -> row_key x.2 = row_key y.2 -> x = y.
Proof.
  intros (l1 & l2 & -> & Hpx & Hfx) (l1' & l2' & Heq & Hpy & Hfy) Hk.
  destruct (split_cases _ _ _ _ _ _ Heq) as [[_ ->] | [Hx | Hy]].
  - reflexivity.
  - destruct (Hfy x Hx Hpx Hk).
  - destruct (Hfx y Hy Hpy). symmetry. exact Hk.
Qed.

Lemma first_of_key_elem (l : list (Z * gmap string cell)) x :
  first_of_key l x -> x ∈ l /\ row_present x.2 = true.
Proof.
  intros (l1 & l2 & -> & Hp & _). split; [|assumption].
  apply elem_of_app. right. apply list_elem_of_here.
Qed.

(** A label in the output is the label of a line whose source is known. *)
Lemma output_label_source (chunks : list frame) (i : Z) :
  i ∈ data_labels (output chunks) ->
  exists df raw, df ∈ chunks /\ (i, raw) ∈ rows df
    /\ first_of_key (all_rows chunks) (i, raw)
    /\ Data i (final_row (columns df) raw) ∈ output chunks
    /\ row_complete df raw = true
    /\ all_zero (final_row (columns df) raw) = false.
Proof.
  intros Hi. unfold data_labels in Hi.
  apply list_elem_of_omap in Hi as ([cols | j r] & Hl & Hj); simpl in Hj; [discriminate|].
  inversion Hj; subst j.
  destruct (output_line_source chunks _ Hl) as (df & raw & Hdf & Hraw & Hf & -> & Hc & Hz).
  exists df, raw. auto 10.
Qed.

Lemma data_label_elem {R : Type} (file : list (line R)) (i : Z) (r : R) :
  Data i r ∈ file -> i ∈ data_labels file.
Proof.
  intros H. unfold data_labels. apply list_elem_of_omap. exists (Data i r). auto.
Qed.

Lemma chunk_of_label_unique (chunks : list frame) (df df' : frame) (i : Z) raw raw' :
  NoDup (map fst (all_rows chunks)) ->
  df ∈ chunks -> df' ∈ chunks -> (i, raw) ∈ rows df -> (i, raw') ∈ rows df' ->
  df = df'.
Proof.
  unfold all_rows. induction chunks as [|d chunks IH]; simpl;
    intros Hnd Hdf Hdf' Hr Hr'; [inversion Hdf|].
  rewrite map_app in Hnd. apply NoDup_app in Hnd as (_ & Hdisj & Hnd).
  assert (Hd : forall a b f, (i, a) ∈ rows d -> f ∈ chunks -> (i, b) ∈ rows f -> False).
  { intros a b f Ha Hf Hb. apply (Hdisj i).
    - apply list_elem_of_fmap. exists (i, a). auto.
    - apply list_elem_of_fmap. exists (i, b). split; [reflexivity|].
      apply (elem_of_all_rows chunks). eauto. }
  apply elem_of_cons in Hdf as [-> | Hdf]; apply elem_of_cons in Hdf' as [-> | Hdf'].
  - reflexivity.
  - destruct (Hd _ _ _ Hr Hdf' Hr').
  - destruct (Hd _ _ _ Hr' Hdf Hr).
  - apply IH; assumption.
Qed.

(** With distinct labels, a label in the output is the label of the first
    row with its key, and that row is the one the label names. *)
Lemma output_label_first (chunks : list frame) (i : Z) raw :
  NoDup (map fst (all_rows chunks)) ->
  (i, raw) ∈ all_rows chunks -> i ∈ data_labels (output chunks) ->
  first_of_key (all_rows chunks) (i, raw).
Proof.
  intros Hnd Hraw Hi.
  destruct (output_label_source chunks i Hi) as (df & raw0 & Hdf & Hraw0 & Hf & _).
  assert (Hin : (i, raw0) ∈ all_rows chunks) by (apply elem_of_all_rows; eauto).
  rewrite (label_unique _ _ _ _ Hnd Hraw Hin). exact Hf.
Qed.

Local Transparent nutrient_map.

(** The nutrient columns the all-zero test reads are the nutrient columns
    the dict defines, so the test is on all the nutrient fields of a row. *)
Lemma all_zero_final_row (cols : list string) raw :
  all_zero (final_row cols raw) =
  forallb (fun oc => f_is_zero (nutrient_value cols raw oc.2)) nutrient_map.
Proof.
  unfold all_zero, final_row, remove_quotes, fix_serving_size, build_row.
  cbn [nutrients]. generalize (nutrient_value cols raw). intros nv.
  reflexivity.
Qed.

Lemma name_present_false (c : cell) :
  name_present c = false <-> cell_isna c = true \/ strip (py_str c) = "".
Proof.
  unfold name_present. rewrite andb_false_iff, !negb_false_iff, String.eqb_eq.
  reflexivity.
Qed.

(** Without an exception the key of every row with a name has been seen,
    whatever the later filters did with the row. *)
Lemma seen_all_keys (chunks : list frame) y :
  (run chunks).2 = None -> y ∈ all_rows chunks -> row_present y.2 = true ->
  row_key y.2 ∈ seen_pairs (run chunks).1.
Proof.
  destruct (run_inv chunks) as (processed & rest & Hc & (Hseen & _) & Hrest).
  intros Hnone Hy Hp. rewrite (Hrest Hnone), app_nil_r in Hc. subst processed.
  apply Hseen. exists y. auto.
Qed.

End StrictRun.

(* ===================================================================== *)
(** * The simple loop, chunk by chunk *)
(* ===================================================================== *)

Section SimpleRun.
Import Py Simple.

Lemma apply_each_ok {A B : Type} (f : A -> result B) (g : A -> B) (l : list A) (ys : list B) :
  (forall x y, f x = Ok y -> y = g x) ->
  apply_each f l = Ok ys -> ys = map g l.
Proof.
  intros Hfg. revert ys. induction l as [|x l IH]; intros ys; simpl.
  - intros [= <-]. reflexivity.
  - unfold bind. destruct (f x) as [y|] eqn:Ef; [|discriminate].
    destruct (apply_each f l) as [ys'|]; [|discriminate].
    intros [= <-]. rewrite (Hfg x y Ef), (IH ys' eq_refl). reflexivity.
Qed.

Lemma numeric_column_ok (f : fval -> fval) (c : string) (df : frame) (v : list fval) :
  numeric_column f c df = Ok v ->
  v = map (fun lr => f (to_numeric (row_cell lr.2 c))) (rows df).
Proof.
  unfold numeric_column, method_of, bind.
  destruct (df_get c df) as [col|] eqn:E; [|discriminate].
  apply df_get_some in E as [_ ->]. intros [= <-].
  unfold df_col. apply map_map.
Qed.

Local Opaque nutrient_map.

Lemma simple_build_out_ok (df : frame) (out : list (Z * out_row)) :
  build_out df = Ok out ->
  out = map (fun lr => (lr.1, build_row (columns df) lr.2)) (rows df).
Proof.
  unfold build_out, method_of, bind.
  destruct (df_get "product_name" df) as [nc|] eqn:En; [|discriminate].
  destruct (df_get "energy-kcal_100g" df) as [cc|] eqn:Ec; [|discriminate].
  destruct (apply_each calories_cell cc) as [cals|] eqn:Ecal; [|discriminate].
  destruct (apply_each _ nutrient_map) as [series|] eqn:Eser; [|discriminate].
  destruct (numeric_column zero_unless_in_range "serving_size" df) as [sizes|] eqn:Es;
    [|discriminate].
  destruct (numeric_column servings_of "serving_quantity" df) as [qs|] eqn:Eq;
    [|discriminate].
  apply df_get_some in En as [_ ->].
  apply df_get_some in Ec as [_ ->].
  apply (apply_each_ok _ (fun c => match calories_cell c with Ok v => v | Raise _ => NaN end))
    in Ecal; [|intros x y ->; reflexivity].
  apply (apply_each_ok _
           (fun oc => (oc.1, map (fun lr => numeric_cell (row_cell lr.2 oc.2)) (rows df))))
    in Eser.
  2:{ intros oc y. unfold bind.
      destruct (numeric_column zero_unless_in_range oc.2 df) as [v|] eqn:Ev; [|discriminate].
      apply numeric_column_ok in Ev. intros [= <-]. rewrite Ev. reflexivity. }
  apply numeric_column_ok in Es. apply numeric_column_ok in Eq. subst.
  intros [= <-]. apply imap_rowwise. intros i x Hi.
  unfold build_row, df_col. rewrite !map_map.
  f_equal. f_equal.
  - apply (at_row_map (fun y : Z * gmap string cell => name_of (row_cell y.2 "product_name"))
                      missing _ _ _ Hi).
  - unfold df_get. case_bool_decide as Hb; [|reflexivity].
    f_equal. unfold df_col.
    apply (at_row_map (fun y : Z * gmap string cell => row_cell y.2 "brands") missing _ _ _ Hi).
  - f_equal.
    + f_equal.
      apply (at_row_map (fun y : Z * gmap string cell =>
                           match calories_cell (row_cell y.2 "energy-kcal_100g") with
                           | Ok v => v | Raise _ => NaN end) NaN _ _ _ Hi).
    + apply map_ext. intros [o src]. simpl. f_equal.
      apply (at_row_map (fun y : Z * gmap string cell => numeric_cell (row_cell y.2 src))
                        NaN _ _ _ Hi).
  - apply (at_row_map (fun y : Z * gmap string cell =>
                         zero_unless_in_range (to_numeric (row_cell y.2 "serving_size")))
                      NaN _ _ _ Hi).
  - apply (at_row_map (fun y : Z * gmap string cell =>
                         servings_of (to_numeric (row_cell y.2 "serving_quantity")))
                      NaN _ _ _ Hi).
Qed.

Lemma simple_process_chunk_ok (st st' : state) (df : frame) :
  process_chunk st df = Ok st' ->
  daHeader st' = false
  /\ csv st' = csv st ++ (if daHeader st then [Header out_columns] else []) ++ chunk_lines df.
Proof.
  unfold process_chunk, bind.
  destruct (build_out df) as [out|] eqn:E; [|discriminate].
  apply simple_build_out_ok in E. subst out. intros [= <-]. simpl.
  split; [reflexivity|]. unfold to_csv, chunk_lines. rewrite map_map. reflexivity.
Qed.

Lemma file_of_snoc (done : list frame) (df : frame) :
  file_of (done ++ [df]) =
  file_of done ++ (if is_empty_list done then [Header out_columns] else []) ++ chunk_lines df.
Proof.
  destruct done as [|d done]; simpl.
  - rewrite app_nil_r. reflexivity.
  - f_equal. rewrite map_app, concat_app. simpl. rewrite app_nil_r, app_assoc. reflexivity.
Qed.

Lemma simple_run_from_inv (chunks done : list frame) (st : state) :
  csv st = file_of done -> daHeader st = is_empty_list done ->
  exists processed rest,
    chunks = processed ++ rest
    /\ csv (run_from st chunks).1 = file_of (done ++ processed)
    /\ ((run_from st chunks).2 = None -> rest = []).
Proof.
  revert done st. induction chunks as [|df chunks IH]; intros done st Hc Hh; simpl.
  - exists [], []. rewrite !app_nil_r. auto.
  - destruct (process_chunk st df) as [st'|e] eqn:E.
    + apply simple_process_chunk_ok in E as [Hh' Hc'].
      destruct (IH (done ++ [df]) st') as (processed & rest & -> & Hcsv & Hrest).
      * rewrite Hc', Hc, Hh. symmetry. apply file_of_snoc.
      * rewrite Hh'. destruct done; reflexivity.
      * exists (df :: processed), rest. rewrite <- app_assoc in Hcsv. auto.
    + exists [], (df :: chunks). rewrite !app_nil_r. simpl.
      split; [reflexivity|]. split; [assumption | discriminate].
Qed.

(** The file of a run is the file of the chunks the script got through:
    all of them when no exception ended it. *)
Lemma simple_run_file (chunks : list frame) :
  exists processed rest,
    chunks = processed ++ rest
    /\ output chunks = file_of processed
    /\ ((run chunks).2 = None -> rest = []).
Proof. apply (simple_run_from_inv chunks [] init); reflexivity. Qed.

Lemma elem_of_chunk_lines (done : list frame) (l : line out_row) :
  l ∈ concat (map chunk_lines done) <->
  exists df raw i, df ∈ done /\ (i, raw) ∈ rows df /\ l = Data i (build_row (columns df) raw).
Proof.
  induction done as [|d done IH]; simpl.
  - split; [intros H; inversion H | intros (df & _ & _ & H & _); inversion H].
  - rewrite elem_of_app, IH. split.
    + intros [H | (df & raw & i & Hdf & Hraw & ->)].
      * apply list_elem_of_fmap in H as ([i raw] & -> & Hx).
        exists d, raw, i. split; [apply list_elem_of_here | auto].
      * exists df, raw, i. split; [apply list_elem_of_further, Hdf | auto].
    + intros (df & raw & i & Hdf & Hraw & ->).
      apply elem_of_cons in Hdf as [-> | Hdf].
      * left. apply list_elem_of_fmap. exists (i, raw). auto.
      * right. exists df, raw, i. auto.
Qed.

Lemma simple_line_source (chunks : list frame) (i : Z) (r : out_row) :
  Data i r ∈ output chunks ->
  exists df raw, df ∈ chunks /\ (i, raw) ∈ rows df /\ r = build_row (columns df) raw.
Proof.
  destruct (simple_run_file chunks) as (processed & rest & -> & -> & _).
  destruct processed as [|d processed]; simpl; [intros H; inversion H|].
  intros H. apply elem_of_cons in H as [H | H]; [discriminate|].
  apply (elem_of_chunk_lines (d :: processed)) in H
    as (df & raw & j & Hdf & Hraw & Heq).
  inversion Heq; subst. exists df, raw.
  split; [change (df ∈ (d :: processed) ++ rest); apply elem_of_app; auto | auto].
Qed.

(** Without an exception every input row is written. *)
Lemma simple_all_written (chunks : list frame) (df : frame) (i : Z) raw :
  (run chunks).2 = None -> df ∈ chunks -> (i, raw) ∈ rows df ->
  Data i (build_row (columns df) raw) ∈ output chunks.
Proof.
  destruct (simple_run_file chunks) as (processed & rest & Hc & -> & Hrest).
  intros Hnone Hdf Hraw. rewrite (Hrest Hnone), app_nil_r in Hc. subst processed.
  destruct chunks as [|d chunks]; [inversion Hdf|].
  simpl. apply list_elem_of_further.
  apply (elem_of_chunk_lines (d :: chunks)). exists df, raw, i. auto.
Qed.

Lemma data_labels_chunk_lines (done : list frame) :
  data_labels (concat (map chunk_lines done)) = map fst (all_rows done).
Proof.
  unfold all_rows. induction done as [|d done IH]; simpl; [reflexivity|].
  rewrite data_labels_app, map_app, IH. f_equal.
  unfold chunk_lines.
  induction (rows d) as [|[i raw] l IHl]; simpl; [reflexivity|].
  unfold data_labels in *. simpl. rewrite IHl. reflexivity.
Qed.

Lemma simple_labels (chunks : list frame) :
  (run chunks).2 = None -> data_labels (output chunks) = map fst (all_rows chunks).
Proof.
  destruct (simple_run_file chunks) as (processed & rest & Hc & -> & Hrest).
  intros Hnone. rewrite (Hrest Hnone), app_nil_r in Hc. subst processed.
  destruct chunks as [|d chunks]; [reflexivity|].
  unfold file_of. apply (data_labels_chunk_lines (d :: chunks)).
Qed.

Lemma simple_output_header (chunks : list frame) :
  output chunks = []
  \/ exists body, output chunks = Header out_columns :: body
                  /\ forall l, l ∈ body -> is_header l = false.
Proof.
  destruct (simple_run_file chunks) as (processed & rest & _ & -> & _).
  destruct processed as [|d processed]; [left; reflexivity|].
  right. eexists. split; [reflexivity|].
  intros l Hl. apply (elem_of_chunk_lines (d :: processed)) in Hl
    as (df & raw & j & _ & _ & ->). reflexivity.
Qed.

End SimpleRun.

(* ===================================================================== *)
(** * Further properties of the two scripts *)
(* ===================================================================== *)

Section MoreStrict.
Import Py Strict Whole.

Lemma df_get_in (c : string) (df : frame) :
  c ∈ columns df -> df_get c df = Some (df_col c df).
Proof. intros H. unfold df_get. rewrite bool_decide_eq_true_2; auto. Qed.

Lemma df_get_out (c : string) (df : frame) :
  ~ (c ∈ columns df) -> df_get c df = None.
Proof. intros H. unfold df_get. rewrite bool_decide_eq_false_2; auto. Qed.

Local Opaque nutrient_map.

Lemma build_out_total (df : frame) :
  has_columns strict_required df -> exists out, build_out df = Ok out.
Proof.
  intros H. unfold build_out, method_of, bind.
  rewrite (df_get_in "brands"), (df_get_in "serving_size"),
    (df_get_in "serving_quantity"); [eauto | | |]; apply H; unfold strict_required;
    repeat (first [apply list_elem_of_here | apply list_elem_of_further]).
Qed.

Lemma process_chunk_total (st : state) (df : frame) :
  has_columns strict_required df -> exists st', process_chunk st df = Ok st'.
Proof.
  intros H. unfold process_chunk, drop_empty_names, method_of, bind.
  rewrite (df_get_in "product_name") by (apply H; apply list_elem_of_here).
  cbn [rows columns].
  destruct (is_empty_list _); [eauto|].
  unfold deduplicate. cbn [columns rows].
  rewrite (df_get_in "brands")
    by (apply H; apply list_elem_of_further, list_elem_of_here).
  destruct (unique_mask _ _ _) as [s m]. cbn [fst snd rows columns].
  destruct (is_empty_list _); [eauto|].
  destruct (is_empty_list (rows (drop_low_completeness _))); [eauto|].
  match goal with
  | |- context [build_out ?f] =>
      destruct (build_out_total f) as [out ->]
  end.
  { rewrite drop_low_completeness_ok. exact H. }
  destruct (is_empty_list _); eauto.
Qed.

Lemma run_from_total (st : state) (chunks : list frame) :
  (forall df, df ∈ chunks -> has_columns strict_required df) ->
  (run_from st chunks).2 = None.
Proof.
  revert st. induction chunks as [|df chunks IH]; intros st H; simpl; [reflexivity|].
  destruct (process_chunk_total st df) as [st' ->]; [apply H, list_elem_of_here|].
  apply IH. intros d Hd. apply H, list_elem_of_further, Hd.
Qed.

(** ** The counter *)

Lemma process_chunk_count (st st' : state) (df : frame) :
  process_chunk st df = Ok st' ->
  daCount st' = (daCount st + Z.of_nat (length (survivors (seen_pairs st) df)))%Z.
Proof.
  unfold process_chunk, survivors.
  destruct (drop_empty_names df) as [df1|] eqn:E1; [|discriminate].
  apply drop_empty_names_ok in E1. subst df1. cbn [bind rows columns].
  set (pres := List.filter (fun lr => row_present lr.2) (rows df)).
  destruct (is_empty_list pres) eqn:Ep.
  { apply is_empty_true in Ep. rewrite Ep. intros [= <-]. simpl. lia. }
  destruct (deduplicate (seen_pairs st) (Frame (columns df) pres)) as [[s df2]|] eqn:E2;
    [|discriminate].
  apply deduplicate_ok in E2 as [Hc2 E2]. cbn [bind rows columns fst snd] in *.
  rewrite E2. cbn [fst snd].
  destruct (is_empty_list (rows df2)) eqn:Eu.
  { apply is_empty_true in Eu. rewrite Eu. intros [= <-]. simpl. lia. }
  rewrite drop_low_completeness_ok. cbn [rows columns].
  rewrite (List.filter_ext _ _ (fun lr => row_complete_columns df2 df lr.2 Hc2)).
  set (comp := List.filter (fun lr => row_complete df lr.2) (rows df2)).
  destruct (is_empty_list comp) eqn:Ec.
  { apply is_empty_true in Ec. rewrite Ec. intros [= <-]. simpl. lia. }
  destruct (build_out (Frame (columns df2) comp)) as [out0|] eqn:E4; [|discriminate].
  apply build_out_ok in E4. cbn [bind rows columns] in *. subst out0.
  rewrite Hc2, map_map. cbn [fst snd].
  rewrite drop_all_zero_ok.
  rewrite (bfilter_map (fun lr => (lr.1, remove_quotes (fix_serving_size (build_row (columns df) lr.2))))
                       (fun lr => negb (all_zero lr.2))).
  cbn [fst snd]. rewrite is_empty_map.
  unfold final_row.
  match goal with
  | |- (if ?b then _ else _) = _ -> _ => destruct b eqn:Ek
  end; intros [= <-]; cbn [daCount].
  - apply is_empty_true in Ek. rewrite Ek. simpl. lia.
  - rewrite length_map. reflexivity.
Qed.

Lemma data_labels_to_csv (h : bool) (out : list (Z * out_row)) (file : list (line out_row)) :
  data_labels (to_csv out_columns h out file) = data_labels file ++ map fst out.
Proof.
  unfold to_csv. rewrite !data_labels_app, data_labels_rows.
  destruct h; reflexivity.
Qed.

Lemma process_chunk_labels (st st' : state) (df : frame) :
  process_chunk st df = Ok st' ->
  data_labels (csv st') = data_labels (csv st) ++ map fst (survivors (seen_pairs st) df).
Proof.
  intros H. apply process_chunk_ok in H as (_ & _ & ->).
  destruct (survivors (seen_pairs st) df) as [|x l] eqn:E.
  - simpl. rewrite app_nil_r. reflexivity.
  - cbn [is_empty_list]. rewrite data_labels_to_csv, map_map. reflexivity.
Qed.

Lemma run_from_count (st : state) (chunks : list frame) :
  daCount st = Z.of_nat (length (data_labels (csv st))) ->
  daCount (run_from st chunks).1
  = Z.of_nat (length (data_labels (csv (run_from st chunks).1))).
Proof.
  revert st. induction chunks as [|df chunks IH]; intros st H; simpl; [exact H|].
  destruct (process_chunk st df) as [st'|e] eqn:E; [|exact H].
  apply IH. rewrite (process_chunk_count _ _ _ E), (process_chunk_labels _ _ _ E), H.
  rewrite length_app, length_map. lia.
Qed.

(** ** The seen-key set *)

Lemma process_chunk_seen (st st' : state) (df : frame) :
  process_chunk st df = Ok st' -> seen_pairs st ⊆ seen_pairs st'.
Proof.
  intros H k Hk. apply process_chunk_ok in H as (-> & _).
  apply dedup_rows_seen. left. exact Hk.
Qed.

Lemma run_from_seen (st : state) (chunks : list frame) :
  seen_pairs st ⊆ seen_pairs (run_from st chunks).1.
Proof.
  revert st. induction chunks as [|df chunks IH]; intros st; simpl; [reflexivity|].
  destruct (process_chunk st df) as [st'|e] eqn:E; [|reflexivity].
  etrans; [apply (process_chunk_seen _ _ _ E) | apply IH].
Qed.

(** ** The file as a function of the rows *)

Lemma dedup_rows_app (seen : gset (string * string)) (a b : list (Z * gmap string cell)) :
  dedup_rows seen (a ++ b)
  = ((dedup_rows (dedup_rows seen a).1 b).1,
     (dedup_rows seen a).2 ++ (dedup_rows (dedup_rows seen a).1 b).2).
Proof.
  revert seen. induction a as [|x a IH]; intros seen; simpl.
  - destruct (dedup_rows seen b); reflexivity.
  - case_bool_decide as Hk.
    + apply IH.
    + rewrite IH. destruct (dedup_rows ({[row_key x.2]} ∪ seen) a) as [s k].
      reflexivity.
Qed.

Lemma survivors_app (cols : list string) (df : frame) (hist : list (Z * gmap string cell)) :
  columns df = cols ->
  survivors ∅ (Frame cols (hist ++ rows df))
  = survivors ∅ (Frame cols hist)
    ++ survivors (dedup_rows ∅ (List.filter (fun lr => row_present lr.2) hist)).1 df.
Proof.
  intros Hc. unfold survivors. cbn [rows columns].
  rewrite List.filter_app, dedup_rows_app. cbn [fst snd].
  rewrite !List.filter_app, Hc. f_equal.
  f_equal. apply List.filter_ext. intros lr. apply row_complete_columns.
  cbn [columns]. congruence.
Qed.

Lemma run_from_whole (cols : list string) (hist : list (Z * gmap string cell))
    (st : state) (chunks : list frame) :
  seen_pairs st = (dedup_rows ∅ (List.filter (fun lr => row_present lr.2) hist)).1 ->
  csv st = strict_file cols hist ->
  daHeader st = is_empty_list (survivors ∅ (Frame cols hist)) ->
  (forall df, df ∈ chunks -> columns df = cols) ->
  (run_from st chunks).2 = None ->
  csv (run_from st chunks).1 = strict_file cols (hist ++ all_rows chunks).
Proof.
  revert hist st. induction chunks as [|df chunks IH]; intros hist st Hs Hf Hh Hcols; simpl.
  - intros _. unfold all_rows. simpl. rewrite app_nil_r. exact Hf.
  - destruct (process_chunk st df) as [st'|e] eqn:E; [|discriminate].
    intros Hnone.
    assert (Hc : columns df = cols) by apply Hcols, list_elem_of_here.
    pose proof (survivors_app cols df hist Hc) as Happ. rewrite <- Hs in Happ.
    apply process_chunk_ok in E as (Hs' & Hh' & Hc').
    unfold all_rows. simpl. rewrite app_assoc.
    apply IH; [| | | intros d Hd; apply Hcols, list_elem_of_further, Hd | exact Hnone].
    + rewrite Hs', Hs, List.filter_app, dedup_rows_app. reflexivity.
    + rewrite Hc'. unfold strict_file in *. rewrite Happ, Hc.
      destruct (survivors (seen_pairs st) df) as [|y k1] eqn:E1.
      * rewrite app_nil_r. exact Hf.
      * cbn [is_empty_list]. unfold to_csv. rewrite Hf, Hh, map_map.
        destruct (survivors ∅ (Frame cols hist)) as [|x k0] eqn:E0; cbn [is_empty_list].
        -- reflexivity.
        -- cbn [List.app List.map fst snd]. rewrite map_app. reflexivity.
    + rewrite Hh', Happ.
      destruct (survivors (seen_pairs st) df) as [|y k1] eqn:E1.
      * rewrite app_nil_r. exact Hh.
      * cbn [is_empty_list]. destruct (survivors ∅ (Frame cols hist)); reflexivity.
Qed.

End MoreStrict.

Section MoreSimple.
Import Py Simple Whole.

Lemma apply_each_total {A B : Type} (f : A -> result B) (l : list A) :
  (forall x, x ∈ l -> exists y, f x = Ok y) -> exists ys, apply_each f l = Ok ys.
Proof.
  induction l as [|x l IH]; intros H; simpl; [eauto|].
  destruct (H x (list_elem_of_here _ _)) as [y ->].
  destruct IH as [ys ->]; [intros z Hz; apply H, list_elem_of_further, Hz|].
  simpl. eauto.
Qed.

Lemma apply_each_inv {A B : Type} (f : A -> result B) (l : list A) (ys : list B) :
  apply_each f l = Ok ys -> forall x, x ∈ l -> exists y, f x = Ok y.
Proof.
  revert ys. induction l as [|a l IH]; intros ys H x Hx; [inversion Hx|].
  simpl in H. unfold bind in H.
  destruct (f a) as [y|] eqn:Ea; [|discriminate].
  destruct (apply_each f l) as [ys'|] eqn:El; [|discriminate].
  apply elem_of_cons in Hx as [-> | Hx]; [eauto | apply (IH ys' eq_refl x Hx)].
Qed.

Lemma calories_cell_ok (c : cell) :
  (exists v, calories_cell c = Ok v) <-> is_text c = false.
Proof.
  destruct c as [[ | b | q] | z | s]; simpl; split; intros H;
    try reflexivity; try discriminate; eauto; destruct H; discriminate.
Qed.

Lemma numeric_column_total (f : fval -> fval) (c : string) (df : frame) :
  (exists v, numeric_column f c df = Ok v) <-> c ∈ columns df.
Proof.
  unfold numeric_column, method_of, bind, df_get. case_bool_decide as Hc; split.
  - auto.
  - eauto.
  - intros [v H]. discriminate.
  - contradiction.
Qed.

Lemma simple_required_elem (c : string) :
  c ∈ simple_required <->
  c = "product_name" \/ c = "energy-kcal_100g"
  \/ (exists oc, oc ∈ nutrient_map /\ c = oc.2)
  \/ c = "serving_size" \/ c = "serving_quantity".
Proof.
  unfold simple_required.
  rewrite !elem_of_cons, elem_of_app, list_elem_of_fmap, !elem_of_cons, elem_of_nil.
  split.
  - intros [H | [H | [(oc & -> & Hoc) | [H | [H | []]]]]]; eauto 10.
  - intros [H | [H | [(oc & Hoc & ->) | [H | H]]]]; eauto 10.
Qed.

Local Opaque nutrient_map.

(** The constructor of the simple script succeeds exactly when the frame
    has all the columns and a [calories] column without text. *)
Lemma simple_build_out_total (df : frame) :
  (exists out, build_out df = Ok out) <->
  has_columns simple_required df /\ calories_numeric df.
Proof.
  split.
  - intros [out H]. unfold build_out, method_of, bind in H.
    destruct (df_get "product_name" df) as [nc|] eqn:En; [|discriminate].
    destruct (df_get "energy-kcal_100g" df) as [cc|] eqn:Ec; [|discriminate].
    destruct (apply_each calories_cell cc) as [cals|] eqn:Ecal; [|discriminate].
    destruct (apply_each _ nutrient_map) as [series|] eqn:Eser; [|discriminate].
    destruct (numeric_column zero_unless_in_range "serving_size" df) as [sizes|] eqn:Es;
      [|discriminate].
    destruct (numeric_column servings_of "serving_quantity" df) as [qs|] eqn:Eq;
      [|discriminate].
    apply df_get_some in En as [Hn _]. apply df_get_some in Ec as [Hc ->].
    split.
    + intros c Hin. apply simple_required_elem in Hin
        as [-> | [-> | [(oc & Hoc & ->) | [-> | ->]]]]; try assumption.
      * destruct (apply_each_inv _ _ _ Eser oc Hoc) as [y Hy]. unfold bind in Hy.
        destruct (numeric_column zero_unless_in_range oc.2 df) as [v|] eqn:Ev;
          [|discriminate].
        apply (numeric_column_total zero_unless_in_range). eauto.
      * apply (numeric_column_total zero_unless_in_range). eauto.
      * apply (numeric_column_total servings_of). eauto.
    + intros lr Hlr. apply calories_cell_ok.
      apply (apply_each_inv _ _ _ Ecal). unfold df_col.
      apply list_elem_of_fmap. exists lr. auto.
  - intros [Hcols Hcal]. unfold build_out, method_of, bind.
    rewrite (df_get_in "product_name"), (df_get_in "energy-kcal_100g")
      by (apply Hcols, simple_required_elem; auto).
    destruct (apply_each_total calories_cell (df_col "energy-kcal_100g" df)) as [cals ->].
    { intros c Hc. unfold df_col in Hc. apply list_elem_of_fmap in Hc as (lr & -> & Hlr).
      apply calories_cell_ok, Hcal, Hlr. }
    match goal with
    | |- context [apply_each ?f nutrient_map] =>
        destruct (apply_each_total f nutrient_map) as [series ->]
    end.
    { intros oc Hoc.
      destruct (proj2 (numeric_column_total zero_unless_in_range oc.2 df)) as [v ->];
        [apply Hcols, simple_required_elem; eauto 10 | simpl; eauto]. }
    destruct (proj2 (numeric_column_total zero_unless_in_range "serving_size" df))
      as [v1 ->]; [apply Hcols, simple_required_elem; auto 10|].
    destruct (proj2 (numeric_column_total servings_of "serving_quantity" df))
      as [v2 ->]; [apply Hcols, simple_required_elem; auto 10|].
    eauto.
Qed.

Lemma simple_run_from_total (st : state) (chunks : list frame) :
  (run_from st chunks).2 = None <->
  forall df, df ∈ chunks -> has_columns simple_required df /\ calories_numeric df.
Proof.
  revert st. induction chunks as [|df chunks IH]; intros st; simpl.
  - split; [intros _ d Hd; inversion Hd | reflexivity].
  - unfold process_chunk, bind.
    destruct (build_out df) as [out|e] eqn:E.
    + rewrite IH. split.
      * intros H d Hd. apply elem_of_cons in Hd as [-> | Hd]; [|auto].
        apply simple_build_out_total. eauto.
      * intros H d Hd. apply H, list_elem_of_further, Hd.
    + split; [discriminate|]. intros H. exfalso.
      destruct (proj2 (simple_build_out_total df) (H df (list_elem_of_here _ _)))
        as [out Hout]. congruence.
Qed.

Lemma simple_run_from_count (st : state) (chunks : list frame) :
  (run_from st chunks).2 = None ->
  daCount (run_from st chunks).1 = (daCount st + chunksize * Z.of_nat (length chunks))%Z.
Proof.
  revert st. induction chunks as [|df chunks IH]; intros st; simpl; [lia|].
  destruct (process_chunk st df) as [st'|e] eqn:E; [|discriminate].
  intros H. rewrite (IH st' H).
  unfold process_chunk, bind in E. destruct (build_out df); [|discriminate].
  inversion E; subst. cbn [daCount]. lia.
Qed.

Lemma chunk_lines_rows (cols : list string) (chunks : list frame) :
  (forall df, df ∈ chunks -> columns df = cols) ->
  concat (map chunk_lines chunks)
  = map (fun lr => Data lr.1 (build_row cols lr.2)) (all_rows chunks).
Proof.
  unfold all_rows. induction chunks as [|df chunks IH]; intros H; simpl; [reflexivity|].
  rewrite map_app, IH by (intros d Hd; apply H, list_elem_of_further, Hd).
  unfold chunk_lines. rewrite (H df (list_elem_of_here _ _)). reflexivity.
Qed.

Lemma name_of_named (c : cell) :
  name_of c <> missing /\ forall s, name_of c = CStr s -> strip s <> "".
Proof.
  unfold name_of. destruct c as [[ | b | q] | z | s]; simpl;
    try (split; [discriminate | intros t Ht; inversion Ht; subst; discriminate]);
    try (split; [discriminate | intros t Ht; discriminate]).
  destruct (all_space s) eqn:E; split; try discriminate;
    intros t Ht; inversion Ht; subst.
  - discriminate.
  - intros Hb. apply strip_blank in Hb. congruence.
Qed.

End MoreSimple.

Section MoreText.
Import Py Whole.

Local Arguments is_space : simpl never.
Local Arguments is_digit : simpl never.
Local Arguments lower_char : simpl never.

(** ** Quotes *)

Lemma replace_removes (c : ascii) (s : string) : has_char c (replace c "" s) = false.
Proof.
  induction s as [|d s IH]; simpl; [reflexivity|].
  destruct (Ascii.eqb d c) eqn:E; simpl; [exact IH|]. rewrite E. exact IH.
Qed.

Lemma replace_keeps_absent (c d : ascii) (s : string) :
  has_char d s = false -> has_char d (replace c "" s) = false.
Proof.
  induction s as [|e s IH]; simpl; [reflexivity|].
  intros H. apply orb_false_iff in H as [He Hs].
  destruct (Ascii.eqb e c); simpl; [auto|]. rewrite He. auto.
Qed.

Lemma unquote_clean (s : string) :
  has_char dquote (Strict.unquote s) = false /\ has_char squote (Strict.unquote s) = false.
Proof.
  unfold Strict.unquote. split.
  - apply replace_keeps_absent, replace_removes.
  - apply replace_removes.
Qed.

(** ** Keys *)

Lemma lower_char_space (c : ascii) : is_space (lower_char c) = is_space c.
Proof. destruct c as [[] [] [] [] [] [] [] []]; reflexivity. Qed.

Lemma lstrip_lower (s : string) : lstrip (lower s) = lower (lstrip s).
Proof.
  induction s as [|c s IH]; simpl; [reflexivity|].
  rewrite lower_char_space. destruct (is_space c); [exact IH | reflexivity].
Qed.

Lemma rstrip_lower (s : string) : rstrip (lower s) = lower (rstrip s).
Proof.
  induction s as [|c s IH]; simpl; [reflexivity|].
  rewrite IH, lower_char_space.
  destruct (rstrip s); simpl; [destruct (is_space c)|]; reflexivity.
Qed.

Lemma strip_lower (s : string) : strip (lower s) = lower (strip s).
Proof. unfold strip. rewrite lstrip_lower, rstrip_lower. reflexivity. Qed.

Lemma all_space_cons (c : ascii) (s : string) :
  all_space (String c s) = is_space c && all_space s.
Proof. unfold all_space. simpl. destruct (is_space c); reflexivity. Qed.

Lemma lstrip_pad (pad s : string) :
  all_space pad = true -> lstrip (pad +:+ s) = lstrip s.
Proof.
  induction pad as [|c pad IH]; [reflexivity|].
  rewrite all_space_cons, andb_true_iff. intros [Hc Hp].
  rewrite append_cons. simpl. rewrite Hc. apply IH, Hp.
Qed.

Lemma rstrip_blank (s : string) : all_space s = true -> rstrip s = "".
Proof.
  induction s as [|c s IH]; [reflexivity|].
  rewrite all_space_cons, andb_true_iff. intros [Hc Hs].
  simpl. rewrite (IH Hs), Hc. reflexivity.
Qed.

Lemma rstrip_pad (s pad : string) :
  all_space pad = true -> rstrip (s +:+ pad) = rstrip s.
Proof.
  intros Hp. induction s as [|c s IH].
  - rewrite append_empty_l. simpl. apply rstrip_blank, Hp.
  - rewrite append_cons. simpl. rewrite IH. reflexivity.
Qed.

Lemma lstrip_append (s pad : string) :
  lstrip s <> "" -> lstrip (s +:+ pad) = lstrip s +:+ pad.
Proof.
  induction s as [|c s IH]; [intros H; destruct H; reflexivity|].
  rewrite append_cons. simpl. destruct (is_space c); [exact IH | reflexivity].
Qed.

Lemma all_space_append (s pad : string) :
  all_space s = true -> all_space pad = true -> all_space (s +:+ pad) = true.
Proof.
  intros Hs Hp. unfold all_space. rewrite (lstrip_pad s pad Hs). exact Hp.
Qed.

Lemma strip_pad (pad1 s pad2 : string) :
  all_space pad1 = true -> all_space pad2 = true ->
  strip (pad1 +:+ s +:+ pad2) = strip s.
Proof.
  intros H1 H2. unfold strip. rewrite (lstrip_pad pad1 _ H1).
  destruct (lstrip s) as [|c r] eqn:E.
  - assert (Hs : all_space s = true) by (unfold all_space; rewrite E; reflexivity).
    pose proof (all_space_append s pad2 Hs H2) as Ha. unfold all_space in Ha.
    destruct (lstrip (s +:+ pad2)); [reflexivity | discriminate].
  - rewrite lstrip_append by (rewrite E; discriminate).
    rewrite E. apply rstrip_pad, H2.
Qed.

(** ** Digits *)

Lemma has_digit_replace (s : string) :
  has_digit (replace "," "." s) = has_digit s.
Proof.
  induction s as [|c s IH]; simpl; [reflexivity|].
  destruct (Ascii.eqb c ",") eqn:E; simpl.
  - apply Ascii.eqb_eq in E. subst c.
    rewrite append_empty_l, IH. reflexivity.
  - rewrite IH. reflexivity.
Qed.

Lemma star_loop_some (m : string -> (string -> option string) -> option string)
    (n : nat) (s : string) :
  exists e, star_loop m Some n s = Some e.
Proof.
  destruct n as [|n]; simpl; [eauto|].
  destruct (m s _); eauto.
Qed.

Lemma backtrack_some (ds t : string) :
  all_digits ds = true -> ds <> "" ->
  exists e, backtrack Strict.after_digits ds t = Some e.
Proof.
  induction ds as [|c ds IH]; [congruence|]. intros Hd _. simpl in Hd.
  apply andb_true_iff in Hd as [Hc Hd]. cbn [backtrack].
  destruct ds as [|c' ds].
  - cbn [backtrack]. rewrite append_empty_l.
    destruct (Strict.after_digits t) as [e|]; [eauto|].
    destruct (digit_char c Hc) as (_ & _ & Hdot & _).
    rewrite (after_digits_cons c t Hdot).
    unfold Plus. rewrite rx_cat, rx_cls, Hc, rx_star. apply star_loop_some.
  - destruct IH as [e ->]; [assumption | discriminate | eauto].
Qed.

Lemma rx_numeral_digit (c : ascii) (r : string) :
  is_digit c = true -> exists e, rx Strict.numeral_re (String c r) Some = Some e.
Proof.
  intros Hc. destruct (span_digits (String c r)) as [ds t] eqn:E.
  pose proof E as E'. apply span_digits_spec in E' as (Hs & Hd & Ht).
  assert (Hne : ds <> "").
  { simpl in E. rewrite Hc in E. destruct (span_digits r). inversion E. discriminate. }
  destruct (digit_char c Hc) as (_ & _ & _ & Hm & Hp).
  rewrite Hs. rewrite (rx_numeral_re ds t c r (eq_sym Hs) Hm Hp Hd Ht).
  apply backtrack_some; assumption.
Qed.

Lemma search_cons (r : regex) (c : ascii) (s : string) :
  search r (String c s)
  = match rx r (String c s) Some with
    | Some rest =>
        Some (take (String.length (String c s) - String.length rest) (String c s))
    | None => search r s
    end.
Proof. reflexivity. Qed.

Lemma search_digit (s : string) :
  has_digit s = true -> exists m, search Strict.numeral_re s = Some m.
Proof.
  induction s as [|c s IH]; [discriminate|].
  intros H. rewrite search_cons.
  destruct (rx Strict.numeral_re (String c s) Some) as [e|] eqn:E; [eauto|].
  simpl in H. apply orb_true_iff in H as [Hc | Hs]; [|apply IH, Hs].
  destruct (rx_numeral_digit c s Hc) as [e He]. congruence.
Qed.

Lemma star_no_digit (k : string -> option string) (t : string) (n : nat) :
  no_digit_head t = true -> (String.length t <= n)%nat ->
  star_loop (rx (Cls is_digit)) k n t = k t.
Proof.
  intros Ht Hn. apply (star_digits k "" t n eq_refl Ht Hn).
Qed.

Lemma no_digit_head_of (t : string) : has_digit t = false -> no_digit_head t = true.
Proof.
  destruct t as [|c t]; simpl; [reflexivity|].
  intros H. apply orb_false_iff in H as [-> _]. reflexivity.
Qed.

Lemma plus_digit_none (t : string) :
  has_digit t = false -> rx (Plus (Cls is_digit)) t Some = None.
Proof.
  unfold Plus. rewrite rx_cat. destruct t as [|c t]; [reflexivity|].
  simpl has_digit. intros H. apply orb_false_iff in H as [Hc _].
  rewrite rx_cls, Hc. reflexivity.
Qed.

Lemma after_digits_none (t : string) :
  has_digit t = false -> Strict.after_digits t = None.
Proof.
  intros H. unfold Strict.after_digits. rewrite rx_opt.
  destruct t as [|c t].
  - reflexivity.
  - rewrite rx_cls. simpl in H. apply orb_false_iff in H as [Hc Ht].
    rewrite (plus_digit_none t Ht).
    rewrite (plus_digit_none (String c t)) by (simpl; rewrite Hc; exact Ht).
    destruct (Ascii.eqb c "."); reflexivity.
Qed.

Lemma rx_unsigned_none (t : string) :
  has_digit t = false ->
  rx (Cat (Star (Cls is_digit))
          (Cat (Opt (Cls (fun c => Ascii.eqb c "."))) (Plus (Cls is_digit)))) t Some
  = None.
Proof.
  intros H. rewrite rx_cat, rx_star.
  rewrite star_no_digit by (auto using no_digit_head_of).
  apply (after_digits_none t H).
Qed.

Lemma rx_numeral_none (s : string) :
  has_digit s = false -> rx Strict.numeral_re s Some = None.
Proof.
  intros H. unfold Strict.numeral_re. rewrite rx_cat, rx_opt.
  rewrite (rx_unsigned_none s H).
  destruct s as [|c s]; [reflexivity|].
  rewrite rx_cls. simpl in H. apply orb_false_iff in H as [_ Hs].
  rewrite (rx_unsigned_none s Hs). destruct (_ || _); reflexivity.
Qed.

Lemma search_no_digit (s : string) :
  has_digit s = false -> search Strict.numeral_re s = None.
Proof.
  induction s as [|c s IH]; intros H.
  - reflexivity.
  - rewrite search_cons, (rx_numeral_none _ H).
    simpl in H. apply orb_false_iff in H as [_ Hs]. apply IH, Hs.
Qed.

End MoreText.

(* ===================================================================== *)
(** * The filters, from the input to the file *)
(* ===================================================================== *)

Section MoreFilters.
Import Py Strict Whole.

Lemma complete_enough_true (c : cell) :
  complete_enough c = true ->
  to_numeric c = Inf false \/ exists q, to_numeric c = Fin q /\ (0.5 <= q)%Q.
Proof.
  unfold complete_enough. destruct (to_numeric c) as [|[|]|q]; simpl.
  - intros H. vm_compute in H. discriminate.
  - discriminate.
  - auto.
  - intros H. right. exists q. split; [reflexivity|]. apply Qle_bool_iff, H.
Qed.

Lemma dedup_rows_first (seen : gset (string * string)) l1 x l2 :
  ~ (row_key x.2 ∈ seen) ->
  (forall y, y ∈ l1 -> row_key y.2 <> row_key x.2) ->
  x ∈ (dedup_rows seen (l1 ++ x :: l2)).2.
Proof.
  revert seen. induction l1 as [|y l1 IH]; intros seen Hx Hl; simpl.
  - rewrite bool_decide_eq_false_2 by exact Hx.
    destruct (dedup_rows _ l2) as [s kept]. apply list_elem_of_here.
  - assert (Hy : row_key y.2 <> row_key x.2) by (apply Hl, list_elem_of_here).
    assert (Hl' : forall z, z ∈ l1 -> row_key z.2 <> row_key x.2)
      by (intros z Hz; apply Hl, list_elem_of_further, Hz).
    destruct (bool_decide (row_key y.2 ∈ seen)) eqn:E.
    + apply IH; assumption.
    + specialize (IH ({[row_key y.2]} ∪ seen)).
      destruct (dedup_rows _ (l1 ++ x :: l2)) as [s kept]. simpl in *.
      apply list_elem_of_further, IH; [|exact Hl'].
      intros H. apply elem_of_union in H as [H | H]; [|exact (Hx H)].
      apply elem_of_singleton in H. exact (Hy (eq_sym H)).
Qed.

Lemma first_of_key_survives (cols : list string) all x :
  first_of_key all x ->
  row_complete (Frame cols all) x.2 = true ->
  all_zero (final_row cols x.2) = false ->
  x ∈ survivors ∅ (Frame cols all).
Proof.
  intros (l1 & l2 & -> & Hp & Hf) Hc Hz. unfold survivors. cbn [rows columns].
  apply elem_of_bfilter. split; [|rewrite Hz; reflexivity].
  apply elem_of_bfilter. split; [|exact Hc].
  rewrite List.filter_app. simpl. rewrite Hp.
  apply dedup_rows_first.
  - apply not_elem_of_empty.
  - intros y Hy. apply elem_of_bfilter in Hy as [Hy Hyp]. apply Hf; assumption.
Qed.

Lemma strict_output_whole (cols : list string) (chunks : list frame) :
  (forall df, df ∈ chunks -> columns df = cols) ->
  (run chunks).2 = None ->
  output chunks = strict_file cols (all_rows chunks).
Proof.
  intros Hc Hn. unfold output, run.
  apply (run_from_whole cols [] init chunks); try reflexivity; assumption.
Qed.

Lemma survivor_written (cols : list string) (chunks : list frame) x :
  (forall df, df ∈ chunks -> columns df = cols) ->
  (run chunks).2 = None ->
  first_of_key (all_rows chunks) x ->
  row_complete (Frame cols []) x.2 = true ->
  all_zero (final_row cols x.2) = false ->
  Data x.1 (final_row cols x.2) ∈ output chunks.
Proof.
  intros Hc Hn Hf Hr Hz. rewrite (strict_output_whole cols chunks Hc Hn).
  unfold strict_file.
  assert (Hx : x ∈ survivors ∅ (Frame cols (all_rows chunks))).
  { apply first_of_key_survives; [exact Hf| |exact Hz].
    rewrite (row_complete_columns _ (Frame cols [])); [exact Hr | reflexivity]. }
  destruct (survivors ∅ _) as [|s kept] eqn:E; [inversion Hx|].
  apply list_elem_of_further.
  apply (list_elem_of_fmap_2 (fun lr => Data lr.1 (final_row cols lr.2))) in Hx.
  exact Hx.
Qed.

Lemma absent_nutrient_not_zero (cols : list string) raw oc :
  oc ∈ nutrient_map -> ~ (oc.2 ∈ cols) -> all_zero (final_row cols raw) = false.
Proof.
  intros Hoc Hn. rewrite all_zero_final_row.
  apply not_true_is_false. intros H. rewrite forallb_forall in H.
  specialize (H oc (proj1 (list_elem_of_In _ _) Hoc)).
  unfold nutrient_value in H. rewrite bool_decide_eq_false_2 in H by exact Hn.
  discriminate.
Qed.

End MoreFilters.

(* ===================================================================== *)
(** * Integer cells through clean_numeric *)
(* ===================================================================== *)

Section MoreIntegers.
Import Py.

Lemma uint_digits (d : Decimal.uint) :
  all_digits (NilEmpty.string_of_uint d) = true.
Proof. induction d; simpl; try rewrite IHd; reflexivity. Qed.

Lemma uint_value_acc (d : Decimal.uint) (p : positive) :
  digits_val (Zpos p) (NilEmpty.string_of_uint d) = Zpos (Pos.of_uint_acc d p).
Proof.
  revert p. induction d; intros p;
    cbn [NilEmpty.string_of_uint digits_val Pos.of_uint_acc]; [reflexivity|..];
    rewrite <- IHd; f_equal;
    match goal with |- context [digit_val ?c] =>
      let v := eval vm_compute in (digit_val c) in change (digit_val c) with v
    end; lia.
Qed.

Lemma uint_value (d : Decimal.uint) :
  digits_val 0 (NilEmpty.string_of_uint d) = Z.of_N (Pos.of_uint d).
Proof.
  induction d; cbn [NilEmpty.string_of_uint digits_val Pos.of_uint];
    [reflexivity | exact IHd | ..]; apply uint_value_acc.
Qed.

(** The decimal text of a positive number. *)
Lemma pos_text (p : positive) :
  NilZero.string_of_uint (Pos.to_uint p) = NilEmpty.string_of_uint (Pos.to_uint p)
  /\ all_digits (NilEmpty.string_of_uint (Pos.to_uint p)) = true
  /\ NilEmpty.string_of_uint (Pos.to_uint p) <> ""
  /\ digits_val 0 (NilEmpty.string_of_uint (Pos.to_uint p)) = Zpos p.
Proof.
  pose proof (DecimalPos.Unsigned.to_uint_nonnil p) as Hn.
  split; [|split; [|split]].
  - destruct (Pos.to_uint p); [congruence | reflexivity..].
  - apply uint_digits.
  - destruct (Pos.to_uint p); [congruence | discriminate..].
  - rewrite uint_value, DecimalPos.Unsigned.of_to. reflexivity.
Qed.

(** The text of a cell made of digits only is the numeral found in it. *)
Lemma extract_digits (c : cell) :
  all_digits (py_str c) = true -> py_str c <> "" ->
  Strict.extract_numeral c = Some (py_str c).
Proof.
  intros Hi Hne. unfold Strict.extract_numeral, Strict.numeric_text.
  rewrite (replace_digits _ Hi). generalize dependent (py_str c). intros ip Hi Hne.
  destruct ip as [|a r] eqn:Eip; [congruence|]. rewrite <- Eip in *.
  assert (Ha : is_digit a = true)
    by (rewrite Eip in Hi; simpl in Hi; apply andb_true_iff in Hi; tauto).
  destruct (digit_char a Ha) as (_ & _ & _ & Hmi & Hpl).
  pose proof (rx_numeral_re ip "" a r) as Hrx. rewrite append_empty_r in Hrx.
  specialize (Hrx Eip Hmi Hpl Hi eq_refl).
  rewrite (backtrack_integer ip Hi Hne) in Hrx.
  rewrite (search_head _ _ _ Hrx). cbn [String.length]. rewrite take_all. reflexivity.
Qed.

(** A minus sign and digits: the numeral found is the whole text. *)
Lemma extract_negative (c : cell) (ds : string) :
  py_str c = String "-" ds -> all_digits ds = true -> ds <> "" ->
  Strict.extract_numeral c = Some (String "-" ds).
Proof.
  intros Hc Hd Hne. unfold Strict.extract_numeral, Strict.numeric_text. rewrite Hc.
  replace (replace "," "." (String "-" ds)) with (String "-" (replace "," "." ds))
    by reflexivity.
  rewrite (replace_digits _ Hd).
  assert (Hrx : rx Strict.numeral_re (String "-" ds) Some = Some "").
  { unfold Strict.numeral_re. rewrite rx_cat, rx_opt, rx_cls. cbv beta.
    replace (Ascii.eqb "-" "-" || Ascii.eqb "-" "+") with true by reflexivity.
    rewrite rx_cat, rx_star.
    pose proof (star_digits (fun t => rx (Cat (Opt (Cls (fun c => Ascii.eqb c ".")))
                                              (Plus (Cls is_digit))) t Some)
                  ds "" (String.length ds) Hd eq_refl) as Hstar.
    rewrite append_empty_r in Hstar. rewrite (Hstar (le_n _)).
    change (match backtrack Strict.after_digits ds "" with
            | Some e => Some e
            | None => rx (Cat (Star (Cls is_digit))
                              (Cat (Opt (Cls (fun c => Ascii.eqb c ".")))
                                   (Plus (Cls is_digit)))) (String "-" ds) Some
            end = Some "").
    rewrite (backtrack_integer ds Hd Hne). reflexivity. }
  rewrite (search_head _ _ _ Hrx). change (String.length "") with 0%nat.
  rewrite take_all. reflexivity.
Qed.

Lemma to_double_negative (ds : string) :
  all_digits ds = true -> ds <> "" ->
  to_double (String "-" ds) = Some (scale10 (- digits_val 0 ds) 0).
Proof.
  intros Hd Hne. unfold to_double.
  replace (lstrip (String "-" ds)) with (String "-" ds) by reflexivity.
  cbn [split_sign]. replace (Ascii.eqb "-" "-") with true by reflexivity.
  rewrite (span_digits_all _ Hd). cbn [split_fraction]. rewrite append_empty_r.
  destruct ds as [|a r]; [congruence|]. reflexivity.
Qed.

Lemma clean_cell_int (z : Z) :
  Strict.clean_cell (CInt z) = clip 0 999999 (Fin (inject_Z z)).
Proof.
  unfold Strict.clean_cell. destruct z as [|p|p].
  - reflexivity.
  - destruct (pos_text p) as (Ht & Hd & Hne & Hv).
    assert (Hs : py_str (CInt (Zpos p)) = NilEmpty.string_of_uint (Pos.to_uint p))
      by exact Ht.
    rewrite extract_digits by (rewrite Hs; assumption).
    rewrite Hs. cbn [to_numeric]. unfold str_to_numeric.
    rewrite (to_double_integer _ Hd Hne), Hv. unfold scale10. simpl (0 <=? 0)%Z.
    cbv iota. rewrite Z.pow_0_r, Z.mul_1_r. reflexivity.
  - destruct (pos_text p) as (Ht & Hd & Hne & Hv).
    assert (Hs : py_str (CInt (Zneg p))
                 = String "-" (NilEmpty.string_of_uint (Pos.to_uint p))).
    { cbn [py_str Z.to_int NilZero.string_of_int]. rewrite Ht. reflexivity. }
    rewrite (extract_negative _ _ Hs Hd Hne).
    cbn [to_numeric]. unfold str_to_numeric.
    rewrite (to_double_negative _ Hd Hne), Hv. unfold scale10. simpl (0 <=? 0)%Z.
    cbv iota. rewrite Z.pow_0_r, Z.mul_1_r. reflexivity.
Qed.

End MoreIntegers.

(* ===================================================================== *)
(** * Properties of the two scripts *)
(* ===================================================================== *)

Section Claims.
Import Py.

(** ** Numeric normalization (C1) *)

(** C1, amended. For every raw cell [c] of a nutrient column that is in
    the input, the strict variant's [clean_numeric] yields a finite value in
    [0, 999999], never an error: 0.0 when the text of the cell holds no
    numeral (absent, blank, unparsable), the clamped value of the first
    numeral otherwise; and so for every cell of a whole column [col]. The
    simple variant's handling of a nutrient cell never raises either, and
    yields a finite value in [0, 999999] for every cell that parses as a
    number. *)
Theorem numeric_normalization_C1 (c : cell) (col : list cell) :
  in_range 0 999999 (Strict.clean_cell c)
  /\ match Strict.extract_numeral c with
     | None => Strict.clean_cell c = Fin 0
     | Some m => Strict.clean_cell c = clip 0 999999 (fillna 0 (str_to_numeric m))
     end
  /\ Forall (in_range 0 999999) (Strict.clean_numeric (Some col))
  /\ (isna (to_numeric c) = false -> in_range 0 999999 (Simple.numeric_cell c)).
Proof.
  split; [apply clean_cell_in_range|]. split; [|split].
  - unfold Strict.clean_cell. destruct (Strict.extract_numeral c); reflexivity.
  - simpl. apply Forall_forall. intros x Hx.
    apply list_elem_of_fmap in Hx as (y & -> & _). apply clean_cell_in_range.
  - unfold Simple.numeric_cell. intros Hna.
    destruct (zero_unless_in_range_cases (to_numeric c)) as [[Hx Hn] | Hr].
    + rewrite Hx in Hna. discriminate.
    + exact Hr.
Qed.

(** An oversized cell: 0.0 in the simple variant, 999999 in the strict. *)
Lemma numeric_normalization_C1_witness :
  isna (to_numeric (CStr "1500000")) = false
  /\ in_range 0 999999 (Simple.numeric_cell (CStr "1500000"))
  /\ in_range 0 999999 (Strict.clean_cell (CStr "1500000")).
Proof.
  assert (H : isna (to_numeric (CStr "1500000")) = false) by reflexivity.
  split; [exact H|]. split.
  - exact (proj2 (proj2 (proj2 (numeric_normalization_C1 (CStr "1500000") []))) H).
  - exact (proj1 (numeric_normalization_C1 (CStr "1500000") [])).
Defined.

(** C1 as stated fails on the simple variant: a blank cell, and a cell with
    a decimal comma and a unit, come out as NaN, not as a value in
    [0, 999999]. *)
Lemma simple_blank_cell_C1_counterexample :
  Simple.numeric_cell missing = NaN
  /\ Simple.numeric_cell (CStr "2,5 g") = NaN
  /\ ~ in_range 0 999999 (Simple.numeric_cell missing).
Proof. split; [reflexivity|]. split; [reflexivity|]. intros H. exact H. Qed.

(** ** The two normalizers on a small value (C10) *)

(** C10 fails on the code. On a text cell the two normalizers do agree on
    every plain decimal numeral in range (lemma [text_numeral_agree]). But a
    nutrient column without any text in it is a float64 column, and a cell
    of it holding 0.00001 has the text [1e-05] after [astype(str)]; the
    pattern of [clean_numeric] has no exponent part and extracts [1], so the
    strict variant yields 1.0 where the simple variant keeps 0.00001. *)
Lemma small_float_C10_diverges :
  py_str (CFloat (Fin 0.00001)) = "1e-05"
  /\ Strict.extract_numeral (CFloat (Fin 0.00001)) = Some "1"
  /\ Strict.clean_cell (CFloat (Fin 0.00001)) = Fin 1
  /\ Simple.numeric_cell (CFloat (Fin 0.00001)) = Fin 0.00001.
Proof. repeat split; vm_compute; reflexivity. Qed.

(** ** Columns that are not there (C8) *)

(** C8 fails on the code. Without the [fiber_100g] column the strict variant
    writes NaN, not 0.0, in the [fiber] field (the empty Series of
    [clean_numeric] aligns to nothing), and such a row is never all-zero;
    without the [brands] column the strict variant stops with a TypeError;
    the simple variant stops with an AttributeError when [fiber_100g] is
    missing. *)
Lemma absent_column_C8_diverges :
  map (fun l => match l with
                | Data i r => Some (i, field "fiber" (Strict.nutrients r))
                | Header _ => None
                end) (Strict.output Examples.no_fiber) = [None; Some (0%Z, NaN)]
  /\ (Strict.run Examples.no_fiber).2 = None
  /\ (Strict.run Examples.no_brands).2 = Some TypeError
  /\ Strict.output Examples.no_brands = []
  /\ (Simple.run Examples.no_fiber).2 = Some AttributeError.
Proof. repeat split; vm_compute; reflexivity. Qed.

(** ** Servings (C5) *)

(** C5. In both variants every record of the output has its [servings] in
    (0, 99]: the field is the lambda applied to the parsed
    [serving_quantity] cell of the input row the record comes from, and the
    lambda keeps a value in (0, 99] and turns anything else (absent, [<= 0],
    [> 99]) into 1.0. *)
Theorem servings_in_range_C5 (chunks : list frame) :
  (forall i r, Data i r ∈ Strict.output chunks ->
     in_range_oc 0 99 (Strict.servings r)
     /\ exists df raw, df ∈ chunks /\ (i, raw) ∈ rows df
          /\ Strict.servings r
             = Strict.servings_of (to_numeric (row_cell raw "serving_quantity")))
  /\ (forall i r, Data i r ∈ Simple.output chunks ->
        in_range_oc 0 99 (Simple.servings r)
        /\ exists df raw, df ∈ chunks /\ (i, raw) ∈ rows df
             /\ Simple.servings r
                = Simple.servings_of (to_numeric (row_cell raw "serving_quantity")))
  /\ (forall x, in_range_oc 0 99 x ->
        Strict.servings_of x = x /\ Simple.servings_of x = x)
  /\ (forall x, ~ in_range_oc 0 99 x ->
        Strict.servings_of x = Fin 1 /\ Simple.servings_of x = Fin 1).
Proof.
  split; [|split; [|split]].
  - intros i r Hl.
    destruct (output_line_source chunks _ Hl) as (df & raw & Hdf & Hraw & _ & -> & _).
    split; [apply servings_of_cases|]. exists df, raw. auto.
  - intros i r Hl.
    destruct (simple_line_source chunks i r Hl) as (df & raw & Hdf & Hraw & ->).
    split; [apply servings_of_cases|]. exists df, raw. auto.
  - intros x Hx. split; [|change (Strict.servings_of x = x)];
      exact (proj1 (proj2 (servings_of_cases x)) Hx).
  - intros x Hx. split; [|change (Strict.servings_of x = Fin 1)];
      exact (proj2 (proj2 (servings_of_cases x)) Hx).
Qed.

(** The apple of the sample has [serving_quantity] 150 and servings 1.0. *)
Lemma servings_in_range_C5_witness :
  Data 0%Z (Strict.final_row Examples.export_columns Examples.apple)
    ∈ Strict.output Examples.menu
  /\ in_range_oc 0 99 (Strict.servings
                         (Strict.final_row Examples.export_columns Examples.apple)).
Proof.
  assert (H : Data 0%Z (Strict.final_row Examples.export_columns Examples.apple)
                ∈ Strict.output Examples.menu) by in_file.
  split; [exact H|].
  exact (proj1 (proj1 (servings_in_range_C5 Examples.menu) _ _ H)).
Defined.

(** ** Serving size (C6) *)

(** C6, amended. In the strict variant the [serving_size] of an output
    record is text: the sentinel ["100g?"] when the raw cell is absent or
    blank after trimming, and otherwise the text of the raw cell with every
    double and single quote removed. *)
Theorem serving_size_C6 (chunks : list frame) :
  (forall i r, Data i r ∈ Strict.output chunks ->
     exists df raw, df ∈ chunks /\ (i, raw) ∈ rows df
       /\ Strict.serving_size r
          = (let t := Strict.text_or_empty (row_cell raw "serving_size") in
             if String.eqb (strip t) "" then "100g?" else Strict.unquote t))
  /\ Strict.text_or_empty missing = ""
  /\ (forall s, Strict.text_or_empty (CStr s) = s).
Proof.
  split; [|split; [reflexivity | reflexivity]].
  intros i r Hl.
  destruct (output_line_source chunks _ Hl) as (df & raw & Hdf & Hraw & _ & -> & _).
  exists df, raw. split; [assumption|]. split; [assumption|].
  unfold Strict.final_row, Strict.remove_quotes, Strict.fix_serving_size. simpl.
  destruct (String.eqb _ ""); reflexivity.
Qed.

(** The apple of the sample, with its [1 'cup']. *)
Lemma serving_size_C6_witness :
  Data 0%Z (Strict.final_row Examples.export_columns Examples.apple)
    ∈ Strict.output Examples.menu
  /\ exists df raw, df ∈ Examples.menu /\ (0%Z, raw) ∈ rows df
       /\ Strict.serving_size (Strict.final_row Examples.export_columns Examples.apple)
          = (let t := Strict.text_or_empty (row_cell raw "serving_size") in
             if String.eqb (strip t) "" then "100g?" else Strict.unquote t).
Proof.
  assert (H : Data 0%Z (Strict.final_row Examples.export_columns Examples.apple)
                ∈ Strict.output Examples.menu) by in_file.
  split; [exact H|].
  exact (proj1 (serving_size_C6 Examples.menu) _ _ H).
Defined.

(** C6 as stated fails: a raw [serving_size] of [1 'cup'] is not blank, and
    the strict variant writes [1 cup]; the simple variant writes no text at
    all: it parses the cell as a number, and [1 'cup'] and [100 g] are
    none. *)
Lemma serving_size_C6_counterexample :
  row_cell Examples.apple "serving_size" = CStr "1 'cup'"
  /\ map (fun l => match l with
                   | Data i r => Some (i, Strict.serving_size r)
                   | Header _ => None
                   end) (Strict.output Examples.menu)
     = [None; Some (0%Z, "1 cup"); Some (4%Z, "100 g")]
  /\ map (fun l => match l with
                   | Data i r => Some (i, Simple.serving_size r)
                   | Header _ => None
                   end) (Simple.output Examples.menu)
     = [None; Some (0%Z, NaN); Some (1%Z, NaN); Some (2%Z, NaN);
        Some (3%Z, NaN); Some (4%Z, NaN)].
Proof. repeat split; vm_compute; reflexivity. Qed.

(** ** The header (C7) *)

(** C7, amended. The header lists the canonical field names in their fixed
    order. The strict variant writes it exactly once, as the first line of
    the file and before any record, when it writes a record at all, and
    never when it writes none; and a run without exception over chunks
    with the same columns and ASCII text does write a record, hence the
    header, as soon as the first row with a name that has its key passes
    the completeness filter and is not all zero. The simple variant writes
    it exactly once, as the first line, in every run without exception over
    at least one chunk, and never more than once in any run. *)
Theorem header_once_C7 (chunks : list frame) :
  Strict.out_columns =
    [ "name"; "brand"; "calories"; "total_carbs"; "fiber"; "sugar"; "added_sugar";
      "total_fats"; "omega_3"; "omega_6"; "saturated_fats"; "trans_fats"; "protein";
      "vitamin_a"; "vitamin_b6"; "vitamin_b12"; "vitamin_c"; "vitamin_d"; "vitamin_e";
      "vitamin_k"; "thiamin"; "riboflavin"; "niacin"; "folate"; "pantothenic_acid";
      "biotin"; "choline"; "calcium"; "chromium"; "copper"; "fluoride"; "iodine";
      "iron"; "magnesium"; "manganese"; "molybdenum"; "phosphorus"; "selenium";
      "zinc"; "potassium"; "sodium"; "chloride"; "serving_size"; "servings" ]
  /\ Simple.out_columns = Strict.out_columns
  /\ (Strict.output chunks = []
      \/ exists body, Strict.output chunks = Header Strict.out_columns :: body
                      /\ body <> [] /\ List.filter is_header body = [])
  /\ (forall cols x,
        (forall df, df ∈ chunks -> columns df = cols) ->
        Whole.ascii_rows (all_rows chunks) = true ->
        (Strict.run chunks).2 = None ->
        Strict.first_of_key (all_rows chunks) x ->
        Strict.row_complete (Frame cols []) x.2 = true ->
        Strict.all_zero (Strict.final_row cols x.2) = false ->
        exists body, Strict.output chunks = Header Strict.out_columns :: body
                     /\ Data x.1 (Strict.final_row cols x.2) ∈ body
                     /\ List.filter is_header body = [])
  /\ (Simple.output chunks = []
      \/ exists body, Simple.output chunks = Header Simple.out_columns :: body
                      /\ List.filter is_header body = [])
  /\ (chunks <> [] -> (Simple.run chunks).2 = None ->
      exists body, Simple.output chunks = Header Simple.out_columns :: body
                   /\ data_labels body = map fst (all_rows chunks)
                   /\ List.filter is_header body = []).
Proof.
  split; [reflexivity|]. split; [reflexivity|]. split; [|split; [|split]].
  - destruct (output_header chunks) as [H | (body & H & Hne & Hb)]; [left; exact H|].
    right. exists body. split; [assumption|]. split; [assumption|].
    apply bfilter_nil_iff, Hb.
  - intros cols x Hc _ Hn Hf Hr Hz.
    pose proof (survivor_written cols chunks x Hc Hn Hf Hr Hz) as Hx.
    destruct (output_header chunks) as [H | (body & H & _ & Hb)];
      [rewrite H in Hx; inversion Hx|].
    exists body. split; [assumption|]. split; [|apply bfilter_nil_iff, Hb].
    rewrite H in Hx. apply elem_of_cons in Hx as [Hx | Hx]; [discriminate | exact Hx].
  - destruct (simple_output_header chunks) as [H | (body & H & Hb)]; [left; exact H|].
    right. exists body. split; [assumption|]. apply bfilter_nil_iff, Hb.
  - intros Hne Hn. pose proof (simple_labels chunks Hn) as Hl.
    destruct (simple_run_file chunks) as (processed & rest & Hc & Ho & Hrest).
    rewrite (Hrest Hn), app_nil_r in Hc. subst processed.
    destruct (simple_output_header chunks) as [H | (body & H & Hb)].
    + rewrite Ho in H. destruct chunks; [congruence | discriminate].
    + exists body. split; [assumption|]. split; [|apply bfilter_nil_iff, Hb].
      rewrite H in Hl. exact Hl.
Qed.

(** The sample run: the strict variant writes the liver of the second
    chunk under the one header, the simple variant every row. *)
Lemma header_once_C7_witness :
  (exists body, Strict.output Examples.menu = Header Strict.out_columns :: body
                /\ Data 4%Z (Strict.final_row Examples.export_columns Examples.liver) ∈ body
                /\ List.filter is_header body = [])
  /\ (exists body, Simple.output Examples.menu = Header Simple.out_columns :: body
                   /\ data_labels body = map fst (all_rows Examples.menu)
                   /\ List.filter is_header body = []).
Proof.
  split.
  - apply (proj1 (proj2 (proj2 (proj2 (header_once_C7 Examples.menu))))
             Examples.export_columns (4%Z, Examples.liver)).
    + intros df Hdf. unfold Examples.menu in Hdf. cases_in Hdf; reflexivity.
    + vm_compute. reflexivity.
    + vm_compute. reflexivity.
    + exists [(0%Z, Examples.apple); (1%Z, Examples.apple_again);
              (2%Z, Examples.nameless); (3%Z, Examples.water)], [].
      split; [reflexivity|]. split; [vm_compute; reflexivity|].
      intros y Hy _. cases_in Hy; vm_compute; discriminate.
    + vm_compute. reflexivity.
    + vm_compute. reflexivity.
  - apply (proj2 (proj2 (proj2 (proj2 (proj2 (header_once_C7 Examples.menu)))))).
    + discriminate.
    + vm_compute. reflexivity.
Defined.

(** C7 as stated fails: the strict variant reads the two chunks of this
    input, each with a row that has a name, raises nothing and writes no
    header at all, the one row being dropped for having no nutrient and
    the other as its duplicate. *)
Lemma header_once_C7_counterexample :
  length Examples.twice = 2
  /\ (Strict.run Examples.twice).2 = None
  /\ List.filter is_header (Strict.output Examples.twice) = []
  /\ Strict.output Examples.twice = [].
Proof. repeat split; vm_compute; reflexivity. Qed.

(** ** De-duplication (C2, C9) *)

(** C2, amended. In the strict variant de-duplication is global across the
    run. The rows of the input having distinct labels: no record is written
    twice; a record that reaches the output is the first row with a name
    that has its (trimmed, lower-cased) name and brand; two rows of the
    input with the same key that both reach the output are the same row;
    and when the first row with a key does not reach the output, no row
    with that key does. In a run without exception over chunks with the
    same columns and ASCII text, the first row with a key is written when
    it passes the completeness filter and is not all zero. So exactly one
    record per key survives, the first encountered, when that first one
    passes the later filters, and none when it does not. The simple
    variant does not de-duplicate: without an exception it writes every
    row. *)
Theorem dedup_first_wins_C2 (chunks : list frame) :
  NoDup (map fst (all_rows chunks)) ->
  NoDup (data_labels (Strict.output chunks))
  /\ (forall i raw,
        (i, raw) ∈ all_rows chunks -> i ∈ data_labels (Strict.output chunks) ->
        Strict.first_of_key (all_rows chunks) (i, raw))
  /\ (forall i j raw raw',
        (i, raw) ∈ all_rows chunks -> (j, raw') ∈ all_rows chunks ->
        i ∈ data_labels (Strict.output chunks) ->
        j ∈ data_labels (Strict.output chunks) ->
        Strict.row_key raw = Strict.row_key raw' ->
        i = j /\ raw = raw')
  /\ (forall cols x,
        (forall df, df ∈ chunks -> columns df = cols) ->
        Whole.ascii_rows (all_rows chunks) = true ->
        (Strict.run chunks).2 = None ->
        Strict.first_of_key (all_rows chunks) x ->
        Strict.row_complete (Frame cols []) x.2 = true ->
        Strict.all_zero (Strict.final_row cols x.2) = false ->
        Data x.1 (Strict.final_row cols x.2) ∈ Strict.output chunks
        /\ x.1 ∈ data_labels (Strict.output chunks)
        /\ forall y, y ∈ all_rows chunks ->
             y.1 ∈ data_labels (Strict.output chunks) ->
             Strict.row_key y.2 = Strict.row_key x.2 -> y = x)
  /\ (forall x, Strict.first_of_key (all_rows chunks) x ->
        ~ (x.1 ∈ data_labels (Strict.output chunks)) ->
        forall y, y ∈ all_rows chunks -> Strict.row_present y.2 = true ->
          Strict.row_key y.2 = Strict.row_key x.2 ->
          ~ (y.1 ∈ data_labels (Strict.output chunks)))
  /\ ((Simple.run chunks).2 = None ->
      data_labels (Simple.output chunks) = map fst (all_rows chunks)).
Proof.
  intros Hnd. split; [|split; [|split; [|split; [|split]]]].
  - exact (sublist_NoDup _ _ Hnd (output_labels_sublist chunks)).
  - intros i raw. apply output_label_first, Hnd.
  - intros i j raw raw' Hi Hj Hio Hjo Hk.
    assert (H : (i, raw) = (j, raw')).
    { apply (first_of_key_unique (all_rows chunks)).
      - apply output_label_first; assumption.
      - apply output_label_first; assumption.
      - exact Hk. }
    inversion H. auto.
  - intros cols x Hc _ Hn Hf Hr Hz.
    pose proof (survivor_written cols chunks x Hc Hn Hf Hr Hz) as Hx.
    split; [exact Hx|]. split; [exact (data_label_elem _ _ _ Hx)|].
    intros [j raw] Hy Hyo Hk. cbn [fst snd] in *.
    apply (first_of_key_unique (all_rows chunks)); [|exact Hf|exact Hk].
    apply output_label_first; assumption.
  - intros x Hx Hxo [j raw] Hy Hp Hk Hyo. cbn [fst snd] in *.
    assert (Hfy : Strict.first_of_key (all_rows chunks) (j, raw))
      by (apply output_label_first; assumption).
    assert (Heq : (j, raw) = x)
      by (apply (first_of_key_unique (all_rows chunks)); assumption).
    subst x. apply Hxo. exact Hyo.
  - apply simple_labels.
Qed.

(** In the sample run the apple that is written is the first apple, the
    second apple is not written, and the liver, the first and only row
    with its key, is. *)
Lemma dedup_first_wins_C2_witness :
  NoDup (map fst (all_rows Examples.menu))
  /\ NoDup (data_labels (Strict.output Examples.menu))
  /\ Strict.first_of_key (all_rows Examples.menu) (0%Z, Examples.apple)
  /\ Strict.row_key Examples.apple_again = Strict.row_key Examples.apple
  /\ data_labels (Strict.output Examples.menu) = [0%Z; 4%Z]
  /\ Data 4%Z (Strict.final_row Examples.export_columns Examples.liver)
       ∈ Strict.output Examples.menu.
Proof.
  assert (Hnd : NoDup (map fst (all_rows Examples.menu)))
    by (apply (bool_decide_unpack _); vm_compute; exact I).
  split; [exact Hnd|]. split; [|split; [|split; [|split]]].
  - exact (proj1 (dedup_first_wins_C2 Examples.menu Hnd)).
  - apply (proj1 (proj2 (dedup_first_wins_C2 Examples.menu Hnd))).
    + in_rows.
    + in_file.
  - vm_compute. reflexivity.
  - vm_compute. reflexivity.
  - apply (proj1 (proj2 (proj2 (proj2 (dedup_first_wins_C2 Examples.menu Hnd))))
             Examples.export_columns (4%Z, Examples.liver)).
    + intros df Hdf. unfold Examples.menu in Hdf. cases_in Hdf; reflexivity.
    + vm_compute. reflexivity.
    + vm_compute. reflexivity.
    + exists [(0%Z, Examples.apple); (1%Z, Examples.apple_again);
              (2%Z, Examples.nameless); (3%Z, Examples.water)], [].
      split; [reflexivity|]. split; [vm_compute; reflexivity|].
      intros y Hy _. cases_in Hy; vm_compute; discriminate.
    + vm_compute. reflexivity.
    + vm_compute. reflexivity.
Defined.

(** C2 as stated fails. In the strict variant two records with the same
    key can leave no survivor at all: the first is seen, then dropped for
    having no nutrient, and the second is dropped as its duplicate. In the
    simple variant both are written. *)
Lemma dedup_C2_counterexample :
  Strict.row_key Examples.apple_empty = Strict.row_key Examples.apple_again
  /\ Strict.row_present Examples.apple_empty = true
  /\ Strict.row_present Examples.apple_again = true
  /\ (Strict.run Examples.twice).2 = None
  /\ Strict.output Examples.twice = []
  /\ data_labels (Simple.output Examples.twice) = [0%Z; 1%Z].
Proof. repeat split; vm_compute; reflexivity. Qed.

(** C9. In the strict variant a key is entered in the seen-key set by the
    duplicate filter, before the completeness and all-zero filters run:
    after a run without exception the key of every row with a name is in
    the set, whatever became of the row. Hence, the rows of the input
    having distinct labels, when the first row with some key does not reach
    the output, no row with that key does. *)
Theorem rejected_first_blocks_key_C9 (chunks : list frame) :
  NoDup (map fst (all_rows chunks)) ->
  (forall x, Strict.first_of_key (all_rows chunks) x ->
             ~ (x.1 ∈ data_labels (Strict.output chunks)) ->
   forall y, y ∈ all_rows chunks -> Strict.row_present y.2 = true ->
             Strict.row_key y.2 = Strict.row_key x.2 ->
             ~ (y.1 ∈ data_labels (Strict.output chunks)))
  /\ ((Strict.run chunks).2 = None ->
      forall y, y ∈ all_rows chunks -> Strict.row_present y.2 = true ->
                Strict.row_key y.2 ∈ Strict.seen_pairs (Strict.run chunks).1).
Proof.
  intros Hnd. split.
  - intros x Hx Hxo [j raw] Hy Hp Hk Hyo. simpl in *.
    assert (Hfy : Strict.first_of_key (all_rows chunks) (j, raw))
      by (apply output_label_first; assumption).
    assert (Heq : (j, raw) = x)
      by (apply (first_of_key_unique (all_rows chunks)); assumption).
    subst x. apply Hxo. exact Hyo.
  - intros Hnone y. apply seen_all_keys, Hnone.
Qed.

(** The apple without nutrients comes first and is dropped; the apple with
    calories that follows it in the next chunk is dropped too. *)
Lemma rejected_first_blocks_key_C9_witness :
  NoDup (map fst (all_rows Examples.twice))
  /\ Strict.first_of_key (all_rows Examples.twice) (0%Z, Examples.apple_empty)
  /\ ~ (0%Z ∈ data_labels (Strict.output Examples.twice))
  /\ ~ (1%Z ∈ data_labels (Strict.output Examples.twice)).
Proof.
  assert (Hnd : NoDup (map fst (all_rows Examples.twice)))
    by (apply (bool_decide_unpack _); vm_compute; exact I).
  assert (Hf : Strict.first_of_key (all_rows Examples.twice) (0%Z, Examples.apple_empty)).
  { exists [], [(1%Z, Examples.apple_again)].
    split; [reflexivity|]. split; [vm_compute; reflexivity|].
    intros y Hy. inversion Hy. }
  assert (H0 : ~ (0%Z ∈ data_labels (Strict.output Examples.twice)))
    by (intros H; vm_compute in H; inversion H).
  split; [exact Hnd|]. split; [exact Hf|]. split; [exact H0|].
  apply (proj1 (rejected_first_blocks_key_C9 Examples.twice Hnd)
               (0%Z, Examples.apple_empty) Hf H0 (1%Z, Examples.apple_again)).
  - in_rows.
  - vm_compute. reflexivity.
  - vm_compute. reflexivity.
Defined.

(** ** Rows without nutrients (C3) *)

(** C3, amended. In the strict variant, the rows of the input having
    distinct labels, a record whose every nutrient field normalizes to
    exactly 0.0 never appears in the output, and every record of the output
    has a nutrient field that is not 0.0. The simple variant has no
    all-zero filter: without an exception it writes every row. *)
Theorem all_zero_dropped_C3 (chunks : list frame) :
  (NoDup (map fst (all_rows chunks)) ->
   forall df i raw, df ∈ chunks -> (i, raw) ∈ rows df ->
     (forall oc, oc ∈ Strict.nutrient_map ->
                 f_is_zero (Strict.nutrient_value (columns df) raw oc.2) = true) ->
     ~ (i ∈ data_labels (Strict.output chunks)))
  /\ (forall i r, Data i r ∈ Strict.output chunks ->
        exists c v, (c, v) ∈ Strict.nutrients r /\ f_is_zero v = false)
  /\ ((Simple.run chunks).2 = None ->
      forall df i raw, df ∈ chunks -> (i, raw) ∈ rows df ->
        Data i (Simple.build_row (columns df) raw) ∈ Simple.output chunks).
Proof.
  split; [|split].
  - intros Hnd df i raw Hdf Hraw Hzero Hi.
    destruct (output_label_source chunks i Hi)
      as (df' & raw' & Hdf' & Hraw' & _ & _ & _ & Hz).
    assert (df = df') by (eapply chunk_of_label_unique; eassumption). subst df'.
    assert (raw = raw').
    { apply (label_unique (all_rows chunks) i); [exact Hnd | |];
        apply elem_of_all_rows; eauto. }
    subst raw'. rewrite all_zero_final_row in Hz.
    assert (Ht : forallb (fun oc => f_is_zero (Strict.nutrient_value (columns df) raw oc.2))
                         Strict.nutrient_map = true).
    { apply forallb_forall. intros oc Hoc. apply Hzero, list_elem_of_In, Hoc. }
    congruence.
  - intros i r Hl.
    destruct (output_line_source chunks _ Hl) as (df & raw & _ & _ & _ & -> & _ & Hz).
    rewrite all_zero_final_row in Hz.
    destruct (forallb (fun oc => f_is_zero (Strict.nutrient_value (columns df) raw oc.2))
                      Strict.nutrient_map) eqn:E; [discriminate|].
    assert (Hex : exists oc, oc ∈ Strict.nutrient_map
                   /\ f_is_zero (Strict.nutrient_value (columns df) raw oc.2) = false).
    { clear Hz Hl. induction Strict.nutrient_map as [|a l IH]; simpl in E; [discriminate|].
      apply andb_false_iff in E as [E | E].
      - exists a. split; [apply list_elem_of_here | exact E].
      - destruct (IH E) as (oc & Hoc & Hv). exists oc.
        split; [apply list_elem_of_further, Hoc | exact Hv]. }
    destruct Hex as (oc & Hoc & Hv).
    exists oc.1, (Strict.nutrient_value (columns df) raw oc.2). split; [|exact Hv].
    unfold Strict.final_row, Strict.remove_quotes, Strict.fix_serving_size,
      Strict.build_row. cbn [Strict.nutrients].
    apply list_elem_of_fmap. exists oc. auto.
  - intros Hnone df i raw. apply simple_all_written, Hnone.
Qed.

(** The product with zero in every nutrient column is not written. *)
Lemma all_zero_dropped_C3_witness :
  NoDup (map fst (all_rows Examples.empty_plate))
  /\ ~ (0%Z ∈ data_labels (Strict.output Examples.empty_plate)).
Proof.
  assert (Hnd : NoDup (map fst (all_rows Examples.empty_plate)))
    by (apply (bool_decide_unpack _); vm_compute; exact I).
  split; [exact Hnd|].
  apply (proj1 (all_zero_dropped_C3 Examples.empty_plate) Hnd
               (Frame Examples.export_columns [(0%Z, Examples.nothing)])
               0%Z Examples.nothing).
  - in_rows.
  - in_rows.
  - intros oc Hoc. apply list_elem_of_In in Hoc.
    assert (Hall : forallb (fun oc => f_is_zero
                     (Strict.nutrient_value Examples.export_columns Examples.nothing oc.2))
                     Strict.nutrient_map = true) by (vm_compute; reflexivity).
    exact (proj1 (forallb_forall _ _) Hall oc Hoc).
Defined.

(** C3 as stated fails on the simple variant: a record whose nutrient
    fields are all 0.0 is written. *)
Lemma all_zero_C3_counterexample :
  forallb (fun cv => f_is_zero cv.2)
          (Simple.nutrients (Simple.build_row Examples.export_columns Examples.nothing))
  = true
  /\ (Simple.run Examples.empty_plate).2 = None
  /\ Simple.output Examples.empty_plate
     = [ Header Simple.out_columns;
         Data 0%Z (Simple.build_row Examples.export_columns Examples.nothing) ].
Proof. repeat split; vm_compute; reflexivity. Qed.

(** ** Rows without a name (C4) *)

(** C4, amended. In the strict variant, the rows of the input having
    distinct labels, a record whose name is absent or blank after trimming
    never appears in the output. In the simple variant it is not rejected:
    without an exception every row is written, and a name that is absent or
    blank is written as [Unknown Product]. *)
Theorem blank_name_C4 (chunks : list frame) :
  (NoDup (map fst (all_rows chunks)) ->
   forall i raw, (i, raw) ∈ all_rows chunks ->
     (cell_isna (row_cell raw "product_name") = true
      \/ strip (py_str (row_cell raw "product_name")) = "") ->
     ~ (i ∈ data_labels (Strict.output chunks)))
  /\ ((Simple.run chunks).2 = None ->
      forall df i raw, df ∈ chunks -> (i, raw) ∈ rows df ->
        Data i (Simple.build_row (columns df) raw) ∈ Simple.output chunks)
  /\ (forall cols raw,
        (cell_isna (row_cell raw "product_name") = true
         \/ exists s, row_cell raw "product_name" = CStr s /\ strip s = "") ->
        Simple.name (Simple.build_row cols raw) = CStr "Unknown Product").
Proof.
  split; [|split].
  - intros Hnd i raw Hraw Hblank Hi.
    apply (output_label_first chunks i raw Hnd Hraw) in Hi.
    apply first_of_key_elem in Hi as [_ Hp]. simpl in Hp.
    apply name_present_false in Hblank. unfold Strict.row_present in Hp. congruence.
  - intros Hnone df i raw. apply simple_all_written, Hnone.
  - intros cols raw H. simpl. unfold Simple.name_of.
    destruct H as [H | (s & -> & H)].
    + rewrite H. reflexivity.
    + simpl. apply strip_blank in H. rewrite H. reflexivity.
Qed.

(** The row of the sample whose name is two blanks is not written. *)
Lemma blank_name_C4_witness :
  NoDup (map fst (all_rows Examples.menu))
  /\ strip (py_str (row_cell Examples.nameless "product_name")) = ""
  /\ ~ (2%Z ∈ data_labels (Strict.output Examples.menu)).
Proof.
  assert (Hnd : NoDup (map fst (all_rows Examples.menu)))
    by (apply (bool_decide_unpack _); vm_compute; exact I).
  assert (Hb : strip (py_str (row_cell Examples.nameless "product_name")) = "")
    by (vm_compute; reflexivity).
  split; [exact Hnd|]. split; [exact Hb|].
  apply (proj1 (blank_name_C4 Examples.menu) Hnd 2%Z Examples.nameless).
  - in_rows.
  - right. exact Hb.
Defined.

(** C4 as stated fails on the simple variant: the record with a blank name
    is written, under the name [Unknown Product]. *)
Lemma blank_name_C4_counterexample :
  strip (py_str (row_cell Examples.nameless "product_name")) = ""
  /\ map (fun l => match l with
                   | Data i r => Some (i, Simple.name r)
                   | Header _ => None
                   end) (Simple.output Examples.anonymous)
     = [None; Some (0%Z, CStr "Unknown Product")].
Proof. repeat split; vm_compute; reflexivity. Qed.

End Claims.

(* ===================================================================== *)
(** * Properties beyond the specification *)
(* ===================================================================== *)

Section Extras.
Import Py Whole.

(** ** clean_numeric *)

(** X1. On a text cell that is a plain decimal numeral (digits with at most
    one point) whose value is in [0, 999999], [clean_numeric] of the strict
    script and the numeric handling of the simple script give the same
    value. *)
Theorem text_cells_agree_X1 (s : string) :
  plain_numeral s = true -> in_range 0 999999 (str_to_numeric s) ->
  Strict.clean_cell (CStr s) = Simple.numeric_cell (CStr s).
Proof. apply text_numeral_agree. Qed.

(** The text [007.50]. *)
Lemma text_cells_agree_X1_witness :
  plain_numeral "007.50" = true
  /\ in_range 0 999999 (str_to_numeric "007.50")
  /\ Strict.clean_cell (CStr "007.50") = Simple.numeric_cell (CStr "007.50").
Proof.
  assert (H1 : plain_numeral "007.50" = true) by reflexivity.
  assert (H2 : in_range 0 999999 (str_to_numeric "007.50"))
    by (vm_compute; split; discriminate).
  split; [exact H1|]. split; [exact H2|].
  exact (text_cells_agree_X1 "007.50" H1 H2).
Defined.

(** X2. On a cell whose text is ASCII, [clean_numeric] finds a numeral
    exactly when the text has a decimal digit; when it has none the result
    is 0.0, whatever else the text holds. *)
Theorem numeral_found_iff_digit_X2 (c : cell) :
  ascii_cell c = true ->
  (has_digit (py_str c) = true <-> exists m, Strict.extract_numeral c = Some m)
  /\ (has_digit (py_str c) = false ->
      Strict.extract_numeral c = None /\ Strict.clean_cell c = Fin 0).
Proof.
  intros _.
  assert (Hno : has_digit (py_str c) = false ->
                Strict.extract_numeral c = None /\ Strict.clean_cell c = Fin 0).
  { intros E. unfold Strict.clean_cell, Strict.extract_numeral, Strict.numeric_text.
    rewrite <- has_digit_replace in E. rewrite (search_no_digit _ E). auto. }
  split; [|exact Hno]. split.
  - intros E. unfold Strict.extract_numeral, Strict.numeric_text.
    rewrite <- has_digit_replace in E. exact (search_digit _ E).
  - intros [m Hm]. destruct (has_digit (py_str c)) eqn:E; [reflexivity|].
    destruct (Hno eq_refl) as [Hn _]. congruence.
Qed.

(** A text with a digit in it, and one without. *)
Lemma numeral_found_iff_digit_X2_witness :
  (exists m, Strict.extract_numeral (CStr "< 1 mg") = Some m)
  /\ Strict.clean_cell (CStr "traces") = Fin 0.
Proof.
  split.
  - apply (proj1 (numeral_found_iff_digit_X2 (CStr "< 1 mg") eq_refl)). reflexivity.
  - apply (proj2 (numeral_found_iff_digit_X2 (CStr "traces") eq_refl)). reflexivity.
Defined.

(** ** The strict loop *)

(** X3. The strict script raises no exception on an input whose chunks all
    have the columns [product_name], [brands], [serving_size] and
    [serving_quantity]; no other column is needed. *)
Theorem strict_no_exception_X3 (chunks : list frame) :
  (forall df, df ∈ chunks -> has_columns strict_required df) ->
  (Strict.run chunks).2 = None.
Proof. apply run_from_total. Qed.

(** An export with those four columns and no other. *)
Lemma strict_no_exception_X3_witness :
  (forall df, df ∈ Samples.bare -> has_columns strict_required df)
  /\ (Strict.run Samples.bare).2 = None.
Proof.
  assert (H : forall df, df ∈ Samples.bare -> has_columns strict_required df).
  { intros df Hdf. unfold Samples.bare in Hdf. cases_in Hdf. intros c Hc. exact Hc. }
  split; [exact H|]. exact (strict_no_exception_X3 Samples.bare H).
Defined.

(** X4. Missing columns the strict script does not survive: when the first
    chunk has no [product_name] column the run ends at once with an
    AttributeError, and when it has one, has a row with a name and has no
    [brands] column the run ends at once with a TypeError; in both cases
    nothing is written. *)
Theorem strict_missing_column_X4 (df : frame) (rest : list frame) :
  (~ ("product_name" ∈ columns df) ->
   Strict.run (df :: rest) = (Strict.init, Some AttributeError))
  /\ ("product_name" ∈ columns df -> ~ ("brands" ∈ columns df) ->
      (exists lr, lr ∈ rows df /\ Strict.row_present lr.2 = true) ->
      Strict.run (df :: rest) = (Strict.init, Some TypeError)).
Proof.
  split.
  - intros Hn. unfold Strict.run. simpl.
    unfold Strict.process_chunk, Strict.drop_empty_names, method_of, bind.
    rewrite (df_get_out _ _ Hn). reflexivity.
  - intros Hn Hb (lr & Hlr & Hp). unfold Strict.run. simpl.
    unfold Strict.process_chunk, bind.
    destruct (Strict.drop_empty_names df) as [df1|e] eqn:E1.
    + apply drop_empty_names_ok in E1. subst df1. cbn [rows].
      destruct (List.filter _ (rows df)) as [|x l] eqn:Ef.
      * assert (Hin : lr ∈ List.filter (fun lr => Strict.row_present lr.2) (rows df))
          by (apply elem_of_bfilter; auto).
        rewrite Ef in Hin. inversion Hin.
      * cbn [is_empty_list]. unfold Strict.deduplicate.
        rewrite (df_get_out "brands") by exact Hb. reflexivity.
    + unfold Strict.drop_empty_names, method_of, bind in E1.
      rewrite (df_get_in _ _ Hn) in E1. discriminate.
Qed.

(** An export without names, and one without brands. *)
Lemma strict_missing_column_X4_witness :
  Strict.run Samples.no_names = (Strict.init, Some AttributeError)
  /\ Strict.run Examples.no_brands = (Strict.init, Some TypeError).
Proof.
  split.
  - apply (proj1 (strict_missing_column_X4 _ [])).
    intros H. apply list_elem_of_In in H. vm_compute in H.
    repeat (destruct H as [H | H]; [discriminate H|]). exact H.
  - apply (proj2 (strict_missing_column_X4 _ [])).
    + cbn [columns]. apply (bool_decide_unpack _). vm_compute. exact I.
    + intros H. apply list_elem_of_In in H. vm_compute in H.
      repeat (destruct H as [H | H]; [discriminate H|]). exact H.
    + exists (0%Z, Examples.apple). split; [apply list_elem_of_here|].
      vm_compute. reflexivity.
Defined.

(** X5. The loop over the chunks comes to one pass over all the rows. The
    chunks being taken as [read_csv] delivers them, each cell with the type
    its chunk gave it, with the same columns in every chunk, ASCII text and
    no exception: the file the strict script writes is empty when no row
    of the whole input survives the filters, the keys seen being carried
    from chunk to chunk, and otherwise the header followed by the final
    records of the survivors, in input order. *)
Theorem strict_file_of_rows_X5 (cols : list string) (chunks : list frame) :
  (forall df, df ∈ chunks -> columns df = cols) ->
  ascii_rows (all_rows chunks) = true ->
  (Strict.run chunks).2 = None ->
  Strict.output chunks = strict_file cols (all_rows chunks).
Proof. intros Hc _ Hn. apply strict_output_whole; assumption. Qed.

(** The sample, in its two chunks. *)
Lemma strict_file_of_rows_X5_witness :
  Strict.output Examples.menu
  = strict_file Examples.export_columns (all_rows Examples.menu).
Proof.
  apply (strict_file_of_rows_X5 Examples.export_columns).
  - intros df Hdf. unfold Examples.menu in Hdf. cases_in Hdf; reflexivity.
  - vm_compute. reflexivity.
  - vm_compute. reflexivity.
Defined.

(** X6. After any run of the strict script, [daCount] is the number of
    records in the file. *)
Theorem strict_count_X6 (chunks : list frame) :
  Strict.daCount (Strict.run chunks).1
  = Z.of_nat (length (data_labels (Strict.output chunks))).
Proof. apply (run_from_count Strict.init chunks). reflexivity. Qed.

(** X7. In a run of the strict script without exception the set of keys
    seen only grows, from whatever state the loop starts; and at the end of
    such a run it holds nothing but keys of input rows that have a name. *)
Theorem seen_pairs_X7 (st : Strict.state) (chunks : list frame) :
  ((Strict.run_from st chunks).2 = None ->
   Strict.seen_pairs st ⊆ Strict.seen_pairs (Strict.run_from st chunks).1)
  /\ ((Strict.run chunks).2 = None ->
      forall k, k ∈ Strict.seen_pairs (Strict.run chunks).1 ->
        exists y, y ∈ all_rows chunks /\ Strict.row_present y.2 = true
                  /\ Strict.row_key y.2 = k).
Proof.
  split; [intros _; apply run_from_seen|]. intros _.
  destruct (run_inv chunks) as (processed & rest & Hc & (Hseen & _) & _).
  intros k Hk. apply Hseen in Hk as (y & Hy & Hp & Hkey).
  exists y. rewrite Hc, all_rows_app. split; [|auto].
  apply elem_of_app. left. exact Hy.
Qed.

(** The key of the sample's apple. *)
Lemma seen_pairs_X7_witness :
  (Strict.run Examples.menu).2 = None
  /\ Strict.seen_pairs Strict.init ⊆ Strict.seen_pairs (Strict.run Examples.menu).1
  /\ Strict.row_key Examples.apple ∈ Strict.seen_pairs (Strict.run Examples.menu).1
  /\ exists y, y ∈ all_rows Examples.menu /\ Strict.row_present y.2 = true
               /\ Strict.row_key y.2 = Strict.row_key Examples.apple.
Proof.
  assert (Hn : (Strict.run Examples.menu).2 = None) by (vm_compute; reflexivity).
  assert (H : Strict.row_key Examples.apple
                ∈ Strict.seen_pairs (Strict.run Examples.menu).1).
  { apply (seen_all_keys Examples.menu (0%Z, Examples.apple)).
    - exact Hn.
    - in_rows.
    - vm_compute. reflexivity. }
  split; [exact Hn|]. split; [|split; [exact H|]].
  - exact (proj1 (seen_pairs_X7 Strict.init Examples.menu) Hn).
  - exact (proj2 (seen_pairs_X7 Strict.init Examples.menu) Hn _ H).
Defined.

(** X8. The strict script writes the records in input order: the labels of
    the records of the file are a subsequence of the labels of the input
    rows. *)
Theorem strict_order_X8 (chunks : list frame) :
  data_labels (Strict.output chunks) `sublist_of` map fst (all_rows chunks).
Proof. apply output_labels_sublist. Qed.

(** X9. The completeness filter of the strict script: when the chunk of a
    record of the file has one of the columns [data_quality_info_score],
    [data_quality_score], [completeness], the first of them in that order
    holds, in the record's row, infinity or a number that is at least 0.5;
    a cell that is absent or not a number there rejects the row. *)
Theorem completeness_filter_X9 (chunks : list frame) (i : Z) (r : Strict.out_row) :
  Data i r ∈ Strict.output chunks ->
  exists df raw, df ∈ chunks /\ (i, raw) ∈ rows df
    /\ Strict.completeness_col df
       = find (fun cand => bool_decide (cand ∈ columns df))
              ["data_quality_info_score"; "data_quality_score"; "completeness"]
    /\ forall c, Strict.completeness_col df = Some c ->
         to_numeric (row_cell raw c) = Inf false
         \/ exists q, to_numeric (row_cell raw c) = Fin q /\ (0.5 <= q)%Q.
Proof.
  intros H. apply output_line_source in H as (df & raw & Hdf & Hraw & _ & _ & Hc & _).
  exists df, raw. split; [exact Hdf|]. split; [exact Hraw|]. split; [reflexivity|].
  intros c Hcol. unfold Strict.row_complete in Hc. rewrite Hcol in Hc.
  apply complete_enough_true, Hc.
Qed.

(** The apple of the sample, whose [completeness] is 0.8. *)
Lemma completeness_filter_X9_witness :
  Data 0%Z (Strict.final_row Examples.export_columns Examples.apple)
    ∈ Strict.output Examples.menu
  /\ exists df raw, df ∈ Examples.menu /\ (0%Z, raw) ∈ rows df
       /\ Strict.completeness_col df
          = find (fun cand => bool_decide (cand ∈ columns df))
                 ["data_quality_info_score"; "data_quality_score"; "completeness"]
       /\ forall c, Strict.completeness_col df = Some c ->
            to_numeric (row_cell raw c) = Inf false
            \/ exists q, to_numeric (row_cell raw c) = Fin q /\ (0.5 <= q)%Q.
Proof.
  assert (H : Data 0%Z (Strict.final_row Examples.export_columns Examples.apple)
                ∈ Strict.output Examples.menu) by in_file.
  split; [exact H|].
  exact (completeness_filter_X9 Examples.menu _ _ H).
Defined.

(** X10. No text field of a record the strict script writes (name, brand,
    serving size) holds a double or a single quote. *)
Theorem no_quotes_X10 (chunks : list frame) (i : Z) (r : Strict.out_row) :
  Data i r ∈ Strict.output chunks ->
  forall t, t ∈ [Strict.name r; Strict.brand r; Strict.serving_size r] ->
    has_char dquote t = false /\ has_char squote t = false.
Proof.
  intros H. apply output_line_source in H as (df & raw & _ & _ & _ & -> & _).
  intros t Ht. unfold Strict.final_row, Strict.remove_quotes in Ht.
  cbn [Strict.name Strict.brand Strict.serving_size] in Ht.
  cases_in Ht; apply unquote_clean.
Qed.

(** The apple of the sample, whose serving size is [1 'cup']. *)
Lemma no_quotes_X10_witness :
  Data 0%Z (Strict.final_row Examples.export_columns Examples.apple)
    ∈ Strict.output Examples.menu
  /\ has_char squote
       (Strict.serving_size (Strict.final_row Examples.export_columns Examples.apple))
     = false.
Proof.
  assert (H : Data 0%Z (Strict.final_row Examples.export_columns Examples.apple)
                ∈ Strict.output Examples.menu) by in_file.
  split; [exact H|].
  refine (proj2 (no_quotes_X10 Examples.menu _ _ H _ _)).
  apply list_elem_of_further, list_elem_of_further, list_elem_of_here.
Defined.

(** X11. The de-duplication key takes no account of white space around
    the name or the brand, nor of the case of their letters, and a brand
    that is blank gives the key of a brand that is absent. *)
Theorem dedup_key_insensitive_X11 (n b : string) :
  (forall p1 p2 q1 q2,
     all_space p1 = true -> all_space p2 = true ->
     all_space q1 = true -> all_space q2 = true ->
     Strict.dedup_key (CStr (p1 +:+ n +:+ p2)) (CStr (q1 +:+ b +:+ q2))
     = Strict.dedup_key (CStr n) (CStr b))
  /\ (forall n' b', lower n' = lower n -> lower b' = lower b ->
        Strict.dedup_key (CStr n') (CStr b') = Strict.dedup_key (CStr n) (CStr b))
  /\ (all_space b = true ->
      Strict.dedup_key (CStr n) (CStr b) = Strict.dedup_key (CStr n) missing).
Proof.
  unfold Strict.dedup_key. cbn [cell_isna py_str missing]. split; [|split].
  - intros p1 p2 q1 q2 H1 H2 H3 H4. rewrite !strip_pad by assumption. reflexivity.
  - intros n' b' Hn Hb. rewrite <- !strip_lower, Hn, Hb. reflexivity.
  - intros Hb. apply strip_blank in Hb. rewrite Hb. reflexivity.
Qed.

(** [Apple] of [BrandX], padded; in capitals; and a brand of two blanks. *)
Lemma dedup_key_insensitive_X11_witness :
  Strict.dedup_key (CStr ("  " +:+ "Apple" +:+ " ")) (CStr ("" +:+ "BrandX" +:+ " "))
  = Strict.dedup_key (CStr "Apple") (CStr "BrandX")
  /\ Strict.dedup_key (CStr "APPLE") (CStr "brandx")
     = Strict.dedup_key (CStr "Apple") (CStr "BrandX")
  /\ Strict.dedup_key (CStr "Apple") (CStr "  ")
     = Strict.dedup_key (CStr "Apple") missing.
Proof.
  split; [|split].
  - apply (proj1 (dedup_key_insensitive_X11 "Apple" "BrandX")); reflexivity.
  - apply (proj1 (proj2 (dedup_key_insensitive_X11 "Apple" "BrandX"))); reflexivity.
  - apply (proj2 (proj2 (dedup_key_insensitive_X11 "Apple" "  "))). reflexivity.
Defined.

(** X12. The name and the brand of a record the strict script writes: the
    name is the text of the row's [product_name] cell, which is present and
    not blank, with its quotes removed; the brand is the text of the row's
    [brands] cell with its quotes removed, and the empty text when that
    cell is absent. *)
Theorem strict_name_brand_X12 (chunks : list frame) (i : Z) (r : Strict.out_row) :
  Data i r ∈ Strict.output chunks ->
  exists df raw, df ∈ chunks /\ (i, raw) ∈ rows df
    /\ cell_isna (row_cell raw "product_name") = false
    /\ strip (py_str (row_cell raw "product_name")) <> ""
    /\ Strict.name r = Strict.unquote (py_str (row_cell raw "product_name"))
    /\ Strict.brand r
       = (if cell_isna (row_cell raw "brands") then ""
          else Strict.unquote (py_str (row_cell raw "brands"))).
Proof.
  intros H.
  apply output_line_source in H as (df & raw & Hdf & Hraw & Hf & -> & _).
  destruct Hf as (l1 & l2 & _ & Hp & _). cbn [snd] in Hp.
  unfold Strict.row_present, Strict.name_present in Hp.
  apply andb_true_iff in Hp as [Hna Hne].
  apply negb_true_iff in Hna. apply negb_true_iff, String.eqb_neq in Hne.
  exists df, raw. repeat (split; [assumption|]). split; [reflexivity|].
  unfold Strict.final_row, Strict.remove_quotes, Strict.fix_serving_size,
    Strict.build_row, Strict.text_or_empty.
  cbn [Strict.brand]. destruct (cell_isna (row_cell raw "brands")); reflexivity.
Qed.

(** The liver of the sample, of [BrandZ]. *)
Lemma strict_name_brand_X12_witness :
  Data 4%Z (Strict.final_row Examples.export_columns Examples.liver)
    ∈ Strict.output Examples.menu
  /\ exists df raw, df ∈ Examples.menu /\ (4%Z, raw) ∈ rows df
       /\ cell_isna (row_cell raw "product_name") = false
       /\ strip (py_str (row_cell raw "product_name")) <> ""
       /\ Strict.name (Strict.final_row Examples.export_columns Examples.liver)
          = Strict.unquote (py_str (row_cell raw "product_name"))
       /\ Strict.brand (Strict.final_row Examples.export_columns Examples.liver)
          = (if cell_isna (row_cell raw "brands") then ""
             else Strict.unquote (py_str (row_cell raw "brands"))).
Proof.
  assert (H : Data 4%Z (Strict.final_row Examples.export_columns Examples.liver)
                ∈ Strict.output Examples.menu) by in_file.
  split; [exact H|].
  exact (strict_name_brand_X12 Examples.menu _ _ H).
Defined.

(** X13. The filters of the strict script are the only obstacles: with the
    same columns in every chunk, ASCII text and no exception, the first row
    with a name that has its key is written, as its final record, when it
    passes the completeness filter and has a nutrient field that is not
    0.0. *)
Theorem strict_survivor_written_X13 (cols : list string) (chunks : list frame)
    (x : Z * gmap string cell) :
  (forall df, df ∈ chunks -> columns df = cols) ->
  ascii_rows (all_rows chunks) = true ->
  (Strict.run chunks).2 = None ->
  Strict.first_of_key (all_rows chunks) x ->
  Strict.row_complete (Frame cols []) x.2 = true ->
  Strict.all_zero (Strict.final_row cols x.2) = false ->
  Data x.1 (Strict.final_row cols x.2) ∈ Strict.output chunks.
Proof. intros Hc _. apply survivor_written, Hc. Qed.

(** The liver of the sample. *)
Lemma strict_survivor_written_X13_witness :
  Data 4%Z (Strict.final_row Examples.export_columns Examples.liver)
    ∈ Strict.output Examples.menu.
Proof.
  apply (strict_survivor_written_X13 Examples.export_columns Examples.menu
           (4%Z, Examples.liver)).
  - intros df Hdf. unfold Examples.menu in Hdf. cases_in Hdf; reflexivity.
  - vm_compute. reflexivity.
  - vm_compute. reflexivity.
  - exists [(0%Z, Examples.apple); (1%Z, Examples.apple_again);
            (2%Z, Examples.nameless); (3%Z, Examples.water)], [].
    split; [reflexivity|]. split; [vm_compute; reflexivity|].
    intros y Hy _. cases_in Hy; vm_compute; discriminate.
  - vm_compute. reflexivity.
  - vm_compute. reflexivity.
Defined.

(** X14. A nutrient column that is absent from the input switches the
    all-zero filter of the strict script off: with the same columns in
    every chunk, one nutrient column among them missing, ASCII text and no
    exception, the first row with a name that has its key is written as
    soon as it passes the completeness filter, whatever its nutrient cells
    hold. *)
Theorem absent_column_no_zero_filter_X14 (cols : list string) (chunks : list frame)
    (oc : string * string) (x : Z * gmap string cell) :
  oc ∈ Strict.nutrient_map -> ~ (oc.2 ∈ cols) ->
  (forall df, df ∈ chunks -> columns df = cols) ->
  ascii_rows (all_rows chunks) = true ->
  (Strict.run chunks).2 = None ->
  Strict.first_of_key (all_rows chunks) x ->
  Strict.row_complete (Frame cols []) x.2 = true ->
  Data x.1 (Strict.final_row cols x.2) ∈ Strict.output chunks.
Proof.
  intros Hoc Hn Hc _ Hr Hf Hk.
  apply survivor_written; try assumption.
  apply (absent_nutrient_not_zero cols x.2 oc Hoc Hn).
Qed.

(** A product with every nutrient cell at zero, in an export without the
    [fiber_100g] column: it is written. *)
Lemma absent_column_no_zero_filter_X14_witness :
  Data 0%Z (Strict.final_row Samples.no_fiber_columns Examples.nothing)
    ∈ Strict.output Samples.plate_no_fiber.
Proof.
  apply (absent_column_no_zero_filter_X14 Samples.no_fiber_columns Samples.plate_no_fiber
           ("fiber", "fiber_100g") (0%Z, Examples.nothing)).
  - apply (bool_decide_unpack _). vm_compute. exact I.
  - intros H. apply list_elem_of_In in H. vm_compute in H.
    repeat (destruct H as [H | H]; [discriminate H|]). exact H.
  - intros df Hdf. unfold Samples.plate_no_fiber in Hdf. cases_in Hdf; reflexivity.
  - vm_compute. reflexivity.
  - vm_compute. reflexivity.
  - exists [], []. split; [reflexivity|]. split; [vm_compute; reflexivity|].
    intros y Hy. inversion Hy.
  - vm_compute. reflexivity.
Defined.

(** ** The simple loop *)

(** X15. The simple script runs without exception exactly when every chunk
    has the [product_name] column, the [energy-kcal_100g] column, the 39
    other nutrient columns, [serving_size] and [serving_quantity], and no
    cell of [energy-kcal_100g] is text. *)
Theorem simple_no_exception_X15 (chunks : list frame) :
  (Simple.run chunks).2 = None <->
  forall df, df ∈ chunks -> has_columns simple_required df /\ calories_numeric df.
Proof. apply simple_run_from_total. Qed.

(** The sample runs, so it has what the script needs. *)
Lemma simple_no_exception_X15_witness :
  (Simple.run Examples.menu).2 = None
  /\ forall df, df ∈ Examples.menu ->
       has_columns simple_required df /\ calories_numeric df.
Proof.
  assert (H : (Simple.run Examples.menu).2 = None) by (vm_compute; reflexivity).
  split; [exact H|].
  exact (proj1 (simple_no_exception_X15 Examples.menu) H).
Defined.

(** X16. The chunks being taken as [read_csv] delivers them, each cell
    with the type its chunk gave it, with the same columns in every chunk,
    ASCII text, at least one chunk and no exception: the file the simple
    script writes is the header followed by one record for every row of
    every chunk, in input order, each the mapping of its row. *)
Theorem simple_file_of_rows_X16 (cols : list string) (chunks : list frame) :
  (forall df, df ∈ chunks -> columns df = cols) ->
  ascii_rows (all_rows chunks) = true ->
  chunks <> [] -> (Simple.run chunks).2 = None ->
  Simple.output chunks = simple_file cols (all_rows chunks).
Proof.
  intros Hc _ Hne Hn.
  destruct (simple_run_file chunks) as (processed & rest & Heq & -> & Hrest).
  rewrite (Hrest Hn), app_nil_r in Heq. subst processed.
  destruct chunks as [|d chunks]; [congruence|].
  unfold Simple.file_of, simple_file. f_equal. apply chunk_lines_rows, Hc.
Qed.

(** The sample. *)
Lemma simple_file_of_rows_X16_witness :
  Simple.output Examples.menu
  = simple_file Examples.export_columns (all_rows Examples.menu).
Proof.
  apply simple_file_of_rows_X16.
  - intros df Hdf. unfold Examples.menu in Hdf. cases_in Hdf; reflexivity.
  - vm_compute. reflexivity.
  - discriminate.
  - vm_compute. reflexivity.
Defined.

(** X17. After a run of the simple script without exception, [daCount] is
    10000 times the number of chunks, whatever the number of rows read or
    written. *)
Theorem simple_count_X17 (chunks : list frame) :
  (Simple.run chunks).2 = None ->
  Simple.daCount (Simple.run chunks).1 = (10000 * Z.of_nat (length chunks))%Z.
Proof.
  intros H. unfold Simple.run in *.
  rewrite (simple_run_from_count Simple.init chunks H). reflexivity.
Qed.

(** The sample: two chunks, five rows, a count of 20000. *)
Lemma simple_count_X17_witness :
  Simple.daCount (Simple.run Examples.menu).1 = 20000%Z
  /\ length (data_labels (Simple.output Examples.menu)) = 5.
Proof.
  split.
  - apply (simple_count_X17 Examples.menu). vm_compute. reflexivity.
  - vm_compute. reflexivity.
Defined.

(** X18. The name of a record the simple script writes is never absent and
    never a blank text. *)
Theorem simple_name_X18 (chunks : list frame) (i : Z) (r : Simple.out_row) :
  Data i r ∈ Simple.output chunks ->
  Simple.name r <> missing
  /\ forall s, Simple.name r = CStr s -> strip s <> "".
Proof.
  intros H. apply simple_line_source in H as (df & raw & _ & _ & ->).
  apply name_of_named.
Qed.

(** The row of the sample whose name is two blanks. *)
Lemma simple_name_X18_witness :
  Data 2%Z (Simple.build_row Examples.export_columns Examples.nameless)
    ∈ Simple.output Examples.menu
  /\ Simple.name (Simple.build_row Examples.export_columns Examples.nameless) <> missing.
Proof.
  assert (H : Data 2%Z (Simple.build_row Examples.export_columns Examples.nameless)
                ∈ Simple.output Examples.menu) by in_file.
  split; [exact H|].
  exact (proj1 (simple_name_X18 Examples.menu _ _ H)).
Defined.

(** ** Records and integer cells *)

(** X20. The all-zero filter of the strict script reads back the 40
    nutrient columns of the records built before it, all of them and
    nothing else: in every record of the file the nutrient fields are
    named as the filter's list, in its order, and the filter's test on the
    record is that every one of its nutrient values is 0.0. *)
Theorem zero_filter_columns_X20 (chunks : list frame) (i : Z) (r : Strict.out_row) :
  Data i r ∈ Strict.output chunks ->
  map fst (Strict.nutrients r) = Strict.nutrient_cols
  /\ Strict.all_zero r = forallb f_is_zero (map snd (Strict.nutrients r)).
Proof.
  intros H. apply output_line_source in H as (df & raw & _ & _ & _ & -> & _).
  unfold Strict.all_zero, Strict.final_row, Strict.remove_quotes,
    Strict.fix_serving_size, Strict.build_row.
  cbn [Strict.nutrients]. generalize (Strict.nutrient_value (columns df) raw).
  intros nv. split; reflexivity.
Qed.

(** The apple of the sample. *)
Lemma zero_filter_columns_X20_witness :
  Data 0%Z (Strict.final_row Examples.export_columns Examples.apple)
    ∈ Strict.output Examples.menu
  /\ map fst (Strict.nutrients (Strict.final_row Examples.export_columns Examples.apple))
     = Strict.nutrient_cols.
Proof.
  assert (H : Data 0%Z (Strict.final_row Examples.export_columns Examples.apple)
                ∈ Strict.output Examples.menu) by in_file.
  split; [exact H|].
  exact (proj1 (zero_filter_columns_X20 Examples.menu _ _ H)).
Defined.

(** X21. On an integer cell the way of [clean_numeric] through the text of
    the number loses nothing: the result is the integer clamped to
    [0, 999999]; so an integer in that range comes out as it is, as in the
    simple script. *)
Theorem integer_cells_X21 (z : Z) :
  Strict.clean_cell (CInt z) = clip 0 999999 (Fin (inject_Z z))
  /\ ((0 <= z <= 999999)%Z ->
      Strict.clean_cell (CInt z) = Fin (inject_Z z)
      /\ Simple.numeric_cell (CInt z) = Fin (inject_Z z)).
Proof.
  split; [apply clean_cell_int|]. intros [Hlo Hhi].
  assert (Hr : in_range 0 999999 (Fin (inject_Z z))).
  { split; unfold Qle; simpl; lia. }
  destruct (in_range_kept _ Hr) as [Hc Hs]. rewrite clean_cell_int.
  split; [exact Hc | exact Hs].
Qed.

(** The integer 52. *)
Lemma integer_cells_X21_witness :
  Strict.clean_cell (CInt 52) = Fin (inject_Z 52)
  /\ Simple.numeric_cell (CInt 52) = Fin (inject_Z 52).
Proof. apply (proj2 (integer_cells_X21 52)). lia. Defined.

End Extras.
